(** * SEED Tech candidate matching: scoring and similarity resolution

    A shallow embedding of the scoring core of the repository
    ([api/similarity.py], [api/database.py], [api/scoring.py],
    [api/config.py]) and the properties of its specification.

    Conventions of the embedding.
    - Python floats are exact rationals ([Q]): the arithmetic is the real
      one, without rounding.  Scores that Python compares with [==] are
      compared with [==] on [Q], or with [=] where the very same stored
      value is returned.
    - Python [str] is [string] (a sequence of UTF-8 bytes).  Comparison of
      strings is byte-wise, which on UTF-8 is the code-point order Python
      uses.
    - A dictionary whose keys may be missing is a record of [option] fields
      ([None]: the key is missing); a Python value that may be [None] is an
      [option] again.
    - Redis, PostgreSQL, the in-process memo of [functools.lru_cache], the
      clock and the language-model endpoint are fields of one [World] that
      every effectful function threads; exceptions are results of the
      [M] monad.  The two stores are taken to be available: their
      statements do not raise.
    - A row of a cache table holds the score written, where the REAL
      column of PostgreSQL keeps its single-precision rounding: a
      statement that compares a score read back with the score written
      is made for a Redis client, whose entries are exact, or for a call
      that has written nothing. *)

From Stdlib Require Import QArith Qabs Qround Lqa Qminmax.
From stdpp Require Import base option list strings gmap.
From Stdlib Require Import Ascii String.

Set Default Proof Using "Type".
Open Scope string_scope.
Open Scope list_scope.

(** ** Python strings *)

Module Text.

Definition code (c : ascii) : nat := nat_of_ascii c.

(** [str.lower] on one byte of an ASCII letter. *)
Definition lower_ascii (c : ascii) : ascii :=
  if (65 <=? code c)%nat && (code c <=? 90)%nat
  then ascii_of_nat (code c + 32) else c.

(** The second byte of a two-byte UTF-8 sequence led by 0xC3 encodes
    U+00C0..U+00FF; the upper-case letters U+00C0..U+00DE (U+00D7, the
    multiplication sign, apart) have their lower case 0x20 further. *)
Definition lower_latin1 (c : ascii) : ascii :=
  if (128 <=? code c)%nat && (code c <=? 158)%nat && negb (code c =? 151)%nat
  then ascii_of_nat (code c + 32) else c.

(** [str.lower()]: ASCII and Latin-1 letters are lowered; code points
    beyond U+00FF are left as they are. *)
Fixpoint lower (s : string) : string :=
  match s with
  | EmptyString => EmptyString
  | String c rest =>
      if (code c =? 195)%nat then
        match rest with
        | String d rest' => String c (String (lower_latin1 d) (lower rest'))
        | EmptyString => String c EmptyString
        end
      else String (lower_ascii c) (lower rest)
  end.

(** Membership in [string.punctuation]. *)
Definition is_punctuation (c : ascii) : bool :=
  let n := code c in
  ((33 <=? n) && (n <=? 47) || (58 <=? n) && (n <=? 64)
   || (91 <=? n) && (n <=? 96) || (123 <=? n) && (n <=? 126))%nat.

(** [text.translate(str.maketrans('', '', string.punctuation))] *)
Fixpoint remove_punctuation (s : string) : string :=
  match s with
  | EmptyString => EmptyString
  | String c rest =>
      if is_punctuation c then remove_punctuation rest
      else String c (remove_punctuation rest)
  end.

(** The ASCII characters for which [str.isspace()] holds. *)
Definition is_whitespace (c : ascii) : bool :=
  let n := code c in
  ((9 <=? n) && (n <=? 13) || (28 <=? n) && (n <=? 32))%nat.

Fixpoint lstrip (s : string) : string :=
  match s with
  | EmptyString => EmptyString
  | String c rest => if is_whitespace c then lstrip rest else s
  end.

Definition rstrip (s : string) : string :=
  String.rev (lstrip (String.rev s)).

(** [str.strip()] *)
Definition strip (s : string) : string := rstrip (lstrip s).

(** Truth value of a Python string. *)
Definition truthy (s : string) : bool :=
  match s with EmptyString => false | _ => true end.

(** [sorted([text1, text2])]: the sort is stable, the second text comes
    first only when it is strictly smaller. *)
Definition sorted_pair (text1 text2 : string) : string * string :=
  if String.ltb text2 text1 then (text2, text1) else (text1, text2).

End Text.


(** ** Configuration ([api/config.py]) *)

Module Config.

Open Scope Q_scope.

(** A Python [dict] with string keys, in insertion order. *)
Definition dict (V : Type) := list (string * V).

Definition BASE_WEIGHTS : dict Q :=
  [ ("hard_skills", 0.40);
    ("soft_skills", 0.10);
    ("experience", 0.20);
    ("degree", 0.15);
    ("salary", 0.025);
    ("remote_work", 0.025);
    ("languages", 0.10) ].

Definition FIXED_FIELDS : list string := ["salary"; "remote_work"].

(** Default of the environment variable [MAX_CACHE_ENTRIES]. *)
Definition MAX_CACHE_ENTRIES_DEFAULT : Z := 100000.

Definition TECH_SKILLS_RELATIONS : dict (list string) :=
  [ ("javascript", ["js"; "es6"; "ecmascript"; "typescript"; "angular"; "react"; "vue"; "node.js"; "jquery"]);
    ("typescript", ["ts"; "javascript"; "angular"; "react"]);
    ("python", ["django"; "flask"; "fastapi"; "numpy"; "pandas"; "scipy"; "tensorflow"; "pytorch"; "scikit-learn"; "machine learning"]);
    ("java", ["spring"; "hibernate"; "j2ee"; "kotlin"; "scala"; "android"]);
    ("c#", ["dotnet"; ".net"; "asp.net"; "entity framework"; "xamarin"; "unity"]);
    ("c++", ["c"; "stl"; "boost"; "qt"; "unreal engine"]);
    ("php", ["laravel"; "symfony"; "wordpress"; "drupal"; "magento"]);
    ("ruby", ["ruby on rails"; "sinatra"; "rspec"]);
    ("swift", ["ios"; "cocoa"; "objective-c"; "xcode"]);
    ("go", ["golang"; "gin"; "echo"]);
    ("rust", ["cargo"; "actix"; "tokio"]);
    ("html", ["html5"; "css"; "web development"; "front-end"; "frontend"]);
    ("css", ["scss"; "sass"; "less"; "bootstrap"; "tailwind"; "styled components"; "html"]);
    ("react", ["react.js"; "reactjs"; "jsx"; "redux"; "react native"; "javascript"; "typescript"]);
    ("angular", ["angularjs"; "typescript"; "javascript"]);
    ("vue", ["vuejs"; "vue.js"; "nuxt"; "javascript"]);
    ("sql", ["mysql"; "postgresql"; "oracle"; "ms sql"; "sqlite"; "database"; "db"]);
    ("nosql", ["mongodb"; "couchdb"; "firebase"; "dynamodb"; "database"; "db"]);
    ("mongodb", ["mongo"; "nosql"; "database"; "db"]);
    ("postgresql", ["postgres"; "sql"; "database"; "db"]);
    ("aws", ["amazon web services"; "ec2"; "s3"; "lambda"; "cloud"]);
    ("azure", ["microsoft azure"; "cloud"]);
    ("gcp", ["google cloud platform"; "cloud"]);
    ("docker", ["container"; "kubernetes"; "k8s"; "devops"]);
    ("kubernetes", ["k8s"; "container orchestration"; "docker"; "devops"]);
    ("ci/cd", ["continuous integration"; "continuous deployment"; "jenkins"; "github actions"; "gitlab ci"; "devops"]);
    ("machine learning", ["ml"; "ai"; "artificial intelligence"; "data science"; "deep learning"; "neural networks"]);
    ("data science", ["machine learning"; "statistics"; "data analysis"; "big data"; "python"; "r"]);
    ("tensorflow", ["keras"; "deep learning"; "machine learning"; "python"]);
    ("pytorch", ["deep learning"; "machine learning"; "python"]);
    ("android", ["kotlin"; "java"; "mobile development"]);
    ("ios", ["swift"; "objective-c"; "mobile development"]);
    ("react native", ["react"; "mobile development"; "javascript"; "typescript"]);
    ("flutter", ["dart"; "mobile development"]);
    ("git", ["github"; "gitlab"; "bitbucket"; "version control"]);
    ("agile", ["scrum"; "kanban"; "jira"; "project management"]);
    ("rest api", ["api"; "restful"; "web services"]);
    ("graphql", ["api"; "apollo"]) ].

End Config.

(** ** The world and its monad *)

Module Py.

(** The exceptions the modelled code can meet. *)
Inductive exn : Type :=
| APIError                          (* the language-model request failed *)
| UnboundLocalError (var : string)  (* a local read before assignment *)
| KeyError (key : string).          (* [d[key]] on a missing key *)

Inductive cache_type : Type :=
| ct_name | ct_hard_skills | ct_soft_skills | ct_degree_domain.

#[export] Instance cache_type_eq_dec : EqDecision cache_type.
Proof. solve_decision. Defined.

(** The string the source passes as [cache_type]. *)
Definition cache_type_str (ct : cache_type) : string :=
  match ct with
  | ct_name => "name"
  | ct_hard_skills => "hard_skills"
  | ct_soft_skills => "soft_skills"
  | ct_degree_domain => "degree_domain"
  end.

(** A row of a [<cache_type>_similarity_cache] table. *)
Record Row : Type := mkRow {
  row_text1 : string;
  row_text2 : string;
  row_score : Q;
  row_timestamp : Z
}.

Record World : Type := mkWorld {
  (** [redis_client]: [None] when [REDIS_URL] is not set; the values are
      the scores ([str(score)] read back by [float]). *)
  redis_client : option (gmap string Q);
  (** the four PostgreSQL tables, rows in insertion order *)
  pg_tables : cache_type -> list Row;
  (** the memo of [@lru_cache] on [calculate_skill_similarity], most
      recently used first *)
  lru : list (string * string * Q);
  (** [int(time.time())] *)
  clock : Z;
  (** [MAX_CACHE_ENTRIES] *)
  max_cache_entries : Z;
  (** the language model: what the [n]-th request answers to a prompt,
      [None] when the request raises *)
  oracle : nat -> string -> option string;
  (** requests sent to the language model so far *)
  oracle_calls : nat;
  (** instrumentation: calls of [get_similarity_from_cache] and of
      [save_similarity_to_cache] so far *)
  cache_reads : nat;
  cache_writes : nat
}.

Definition M (A : Type) : Type := World -> (exn + A) * World.

#[export] Instance M_ret : MRet M := fun A a w => (inr a, w).
#[export] Instance M_bind : MBind M := fun A B f m w =>
  match m w with
  | (inl e, w') => (inl e, w')
  | (inr a, w') => f a w'
  end.

Definition raise {A} (e : exn) : M A := fun w => (inl e, w).

(** [try: body / except Exception: handler]; what the body did to the
    world before it raised stays done. *)
Definition try_except {A} (body : M A) (handler : exn -> M A) : M A :=
  fun w => match body w with
           | (inl e, w') => handler e w'
           | (inr a, w') => (inr a, w')
           end.

Definition gets {A} (f : World -> A) : M A := fun w => (inr (f w), w).
Definition modify (f : World -> World) : M unit := fun w => (inr tt, f w).

Definition run {A} (m : M A) (w : World) : (exn + A) * World := m w.

Definition set_redis (r : option (gmap string Q)) (w : World) : World :=
  mkWorld r (pg_tables w) (lru w) (clock w) (max_cache_entries w)
          (oracle w) (oracle_calls w) (cache_reads w) (cache_writes w).
Definition set_table (ct : cache_type) (rows : list Row) (w : World) : World :=
  mkWorld (redis_client w)
          (fun ct' => if decide (ct' = ct) then rows else pg_tables w ct')
          (lru w) (clock w) (max_cache_entries w)
          (oracle w) (oracle_calls w) (cache_reads w) (cache_writes w).
Definition set_lru (l : list (string * string * Q)) (w : World) : World :=
  mkWorld (redis_client w) (pg_tables w) l (clock w) (max_cache_entries w)
          (oracle w) (oracle_calls w) (cache_reads w) (cache_writes w).
Definition count_oracle_call (w : World) : World :=
  mkWorld (redis_client w) (pg_tables w) (lru w) (clock w) (max_cache_entries w)
          (oracle w) (S (oracle_calls w)) (cache_reads w) (cache_writes w).
Definition count_cache_read (w : World) : World :=
  mkWorld (redis_client w) (pg_tables w) (lru w) (clock w) (max_cache_entries w)
          (oracle w) (oracle_calls w) (S (cache_reads w)) (cache_writes w).
Definition count_cache_write (w : World) : World :=
  mkWorld (redis_client w) (pg_tables w) (lru w) (clock w) (max_cache_entries w)
          (oracle w) (oracle_calls w) (cache_reads w) (S (cache_writes w)).

End Py.

(** ** The two-tier similarity cache ([api/database.py]) *)

Module Database.
Import Py.

(** [get_cache_key]: the Redis key of a pair. *)
Definition get_cache_key (ct : cache_type) (text1 text2 : string) : string :=
  let sorted_texts := Text.sorted_pair text1 text2 in
  cache_type_str ct ++ ":" ++ sorted_texts.1 ++ ":" ++ sorted_texts.2.

(** [WHERE text1 = %s AND text2 = %s] *)
Definition row_matches (text1 text2 : string) (r : Row) : bool :=
  String.eqb (row_text1 r) text1 && String.eqb (row_text2 r) text2.

(** [SELECT score FROM table WHERE ...] followed by [fetchone()] *)
Definition select_score (rows : list Row) (text1 text2 : string) : option Q :=
  row_score <$> find (row_matches text1 text2) rows.

(** [UPDATE table SET timestamp = %s WHERE ...] *)
Definition update_timestamp (rows : list Row) (text1 text2 : string) (now : Z)
  : list Row :=
  map (fun r => if row_matches text1 text2 r
                then mkRow (row_text1 r) (row_text2 r) (row_score r) now
                else r) rows.

(** [INSERT ... ON CONFLICT (text1, text2) DO UPDATE SET score, timestamp] *)
Fixpoint upsert (rows : list Row) (text1 text2 : string) (score : Q) (now : Z)
  : list Row :=
  match rows with
  | [] => [mkRow text1 text2 score now]
  | r :: rest =>
      if row_matches text1 text2 r
      then mkRow text1 text2 score now :: rest
      else r :: upsert rest text1 text2 score now
  end.

Definition min_timestamp (rows : list Row) : option Z :=
  foldr (fun r acc => match acc with
                      | None => Some (row_timestamp r)
                      | Some m => Some (Z.min (row_timestamp r) m)
                      end) None rows.

Fixpoint remove_first (p : Row -> bool) (rows : list Row) : list Row :=
  match rows with
  | [] => []
  | r :: rest => if p r then rest else r :: remove_first p rest
  end.

Definition delete_oldest_row (rows : list Row) : list Row :=
  match min_timestamp rows with
  | None => rows
  | Some m => remove_first (fun r => Z.eqb (row_timestamp r) m) rows
  end.

(** [DELETE FROM table WHERE id IN (SELECT id FROM table ORDER BY
    timestamp ASC LIMIT n)]; among rows of one timestamp the earlier
    inserted goes first. *)
Definition delete_oldest (n : nat) (rows : list Row) : list Row :=
  Nat.iter n delete_oldest_row rows.

(** [get_similarity_from_cache]: Redis first, then PostgreSQL; a hit in
    PostgreSQL refreshes the timestamp of the row. *)
Definition get_similarity_from_cache (ct : cache_type) (text1 text2 : string)
  : M (option Q) :=
  modify count_cache_read ;;
  client ← gets redis_client;
  let cached_value :=
    match client with
    | Some store => store !! get_cache_key ct text1 text2
    | None => None
    end in
  match cached_value with
  | Some v => mret (Some v)
  | None =>
      let sorted_texts := Text.sorted_pair text1 text2 in
      let text1 := sorted_texts.1 in
      let text2 := sorted_texts.2 in
      rows ← gets (fun w => pg_tables w ct);
      match select_score rows text1 text2 with
      | Some score =>
          now ← gets clock;
          modify (set_table ct (update_timestamp rows text1 text2 now)) ;;
          mret (Some score)
      | None => mret None
      end
  end.

(** [save_similarity_to_cache]: Redis when there is a client, then
    PostgreSQL, where a full table first loses its oldest tenth
    ([int(MAX_CACHE_ENTRIES * 0.1)] is the integer quotient by ten). *)
Definition save_similarity_to_cache (ct : cache_type) (text1 text2 : string)
    (score : Q) : M unit :=
  modify count_cache_write ;;
  client ← gets redis_client;
  match client with
  | Some store =>
      modify (set_redis (Some (<[get_cache_key ct text1 text2 := score]> store)))
  | None => mret tt
  end ;;
  let sorted_texts := Text.sorted_pair text1 text2 in
  let text1 := sorted_texts.1 in
  let text2 := sorted_texts.2 in
  now ← gets clock;
  rows ← gets (fun w => pg_tables w ct);
  limit ← gets max_cache_entries;
  let count := Z.of_nat (List.length rows) in
  let rows :=
    if (limit <=? count)%Z
    then delete_oldest (Z.to_nat (limit / 10)) rows
    else rows in
  modify (set_table ct (upsert rows text1 text2 score now)).

(** What a lookup of the pair would answer in a world, without the
    lookup being made. *)
Definition cache_peek (w : World) (ct : cache_type) (text1 text2 : string)
  : option Q :=
  match redis_client w ≫= (fun store => store !! get_cache_key ct text1 text2) with
  | Some v => Some v
  | None =>
      let sorted_texts := Text.sorted_pair text1 text2 in
      select_score (pg_tables w ct) sorted_texts.1 sorted_texts.2
  end.

End Database.

(** ** Similarity resolution ([api/similarity.py]) *)

Module Similarity.
Import Py Database.
Open Scope Q_scope.

(** [normalize_text] *)
Definition normalize_text (text : string) : string :=
  if negb (Text.truthy text) then ""
  else Text.strip (Text.remove_punctuation (Text.lower text)).

Definition mem (x : string) (l : list string) : bool :=
  existsb (String.eqb x) l.

(** The loop of [check_skills_relations] over the relation table. *)
Fixpoint relations_scan (table : Config.dict (list string))
    (norm_skill1 norm_skill2 : string) : option Q :=
  match table with
  | [] => None
  | (base_skill, related_skills) :: rest =>
      if String.eqb norm_skill1 base_skill && mem norm_skill2 related_skills
      then Some 0.85
      else if String.eqb norm_skill2 base_skill && mem norm_skill1 related_skills
      then Some 0.85
      else if mem norm_skill1 related_skills && mem norm_skill2 related_skills
      then Some 0.7
      else relations_scan rest norm_skill1 norm_skill2
  end.

(** [check_skills_relations] *)
Definition check_skills_relations (skill1 skill2 : string) : option Q :=
  let norm_skill1 := normalize_text skill1 in
  let norm_skill2 := normalize_text skill2 in
  if String.eqb norm_skill1 norm_skill2 then Some 1.0
  else relations_scan Config.TECH_SKILLS_RELATIONS norm_skill1 norm_skill2.

(** *** The request to the language model *)

Definition nl : string := String (ascii_of_nat 10) EmptyString.

Definition prompt_general (text1 text2 : string) : string :=
  "Sur une échelle de 0 à 1, où 0 signifie 'pas du tout similaire' et 1 signifie 'identique', "
  ++ "évaluez la similarité entre ces deux textes :" ++ nl ++ "Texte 1 : " ++ text1
  ++ nl ++ "Texte 2 : " ++ text2 ++ nl
  ++ "Répondez uniquement par le score numérique.".

Definition prompt_hard_skill (text1 text2 : string) : string :=
  "En tant qu'expert en recrutement tech, évaluez la similarité entre ces deux compétences techniques "
  ++ "sur une échelle de 0 à 1 :" ++ nl ++ "Compétence 1 : " ++ text1
  ++ nl ++ "Compétence 2 : " ++ text2 ++ nl
  ++ "Si ce sont des compétences identiques ou étroitement liées (comme TypeScript et JavaScript), "
  ++ "donnez un score élevé (>0.8). Si ce sont des compétences fondamentalement différentes "
  ++ "(comme Python et Photoshop), donnez un score bas (<0.3). "
  ++ "Tenez compte des relations exactes entre langages de programmation. "
  ++ "Répondez uniquement par le score numérique.".

Definition prompt_job_title (text1 text2 : string) : string :=
  "Vous êtes un expert en recrutement IT/Tech. Évaluez la similarité entre ces deux titres de poste "
  ++ "sur une échelle de 0 à 1 :" ++ nl ++ "Titre 1 : " ++ text1
  ++ nl ++ "Titre 2 : " ++ text2 ++ nl
  ++ "Considérez les domaines d'expertise et compétences impliquées, pas seulement les mots exacts. "
  ++ "Répondez uniquement par le score numérique.".

Definition prompt_degree (text1 text2 : string) : string :=
  "En tant qu'expert en recrutement tech, évaluez la similarité entre ces deux domaines de formation "
  ++ "sur une échelle de 0 à 1 :" ++ nl ++ "Domaine 1 : " ++ text1
  ++ nl ++ "Domaine 2 : " ++ text2 ++ nl
  ++ "Tenez compte des chevauchements de compétences et connaissances. "
  ++ "Répondez uniquement par le score numérique.".

Definition prompt_soft_skill (text1 text2 : string) : string :=
  "Sur une échelle de 0 à 1, évaluez la similarité entre ces deux compétences comportementales "
  ++ "(soft skills) :" ++ nl ++ "Compétence 1 : " ++ text1
  ++ nl ++ "Compétence 2 : " ++ text2 ++ nl
  ++ "Répondez uniquement par le score numérique.".

(** [prompts.get(prompt_type, prompts["general"])] *)
Definition prompts_get (prompt_type text1 text2 : string) : string :=
  if String.eqb prompt_type "hard_skill" then prompt_hard_skill text1 text2
  else if String.eqb prompt_type "job_title" then prompt_job_title text1 text2
  else if String.eqb prompt_type "degree" then prompt_degree text1 text2
  else if String.eqb prompt_type "soft_skill" then prompt_soft_skill text1 text2
  else prompt_general text1 text2.

(** [client.chat.completions.create(...)] followed by
    [response.choices[0].message.content]: one more request; it raises
    when the endpoint fails. *)
Definition chat_completions_create (prompt : string) : M string :=
  n ← gets oracle_calls;
  answer ← gets (fun w => oracle w n prompt);
  modify count_oracle_call ;;
  match answer with
  | Some content => mret content
  | None => raise APIError
  end.

Definition is_digit (c : ascii) : bool :=
  ((48 <=? Text.code c) && (Text.code c <=? 57))%nat.

(** The longest run of digits at the head of a string, and what follows. *)
Fixpoint span_digits (s : string) : list nat * string :=
  match s with
  | EmptyString => ([], EmptyString)
  | String c rest =>
      if is_digit c
      then let '(ds, tail) := span_digits rest in ((Text.code c - 48)%nat :: ds, tail)
      else ([], s)
  end.

Definition digits_value (ds : list nat) : Z :=
  fold_left (fun acc d => (acc * 10 + Z.of_nat d)%Z) ds 0%Z.

(** [float(...)] of a matched [int_part] or [int_part.frac_part]. *)
Definition float_of_digits (int_part frac_part : list nat) : Q :=
  Qmake (digits_value (int_part ++ frac_part))
        (Z.to_pos (10 ^ Z.of_nat (List.length frac_part))).

(** [re.search(r"(\d+\.\d+|\d+)", score_text)] with the [float] of its
    group: the match starts at the first digit; the decimal alternative
    is tried first and needs a digit after the point. *)
Fixpoint re_search_number (s : string) : option Q :=
  match s with
  | EmptyString => None
  | String c rest =>
      if is_digit c then
        let '(int_part, tail) := span_digits s in
        match tail with
        | String "."%char after =>
            let '(frac_part, _) := span_digits after in
            match frac_part with
            | [] => Some (float_of_digits int_part [])
            | _ => Some (float_of_digits int_part frac_part)
            end
        | _ => Some (float_of_digits int_part [])
        end
      else re_search_number rest
  end.

(** [semantic_similarity_chatgpt] *)
Definition semantic_similarity_chatgpt (text1 text2 : string)
    (cache_type : cache_type) (prompt_type : string) : M Q :=
  cached_score ← get_similarity_from_cache cache_type text1 text2;
  match cached_score with
  | Some score => mret score
  | None =>
      let prompt := prompts_get prompt_type text1 text2 in
      try_except
        (content ← chat_completions_create prompt;
         let score_text := Text.strip content in
         let score :=
           match re_search_number score_text with
           | Some score => score
           | None => 0.5
           end in
         save_similarity_to_cache cache_type text1 text2 score ;;
         mret score)
        (fun _ => mret 0.5)
  end.

(** *** [@lru_cache(maxsize=1000)] *)

Definition lru_key_eqb (skill1 skill2 : string) (e : string * string * Q) : bool :=
  String.eqb e.1.1 skill1 && String.eqb e.1.2 skill2.

Definition lru_lookup (memo : list (string * string * Q)) (skill1 skill2 : string)
  : option Q :=
  snd <$> find (lru_key_eqb skill1 skill2) memo.

Definition lru_remove (memo : list (string * string * Q)) (skill1 skill2 : string)
  : list (string * string * Q) :=
  List.filter (fun e => negb (lru_key_eqb skill1 skill2 e)) memo.

(** The wrapper [functools.lru_cache] puts around a function of two
    strings: a hit answers from the memo and makes the entry the most
    recent; a miss calls the function, records its result and drops the
    least recently used entry beyond [maxsize].  A call that raises
    records nothing. *)
Definition lru_cache (maxsize : nat) (f : string -> string -> M Q)
    (skill1 skill2 : string) : M Q :=
  memo ← gets lru;
  match lru_lookup memo skill1 skill2 with
  | Some result =>
      modify (set_lru ((skill1, skill2, result) :: lru_remove memo skill1 skill2)) ;;
      mret result
  | None =>
      result ← f skill1 skill2;
      memo ← gets lru;
      modify (set_lru (take maxsize
                ((skill1, skill2, result) :: lru_remove memo skill1 skill2))) ;;
      mret result
  end.

(** The body of [calculate_skill_similarity]. *)
Definition calculate_skill_similarity_body (skill1 skill2 : string) : M Q :=
  if String.eqb (normalize_text skill1) (normalize_text skill2) then mret 1.0
  else
    cached_score ← get_similarity_from_cache ct_hard_skills skill1 skill2;
    match cached_score with
    | Some score => mret score
    | None =>
        match check_skills_relations skill1 skill2 with
        | Some relation_score =>
            save_similarity_to_cache ct_hard_skills skill1 skill2 relation_score ;;
            mret relation_score
        | None =>
            semantic_similarity_chatgpt skill1 skill2 ct_hard_skills "hard_skill"
        end
    end.

(** [calculate_skill_similarity], as decorated. *)
Definition calculate_skill_similarity : string -> string -> M Q :=
  lru_cache 1000 calculate_skill_similarity_body.

(** The shape shared by [get_name_similarity], [get_soft_skill_similarity]
    and [get_degree_similarity]. *)
Definition get_similarity (cache_type : cache_type) (prompt_type : string)
    (text1 text2 : string) : M Q :=
  if negb (Text.truthy text1) || negb (Text.truthy text2) then mret 0.0
  else if String.eqb (normalize_text text1) (normalize_text text2) then mret 1.0
  else
    cached_score ← get_similarity_from_cache cache_type text1 text2;
    match cached_score with
    | Some score => mret score
    | None => semantic_similarity_chatgpt text1 text2 cache_type prompt_type
    end.

Definition get_name_similarity (name1 name2 : string) : M Q :=
  get_similarity ct_name "job_title" name1 name2.

Definition get_hard_skill_similarity (skill1 skill2 : string) : M Q :=
  if negb (Text.truthy skill1) || negb (Text.truthy skill2) then mret 0.0
  else calculate_skill_similarity skill1 skill2.

Definition get_soft_skill_similarity (skill1 skill2 : string) : M Q :=
  get_similarity ct_soft_skills "soft_skill" skill1 skill2.

Definition get_degree_similarity (degree1 degree2 : string) : M Q :=
  get_similarity ct_degree_domain "degree" degree1 degree2.

(** The resolver of the specification, [resolve(kind, textA, textB)]: the
    source has one entry point per kind. *)
Definition resolve (kind : cache_type) (textA textB : string) : M Q :=
  match kind with
  | ct_name => get_name_similarity textA textB
  | ct_hard_skills => get_hard_skill_similarity textA textB
  | ct_soft_skills => get_soft_skill_similarity textA textB
  | ct_degree_domain => get_degree_similarity textA textB
  end.

End Similarity.

(** ** The records the scorers read *)

(** A required hard skill, [{"skill": ..., "category": ...}]. *)
Record SkillReq : Type := mkSkillReq {
  skill : option string;
  category : option string
}.

(** A required experience. *)
Record Experience : Type := mkExperience {
  exp_name : option string;
  exp_months : option Z;
  exp_description : option string;
  exp_category : option string
}.

(** A required language, [{"level": ..., "required": ...}]. *)
Record LanguageReq : Type := mkLanguageReq {
  level : option string;
  required : option bool
}.

Module Job.
(** The keys of a job that the weight allocator and the scorers read. *)
Record t : Type := mk {
  hard_skills : option (list SkillReq);
  required_experiences : option (list Experience);
  required_degree : option string;
  salary : option (option Q);
  offers_remote : option (option bool);
  required_languages : option (list (string * LanguageReq));
  required_soft_skills : option (list string)
}.
End Job.

Module Candidate.
Record t : Type := mk {
  hard_skills : option (list string);
  min_salary : option (option Q);
  wants_remote : option (option bool)
}.
End Candidate.

(** ** Scoring ([api/scoring.py]) *)

Module Scoring.
Import Py.
Open Scope Q_scope.

(** [d.get(key, default)] on a key that may be missing. *)
Definition get_default {A} (field : option A) (default : A) : A :=
  match field with Some v => v | None => default end.

(** [not d.get(key)] for a list, and for a string. *)
Definition not_list {A} (field : option (list A)) : bool :=
  match field with Some (_ :: _) => false | _ => true end.
Definition not_str (field : option string) : bool :=
  match field with Some s => negb (Text.truthy s) | None => true end.

(** [not x] for a number that may be [None]. *)
Definition not_num (x : option Q) : bool :=
  match x with Some q => Qeq_bool q 0 | None => true end.

Definition Qltb (x y : Q) : bool := negb (Qle_bool y x).

(** *** Salary and remote work *)

(** [salary_score] *)
Definition salary_score (candidate_min_salary job_salary : option Q) : Q :=
  if not_num candidate_min_salary || not_num job_salary then 1.0
  else match candidate_min_salary, job_salary with
       | Some c, Some j => if Qle_bool c j then 1.0 else 0.0
       | _, _ => 1.0
       end.

(** [remote_work_score] *)
Definition remote_work_score (candidate_wants_remote job_offers_remote : option bool)
  : Q :=
  match candidate_wants_remote, job_offers_remote with
  | None, _ | _, None => 1.0
  | Some c, Some j => if Bool.eqb c j then 1.0 else 0.0
  end.

(** The [salary] and [remote_work] tasks [calculate_match_score] submits. *)
Definition calculate_match_score_salary (candidate : Candidate.t) (job : Job.t) : Q :=
  salary_score (get_default (Candidate.min_salary candidate) (Some 0))
               (get_default (Job.salary job) (Some 0)).

Definition calculate_match_score_remote_work (candidate : Candidate.t) (job : Job.t)
  : Q :=
  remote_work_score (get_default (Candidate.wants_remote candidate) (Some false))
                    (get_default (Job.offers_remote job) (Some false)).

(** *** Dictionaries *)

Definition dict_get {V} (d : Config.dict V) (key : string) : option V :=
  snd <$> find (fun kv => String.eqb kv.1 key) d.

(** [d[key] = v]: in place for a key the dictionary has, at the end for
    a new one. *)
Fixpoint dict_set {V} (d : Config.dict V) (key : string) (v : V) : Config.dict V :=
  match d with
  | [] => [(key, v)]
  | (k, v') :: rest =>
      if String.eqb k key then (k, v) :: rest else (k, v') :: dict_set rest key v
  end.

Definition dict_values {V} (d : Config.dict V) : list V := map snd d.

(** [sum(xs)] *)
Definition sum (xs : list Q) : Q := fold_left Qplus xs 0.

(** [np.mean(xs)] of a list that is not empty. *)
Definition mean (xs : list Q) : Q := sum xs / inject_Z (Z.of_nat (List.length xs)).

(** *** Adaptive weights *)

(** The fields [adaptive_weights] finds missing, in the order it looks. *)
Definition fields_absent (job : Job.t) : list string :=
  (if not_list (Job.hard_skills job) then ["hard_skills"] else [])
  ++ (if not_list (Job.required_experiences job) then ["experience"] else [])
  ++ (if not_str (Job.required_degree job) then ["degree"] else [])
  ++ (match Job.salary job with Some (Some _) => [] | _ => ["salary"] end)
  ++ (match Job.offers_remote job with Some _ => [] | None => ["remote_work"] end)
  ++ (if not_list (Job.required_languages job) then ["languages"] else [])
  ++ (if not_list (Job.required_soft_skills job) then ["soft_skills"] else []).

(** The loop over [FIXED_FIELDS]: [(fixed_sum, new_weights)]. *)
Fixpoint fixed_loop (fields absent : list string) (fixed_sum : Q)
    (new_weights : Config.dict Q) : exn + (Q * Config.dict Q) :=
  match fields with
  | [] => inr (fixed_sum, new_weights)
  | field :: rest =>
      if negb (Similarity.mem field absent) then
        match dict_get new_weights field with
        | Some w => fixed_loop rest absent (fixed_sum + w) new_weights
        | None => inl (KeyError field)
        end
      else fixed_loop rest absent fixed_sum (dict_set new_weights field 0.0)
  end.

(** The loop over [new_weights.items()]:
    [(adjustable_fields, adjustable_sum)]. *)
Definition adjustable_loop (absent : list string) (new_weights : Config.dict Q)
  : list string * Q :=
  fold_left
    (fun acc kv =>
       if negb (Similarity.mem kv.1 Config.FIXED_FIELDS)
          && negb (Similarity.mem kv.1 absent)
       then (acc.1 ++ [kv.1], acc.2 + kv.2)
       else acc)
    new_weights ([], 0).

(** [new_weights[field] *= ratio], for a field the dictionary has. *)
Definition scale_field (ratio : Q) (new_weights : Config.dict Q) (field : string)
  : Config.dict Q :=
  match dict_get new_weights field with
  | Some w => dict_set new_weights field (w * ratio)
  | None => new_weights
  end.

(** [adaptive_weights(job, base_weights)]; [None] for [base_weights]
    stands for the default argument. *)
Definition adaptive_weights (job : Job.t) (base_weights : option (Config.dict Q))
  : exn + Config.dict Q :=
  let base_weights := get_default base_weights Config.BASE_WEIGHTS in
  let new_weights := base_weights in
  let absent := fields_absent job in
  let new_weights := fold_left (fun d field => dict_set d field 0.0) absent new_weights in
  match fixed_loop Config.FIXED_FIELDS absent 0.0 new_weights with
  | inl e => inl e
  | inr (fixed_sum, new_weights) =>
      let '(adjustable_fields, adjustable_sum) := adjustable_loop absent new_weights in
      let sum_all := sum (dict_values base_weights) in
      let sum_current := fixed_sum + adjustable_sum in
      let mass_to_redistribute := sum_all - sum_current in
      let new_weights :=
        if Qltb 0 adjustable_sum then
          let ratio := (adjustable_sum + mass_to_redistribute) / adjustable_sum in
          fold_left (scale_field ratio) adjustable_fields new_weights
        else new_weights in
      inr new_weights
  end.

(** *** Hard skills *)

(** An entry of [detailed_scores]. *)
Record SkillDetail : Type := mkSkillDetail {
  candidate_skill : option string;
  score : Q;
  detail_category : string
}.

(** The locals of [compare_hard_skills] that live across iterations.
    [final_score] is [None] as long as no assignment has reached it. *)
Record HardSkillsLocals : Type := mkLocals {
  obligatory_scores : list Q;
  recommended_scores : list Q;
  detailed_scores : Config.dict SkillDetail;
  final_score : option Q
}.

Definition THRESHOLD_OBLIGATORY : Q := 0.8.

(** The inner loop: the candidate skill of greatest similarity, the
    first one among equals; [(max_score, best_candidate_skill)]. *)
Fixpoint best_candidate (candidate_skills : list string) (job_skill : string)
    (max_score : Q) (best_candidate_skill : option string)
  : M (Q * option string) :=
  match candidate_skills with
  | [] => mret (max_score, best_candidate_skill)
  | candidate_skill :: rest =>
      score ← Similarity.get_hard_skill_similarity candidate_skill job_skill;
      if Qltb max_score score
      then best_candidate rest job_skill score (Some candidate_skill)
      else best_candidate rest job_skill max_score best_candidate_skill
  end.

(** The threshold and the two score lists, for one required skill:
    the locals afterwards and [best_candidate_skill]. *)
Definition apply_category (category : string) (max_score : Q)
    (best_candidate_skill : option string) (st : HardSkillsLocals)
  : HardSkillsLocals * option string :=
  if String.eqb category "obligatoire" then
    let '(final, best_candidate_skill) :=
      if Qltb max_score THRESHOLD_OBLIGATORY then (0.0, None)
      else (max_score, best_candidate_skill) in
    (mkLocals (obligatory_scores st ++ [final]) (recommended_scores st)
              (detailed_scores st) (Some final),
     best_candidate_skill)
  else if String.eqb category "recommandé" then
    (mkLocals (obligatory_scores st) (recommended_scores st ++ [max_score])
              (detailed_scores st) (final_score st),
     best_candidate_skill)
  else (st, best_candidate_skill).

(** One iteration of the loop over [required_skills]. *)
Definition hard_skill_step (candidate_skills : list string)
    (st : HardSkillsLocals) (job_skill_info : SkillReq) : M HardSkillsLocals :=
  let job_skill := get_default (skill job_skill_info) "" in
  let category := Text.lower (get_default (category job_skill_info) "") in
  found ← best_candidate candidate_skills job_skill 0.0 None;
  let '(st, best_candidate_skill) := apply_category category found.1 found.2 st in
  detail_score ←
    (if String.eqb category "recommandé" then mret found.1
     else match final_score st with
          | Some final => mret final
          | None => raise (UnboundLocalError "final_score")
          end);
  mret (mkLocals (obligatory_scores st) (recommended_scores st)
          (dict_set (detailed_scores st) job_skill
             (mkSkillDetail best_candidate_skill detail_score category))
          (final_score st)).

Fixpoint hard_skills_loop (candidate_skills : list string)
    (st : HardSkillsLocals) (required_skills : list SkillReq) : M HardSkillsLocals :=
  match required_skills with
  | [] => mret st
  | job_skill_info :: rest =>
      st ← hard_skill_step candidate_skills st job_skill_info;
      hard_skills_loop candidate_skills st rest
  end.

(** [np.mean(xs) if xs else None] *)
Definition mean_or_none (xs : list Q) : option Q :=
  match xs with [] => None | _ => Some (mean xs) end.

(** The weighting of the two averages, shared by the scorers. *)
Definition combine_averages (obligatory_avg recommended_avg : option Q) : Q :=
  match obligatory_avg, recommended_avg with
  | Some o, Some r => 0.7 * o + 0.3 * r
  | Some o, None => o
  | None, Some r => r
  | None, None => 0.0
  end.

(** [compare_hard_skills] *)
Definition compare_hard_skills (candidate_skills : list string)
    (required_skills : list SkillReq) : M (Q * Config.dict SkillDetail) :=
  match candidate_skills, required_skills with
  | [], _ | _, [] => mret (0.0, [])
  | _, _ =>
      st ← hard_skills_loop candidate_skills (mkLocals [] [] [] None) required_skills;
      let obligatory_avg := mean_or_none (obligatory_scores st) in
      let recommended_avg := mean_or_none (recommended_scores st) in
      mret (combine_averages obligatory_avg recommended_avg, detailed_scores st)
  end.

End Scoring.

(** * Vocabulary of the statements and sample inputs *)

Module Vocab.
Import Py Scoring.
Open Scope Q_scope.

(** A dimension is present when [adaptive_weights] does not list it
    among the absent fields. *)
Definition present (job : Job.t) (field : string) : bool :=
  negb (Similarity.mem field (fields_absent job)).

Definition ADJUSTABLE_FIELDS : list string :=
  ["hard_skills"; "soft_skills"; "experience"; "degree"; "languages"].

(** The base weight carried by the fields a predicate selects. *)
Definition base_mass (p : string -> bool) : Q :=
  sum (dict_values (List.filter (fun kv => p kv.1) Config.BASE_WEIGHTS)).

(** The base weight of the present adjustable dimensions, and the base
    weight of all absent dimensions, fixed ones included. *)
Definition adjustable_mass (job : Job.t) : Q :=
  base_mass (fun f => negb (Similarity.mem f Config.FIXED_FIELDS) && present job f).
Definition removed_mass (job : Job.t) : Q :=
  base_mass (fun f => negb (present job f)).
(** The base weight of the absent adjustable dimensions alone. *)
Definition removed_adjustable_mass (job : Job.t) : Q :=
  base_mass (fun f => negb (Similarity.mem f Config.FIXED_FIELDS)
                      && negb (present job f)).

(** The total of a weight vector. *)
Definition total (weights : Config.dict Q) : Q := sum (dict_values weights).

(** *** The cache as a function of the world *)

Import Database Similarity.

(** The world a lookup of the pair leaves behind. *)
Definition read_world (w : World) (ct : cache_type) (text1 text2 : string) : World :=
  let w1 := count_cache_read w in
  match redis_client w ≫= (fun store => store !! get_cache_key ct text1 text2) with
  | Some _ => w1
  | None =>
      let sorted_texts := Text.sorted_pair text1 text2 in
      match select_score (pg_tables w ct) sorted_texts.1 sorted_texts.2 with
      | Some _ =>
          set_table ct (update_timestamp (pg_tables w ct) sorted_texts.1
                          sorted_texts.2 (clock w)) w1
      | None => w1
      end
  end.

(** The world a write of the pair leaves behind. *)
Definition save_world (w : World) (ct : cache_type) (text1 text2 : string)
    (score : Q) : World :=
  let w1 := count_cache_write w in
  let w2 := match redis_client w with
            | Some store =>
                set_redis (Some (<[get_cache_key ct text1 text2 := score]> store)) w1
            | None => w1
            end in
  let sorted_texts := Text.sorted_pair text1 text2 in
  let rows := pg_tables w ct in
  let rows := if (max_cache_entries w <=? Z.of_nat (List.length rows))%Z
              then delete_oldest (Z.to_nat (max_cache_entries w / 10)) rows
              else rows in
  set_table ct (upsert rows sorted_texts.1 sorted_texts.2 score (clock w)) w2.

(** Neither tier of the cache nor the language model has been touched
    between two worlds: same contents, same counters. *)
Definition untouched (w w' : World) : Prop :=
  redis_client w' = redis_client w
  /\ (forall ct, pg_tables w' ct = pg_tables w ct)
  /\ cache_reads w' = cache_reads w
  /\ cache_writes w' = cache_writes w
  /\ oracle_calls w' = oracle_calls w.

(** The score read from an answer of the language model. *)
Definition score_of_response (content : string) : Q :=
  match re_search_number (Text.strip content) with
  | Some score => score
  | None => 0.5
  end.

(** *** The resolvers as functions of the world

    Each effectful function of [api/similarity.py] answers a score and
    leaves a world; the pairs below say which, and the development proves
    that they are what the functions compute. *)

Definition semantic_outcome (w : World) (text1 text2 : string)
    (ct : cache_type) (prompt_type : string) : Q * World :=
  match cache_peek w ct text1 text2 with
  | Some c => (c, read_world w ct text1 text2)
  | None =>
      let w1 := count_oracle_call (count_cache_read w) in
      match oracle w (oracle_calls w) (prompts_get prompt_type text1 text2) with
      | None => (0.5, w1)
      | Some content =>
          (score_of_response content,
           save_world w1 ct text1 text2 (score_of_response content))
      end
  end.

Definition similarity_outcome (w : World) (ct : cache_type) (prompt_type : string)
    (text1 text2 : string) : Q * World :=
  if negb (Text.truthy text1) || negb (Text.truthy text2) then (0.0, w)
  else if String.eqb (normalize_text text1) (normalize_text text2) then (1.0, w)
  else match cache_peek w ct text1 text2 with
       | Some c => (c, read_world w ct text1 text2)
       | None => semantic_outcome (count_cache_read w) text1 text2 ct prompt_type
       end.

Definition skill_body_outcome (w : World) (skill1 skill2 : string) : Q * World :=
  if String.eqb (normalize_text skill1) (normalize_text skill2) then (1.0, w)
  else match cache_peek w ct_hard_skills skill1 skill2 with
       | Some c => (c, read_world w ct_hard_skills skill1 skill2)
       | None =>
           match check_skills_relations skill1 skill2 with
           | Some r =>
               (r, save_world (count_cache_read w) ct_hard_skills skill1 skill2 r)
           | None =>
               semantic_outcome (count_cache_read w) skill1 skill2
                 ct_hard_skills "hard_skill"
           end
       end.

Definition hard_skill_outcome (w : World) (skill1 skill2 : string) : Q * World :=
  if negb (Text.truthy skill1) || negb (Text.truthy skill2) then (0.0, w)
  else match lru_lookup (lru w) skill1 skill2 with
       | Some m =>
           (m, set_lru ((skill1, skill2, m) :: lru_remove (lru w) skill1 skill2) w)
       | None =>
           let out := skill_body_outcome w skill1 skill2 in
           (out.1,
            set_lru (take 1000 ((skill1, skill2, out.1)
                                  :: lru_remove (lru out.2) skill1 skill2)) out.2)
       end.

Definition resolve_outcome (w : World) (kind : cache_type) (textA textB : string)
  : Q * World :=
  match kind with
  | ct_name => similarity_outcome w ct_name "job_title" textA textB
  | ct_hard_skills => hard_skill_outcome w textA textB
  | ct_soft_skills => similarity_outcome w ct_soft_skills "soft_skill" textA textB
  | ct_degree_domain => similarity_outcome w ct_degree_domain "degree" textA textB
  end.

(** The inner loop of [compare_hard_skills], likewise:
    [((max_score, best_candidate_skill), world)]. *)
Fixpoint best_candidate_outcome (w : World) (candidate_skills : list string)
    (job_skill : string) (max_score : Q) (best_candidate_skill : option string)
  : (Q * option string) * World :=
  match candidate_skills with
  | [] => ((max_score, best_candidate_skill), w)
  | candidate_skill :: rest =>
      let out := hard_skill_outcome w candidate_skill job_skill in
      if Qltb max_score out.1
      then best_candidate_outcome out.2 rest job_skill out.1 (Some candidate_skill)
      else best_candidate_outcome out.2 rest job_skill max_score best_candidate_skill
  end.

(** The similarity of the best candidate skill for a required skill. *)
Definition best_score (w : World) (candidate_skills : list string)
    (job_skill_info : SkillReq) : Q :=
  (best_candidate_outcome w candidate_skills
     (get_default (skill job_skill_info) "") 0.0 None).1.1.

(** The two shortcuts of a pair, ahead of any lookup: 0.0 for an empty
    text, 1.0 for equal normalizations. *)
Definition shortcut (text1 text2 : string) : option Q :=
  if negb (Text.truthy text1) || negb (Text.truthy text2) then Some 0.0
  else if String.eqb (normalize_text text1) (normalize_text text2) then Some 1.0
  else None.

(** What a resolver answers for a pair the cache holds with score [c],
    when the memo of hard skills does not step in. *)
Definition settled (text1 text2 : string) (c : Q) : Q :=
  if negb (Text.truthy text1) || negb (Text.truthy text2) then 0.0
  else if String.eqb (normalize_text text1) (normalize_text text2) then 1.0
  else c.

(** The memo of hard skills holds 1.0 for the pairs of equal
    normalization it holds, as it does when it was filled by
    [calculate_skill_similarity]. *)
Definition lru_sound (w : World) : Prop :=
  forall skill1 skill2 v,
    lru_lookup (lru w) skill1 skill2 = Some v ->
    normalize_text skill1 = normalize_text skill2 -> v = 1.0.

(** The prompt a kind sends. *)
Definition prompt_of (kind : cache_type) (text1 text2 : string) : string :=
  match kind with
  | ct_name => prompts_get "job_title" text1 text2
  | ct_hard_skills => prompts_get "hard_skill" text1 text2
  | ct_soft_skills => prompts_get "soft_skill" text1 text2
  | ct_degree_domain => prompts_get "degree" text1 text2
  end.

(** *** Sample worlds *)

(** Empty caches, no Redis, and a given language model. *)
Definition fresh_world (model : nat -> string -> option string) : World :=
  mkWorld None (fun _ => []) [] 0%Z Config.MAX_CACHE_ENTRIES_DEFAULT model 0 0 0.

(** The same with a Redis client. *)
Definition fresh_world_redis (model : nat -> string -> option string) : World :=
  mkWorld (Some ∅) (fun _ => []) [] 0%Z Config.MAX_CACHE_ENTRIES_DEFAULT model 0 0 0.

(** A language model that is down. *)
Definition model_down : nat -> string -> option string := fun _ _ => None.

(** A language model whose first request fails and whose later requests
    answer 0.9. *)
Definition model_flaky : nat -> string -> option string :=
  fun n _ => match n with O => None | S _ => Some "0.9" end.

(** A language model that rates the pair in one order 0.9 and in the
    other 0.1. *)
Definition model_ordered : nat -> string -> option string :=
  fun _ prompt =>
    if String.eqb prompt (prompts_get "job_title" "Data Engineer" "Data Analyst")
    then Some "0.9" else Some "0.1".

(** A language model that always answers the same text. *)
Definition model_const (content : string) : nat -> string -> option string :=
  fun _ _ => Some content.

(** A world whose PostgreSQL cache holds one pair of a kind. *)
Definition world_with (ct : cache_type) (text1 text2 : string) (score : Q) : World :=
  mkWorld None
    (fun ct' => if decide (ct' = ct)
                then [mkRow (Text.sorted_pair text1 text2).1
                            (Text.sorted_pair text1 text2).2 score 0%Z]
                else [])
    [] 0%Z Config.MAX_CACHE_ENTRIES_DEFAULT model_down 0 0 0.

(** *** Sample jobs *)

Definition a_skill : SkillReq := mkSkillReq (Some "Python") (Some "obligatoire").
Definition an_uncategorised_skill : SkillReq := mkSkillReq (Some "Docker") None.
Definition a_capitalised_skill : SkillReq :=
  mkSkillReq (Some "Python") (Some "Obligatoire").
Definition an_experience : Experience :=
  mkExperience (Some "Développeur Web") (Some 12%Z) None (Some "obligatoire").
Definition a_language : string * LanguageReq :=
  ("anglais", mkLanguageReq (Some "courant") (Some true)).

(** A job that gives a salary and nothing else. *)
Definition job_salary_only : Job.t :=
  Job.mk None None None (Some (Some 40000)) None None None.

(** A job with every dimension but the salary. *)
Definition job_without_salary : Job.t :=
  Job.mk (Some [a_skill]) (Some [an_experience]) (Some "Licence en Informatique")
         None (Some (Some true)) (Some [a_language]) (Some ["Communication"]).

(** A job with hard skills, a salary and a remote indicator only. *)
Definition job_skills_only : Job.t :=
  Job.mk (Some [a_skill]) None None (Some (Some 40000)) (Some (Some true)) None None.


End Vocab.

(** * More of the scoring core

    The scorers of [api/scoring.py] that read no free text through a
    regular expression, and the parts of [calculate_match_score] that
    combine the scores. *)

(** ** Languages ([language_score], [calculate_language_score]) *)

Module Languages.
Import Py Scoring.
Open Scope Q_scope.

Definition LANGUAGE_LEVELS : Config.dict Z :=
  [ ("aucun", 0%Z);
    ("rien", 0%Z);
    ("débutant", 1%Z);
    ("basique", 1%Z);
    ("intermédiaire", 2%Z);
    ("moyen", 2%Z);
    ("avancé", 3%Z);
    ("courant", 3%Z);
    ("bilingue", 4%Z);
    ("maternelle", 4%Z);
    ("bilingue/maternelle", 4%Z);
    ("natif", 4%Z) ].

(** [LANGUAGE_LEVELS.get(level.lower(), 0)] *)
Definition level_value (level : string) : Z :=
  get_default (dict_get LANGUAGE_LEVELS (Text.lower level)) 0%Z.

(** [language_score] *)
Definition language_score (candidate_level required_level : string)
    (is_required : bool) : Q :=
  let candidate_level_value := level_value candidate_level in
  let required_level_value := level_value required_level in
  let level_diff := (candidate_level_value - required_level_value)%Z in
  if is_required then
    if (level_diff <? 0)%Z
    then Qmax 0.0 (1.0 + (- 0.4) * inject_Z (Z.abs level_diff))
    else Qmin 1.0 (1.0 + 0.05 * inject_Z level_diff)
  else
    if (level_diff <? 0)%Z
    then Qmax 0.0 (1.0 + (- 0.2) * inject_Z (Z.abs level_diff))
    else Qmin 1.0 (1.0 + 0.05 * inject_Z level_diff).

(** An entry of [detailed_scores]. *)
Record LanguageDetail : Type := mkLanguageDetail {
  detail_candidate_level : string;
  detail_required_level : string;
  detail_score : Q;
  detail_required : bool
}.

(** The locals of the loop of [calculate_language_score]. *)
Record LanguageLocals : Type := mkLanguageLocals {
  required_scores : list Q;
  recommended_scores : list Q;
  detailed_scores : Config.dict LanguageDetail
}.

(** One iteration of the loop over [required_languages.items()]. *)
Definition language_step (candidate_languages : Config.dict string)
    (st : LanguageLocals) (item : string * LanguageReq) : LanguageLocals :=
  let language := item.1 in
  let details := item.2 in
  let required_level := get_default (level details) "" in
  let is_required := get_default (required details) false in
  let candidate_level :=
    get_default (dict_get candidate_languages (Text.lower language)) "rien" in
  let score := language_score candidate_level required_level is_required in
  let detail := mkLanguageDetail candidate_level required_level score is_required in
  if is_required
  then mkLanguageLocals (required_scores st ++ [score]) (recommended_scores st)
         (dict_set (detailed_scores st) language detail)
  else mkLanguageLocals (required_scores st) (recommended_scores st ++ [score])
         (dict_set (detailed_scores st) language detail).

(** [calculate_language_score] *)
Definition calculate_language_score (candidate_languages : Config.dict string)
    (required_languages : Config.dict LanguageReq)
  : Q * Config.dict LanguageDetail :=
  match required_languages with
  | [] => (0.0, [])
  | _ =>
      let st := fold_left (language_step candidate_languages) required_languages
                  (mkLanguageLocals [] [] []) in
      let required_avg := mean_or_none (required_scores st) in
      let recommended_avg := mean_or_none (recommended_scores st) in
      (combine_averages required_avg recommended_avg, detailed_scores st)
  end.

End Languages.

(** ** Experiences ([experience_duration_score], [compare_experiences]) *)

Module Experiences.
Import Py Scoring.
Open Scope Q_scope.

(** [experience_duration_score] *)
Definition experience_duration_score (candidate_months required_months : Z) : Q :=
  if (required_months <=? 0)%Z then 1.0
  else Qmin 1.0 (inject_Z candidate_months / inject_Z required_months).

(** The sub-scores of a pair of experiences. *)
Record SubScores : Type := mkSubScores {
  name_score : Q;
  duration_score : Q
}.

(** [calculate_experience_score] *)
Definition calculate_experience_score (candidate_exp required_exp : Experience)
  : M (Q * SubScores) :=
  name_score ← Similarity.get_name_similarity
                 (get_default (exp_name candidate_exp) "")
                 (get_default (exp_name required_exp) "");
  let duration_score :=
    experience_duration_score (get_default (exp_months candidate_exp) 0%Z)
                              (get_default (exp_months required_exp) 0%Z) in
  let total_score := 0.6 * name_score + 0.4 * duration_score in
  mret (total_score, mkSubScores name_score duration_score).

(** An entry of [experience_details]. *)
Record ExperienceDetail : Type := mkExperienceDetail {
  required_exp_name : string;
  best_match_name : string;
  detail_category : string;
  best_score : Q;
  sub_scores : SubScores
}.

(** The inner loop: [(best_score, best_subscores, best_match_name)]. *)
Fixpoint best_experience (candidate_experiences : list Experience)
    (required_exp : Experience) (best : Q * SubScores * string)
  : M (Q * SubScores * string) :=
  match candidate_experiences with
  | [] => mret best
  | candidate_exp :: rest =>
      found ← calculate_experience_score candidate_exp required_exp;
      if Qltb best.1.1 found.1
      then best_experience rest required_exp
             (found.1, found.2, get_default (exp_name candidate_exp) "")
      else best_experience rest required_exp best
  end.

(** The locals of the outer loop. *)
Record ExperienceLocals : Type := mkExperienceLocals {
  obligatory_scores : list Q;
  recommended_scores : list Q;
  experience_details : list ExperienceDetail
}.

(** One iteration of the loop over [required_experiences]. *)
Definition experience_step (candidate_experiences : list Experience)
    (st : ExperienceLocals) (required_exp : Experience) : M ExperienceLocals :=
  best ← best_experience candidate_experiences required_exp
           (0.0, mkSubScores 0.0 0.0, "");
  let category := Text.lower (get_default (exp_category required_exp) "") in
  let detail :=
    mkExperienceDetail (get_default (exp_name required_exp) "") best.2 category
                       best.1.1 best.1.2 in
  if String.eqb category "obligatoire" then
    mret (mkExperienceLocals (obligatory_scores st ++ [best.1.1])
            (recommended_scores st) (experience_details st ++ [detail]))
  else if String.eqb category "recommandée" then
    mret (mkExperienceLocals (obligatory_scores st)
            (recommended_scores st ++ [best.1.1]) (experience_details st ++ [detail]))
  else
    mret (mkExperienceLocals (obligatory_scores st) (recommended_scores st)
            (experience_details st ++ [detail])).

Fixpoint experiences_loop (candidate_experiences : list Experience)
    (st : ExperienceLocals) (required_experiences : list Experience)
  : M ExperienceLocals :=
  match required_experiences with
  | [] => mret st
  | required_exp :: rest =>
      st ← experience_step candidate_experiences st required_exp;
      experiences_loop candidate_experiences st rest
  end.

(** [compare_experiences] *)
Definition compare_experiences (candidate_experiences required_experiences : list Experience)
  : M (Q * list ExperienceDetail) :=
  match candidate_experiences, required_experiences with
  | [], _ | _, [] => mret (0.0, [])
  | _, _ =>
      st ← experiences_loop candidate_experiences (mkExperienceLocals [] [] [])
             required_experiences;
      let obligatory_avg := mean_or_none (obligatory_scores st) in
      let recommended_avg := mean_or_none (recommended_scores st) in
      mret (combine_averages obligatory_avg recommended_avg, experience_details st)
  end.

End Experiences.

(** ** The parts of [calculate_match_score] that combine the scores *)

Module Matching.
Import Py Scoring.
Open Scope Q_scope.

(** [set(tag.lower() for tag in tags)] *)
Definition tag_set (tags : list string) : gset string :=
  list_to_set (map Text.lower tags).

(** [candidate_tags.intersection(job_tags)] *)
Definition common_tags (candidate_tags job_tags : list string) : gset string :=
  tag_set candidate_tags ∩ tag_set job_tags.

(** The tag bonus of a number of common tags. *)
Definition tag_bonus (num_common_tags : nat) : Q :=
  if (num_common_tags =? 2)%nat then 0.05
  else if (3 <=? num_common_tags)%nat then 0.10
  else 0.0.

(** The seven scores the tasks hand back. *)
Record DimensionScores : Type := mkDimensionScores {
  hard_skill_score : Q;
  soft_skill_score : Q;
  exp_score : Q;
  deg_score : Q;
  sal_score : Q;
  remote_score : Q;
  language_score : Q
}.

(** [d[key]] *)
Definition dict_item {V} (d : Config.dict V) (key : string) : exn + V :=
  match dict_get d key with
  | Some v => inr v
  | None => inl (KeyError key)
  end.

(** The weighted total, with the tag bonus applied. *)
Definition weighted_total (weights : Config.dict Q) (s : DimensionScores)
    (bonus : Q) : exn + Q :=
  match dict_item weights "hard_skills", dict_item weights "soft_skills",
        dict_item weights "experience", dict_item weights "degree",
        dict_item weights "salary", dict_item weights "remote_work",
        dict_item weights "languages" with
  | inr wh, inr wso, inr we, inr wd, inr wsa, inr wr, inr wl =>
      let total_score :=
        wh * hard_skill_score s + wso * soft_skill_score s + we * exp_score s
        + wd * deg_score s + wsa * sal_score s + wr * remote_score s
        + wl * language_score s in
      inr (total_score * (1 + bonus))
  | inl e, _, _, _, _, _, _ => inl e
  | _, inl e, _, _, _, _, _ => inl e
  | _, _, inl e, _, _, _, _ => inl e
  | _, _, _, inl e, _, _, _ => inl e
  | _, _, _, _, inl e, _, _ => inl e
  | _, _, _, _, _, inl e, _ => inl e
  | _, _, _, _, _, _, inl e => inl e
  end.

(** [total_score] of [calculate_match_score], from the job, the scores of
    the tasks and the number of common tags. *)
Definition calculate_match_score_total (job : Job.t) (s : DimensionScores)
    (num_common_tags : nat) : exn + Q :=
  match adaptive_weights job None with
  | inl e => inl e
  | inr weights => weighted_total weights s (tag_bonus num_common_tags)
  end.

(** [num_common_tags], with the tag filter on or off. *)
Definition num_common_tags (activate_tags : bool)
    (candidate_tags job_tags : list string) : nat :=
  if activate_tags then size (common_tags candidate_tags job_tags) else 0%nat.

(** [total_score] of the result that [calculate_match_score] computes
    when it returns no stored result: 0.0 when the tag filter is on and no
    tag is common, the weighted total otherwise. *)
Definition total_score (activate_tags : bool) (candidate_tags job_tags : list string)
    (job : Job.t) (s : DimensionScores) : exn + Q :=
  let num_common_tags := num_common_tags activate_tags candidate_tags job_tags in
  if activate_tags && (num_common_tags =? 0)%nat then inr 0.0
  else calculate_match_score_total job s num_common_tags.

(** The [hard_skills] task and the collection of its result: an exception
    of the scorer is replaced by the default [(0.0, [])]. *)
Definition calculate_match_score_hard_skills (candidate : Candidate.t) (job : Job.t)
  : M (Q * Config.dict SkillDetail) :=
  try_except
    (compare_hard_skills (get_default (Candidate.hard_skills candidate) [])
                         (get_default (Job.hard_skills job) []))
    (fun _ => mret (0.0, [])).

End Matching.

(** ** Vocabulary of the further statements *)

Module Vocab2.
Import Py Database Similarity Scoring.
Open Scope Q_scope.

(** The pair a row is about. *)
Definition pair_of (r : Row) : string * string := (row_text1 r, row_text2 r).

(** The uniqueness constraint [UNIQUE(text1, text2)] of a table. *)
Definition unique_pairs (rows : list Row) : Prop :=
  List.NoDup (map pair_of rows).

(** A row without its timestamp. *)
Definition content_of (r : Row) : string * string * Q :=
  (row_text1 r, row_text2 r, row_score r).

(** A string holds a punctuation character. *)
Fixpoint has_punctuation (s : string) : bool :=
  match s with
  | EmptyString => false
  | String c rest => Text.is_punctuation c || has_punctuation rest
  end.

(** The first and the last character of a string, if any. *)
Definition first_char (s : string) : option ascii :=
  match s with EmptyString => None | String c _ => Some c end.
Definition last_char (s : string) : option ascii := first_char (String.rev s).

(** The keys of the memo. *)
Definition lru_keys (memo : list (string * string * Q)) : list (string * string) :=
  map fst memo.

(** A score lies between 0 and 1. *)
Definition in_unit (x : Q) : Prop := 0 <= x /\ x <= 1.

Definition scores_in_unit (s : Matching.DimensionScores) : Prop :=
  in_unit (Matching.hard_skill_score s) /\ in_unit (Matching.soft_skill_score s)
  /\ in_unit (Matching.exp_score s) /\ in_unit (Matching.deg_score s)
  /\ in_unit (Matching.sal_score s) /\ in_unit (Matching.remote_score s)
  /\ in_unit (Matching.language_score s).

(** A candidate reaches the level a required language asks for. *)
Definition meets (candidate_languages : Config.dict string)
    (item : string * LanguageReq) : Prop :=
  (Languages.level_value (get_default (level item.2) "")
   <= Languages.level_value
        (get_default (dict_get candidate_languages (Text.lower item.1)) "rien"))%Z.

(** A category that is neither of the two the loop of
    [compare_experiences] knows. *)
Definition unknown_category (required_exp : Experience) : Prop :=
  Text.lower (get_default (exp_category required_exp) "") <> "obligatoire"
  /\ Text.lower (get_default (exp_category required_exp) "") <> "recommandée".

(** The experience of [an_experience], asked for under the category
    that the hard skills use for a recommendation. *)
Definition a_recommended_experience : Experience :=
  mkExperience (Some "Développeur Web") (Some 12%Z) None (Some "recommandé").

(** The tolerance of the check of the weights in [adaptive_weights],
    1e-6. *)
Definition tolerance : Q := 1 # 1000000.

(** An integer that a Python float holds exactly, so that the quotient of
    two such integers is a float that neither overflows nor rounds to 0
    or across 1. *)
Definition float_exact (n : Z) : Prop := (Z.abs n <= 2 ^ 53)%Z.

(** The months of an experience are such an integer. *)
Definition months_exact (e : Experience) : Prop :=
  float_exact (get_default (exp_months e) 0%Z).

(** Ten rows of one table, the oldest first. *)
Definition ten_rows : list Row :=
  map (fun p : string * Z => mkRow "Python" p.1 0.5 p.2)
      [("a", 1%Z); ("b", 2%Z); ("c", 3%Z); ("d", 4%Z); ("e", 5%Z);
       ("f", 6%Z); ("g", 7%Z); ("h", 8%Z); ("i", 9%Z); ("j", 10%Z)].

(** A world whose table of names holds these ten rows, under a given
    configuration of [MAX_CACHE_ENTRIES]. *)
Definition crowded_world (capacity : Z) : World :=
  mkWorld None
    (fun ct => match ct with ct_name => ten_rows | _ => [] end)
    [] 100%Z capacity Vocab.model_down 0 0 0.

(** Two texts joined by a colon. *)
Definition joined (x y : string) : string := x ++ ":" ++ y.

End Vocab2.

(** * Properties *)

(** ** Text and parsing, on examples *)

Example re_search_ex :
  Similarity.re_search_number "Score: 0.85." = Some (85 # 100)
  /\ Similarity.re_search_number "1" = Some (1 # 1)
  /\ Similarity.re_search_number "12.x" = Some (12 # 1)
  /\ Similarity.re_search_number "aucun" = None.
Proof. repeat split. Qed.

Example normalize_ex :
  Similarity.normalize_text "Python" = "python"
  /\ Similarity.normalize_text "python " = "python"
  /\ Similarity.normalize_text " Node.JS! " = "nodejs"
  /\ Similarity.normalize_text "RECOMMANDÉ" = "recommandé".
Proof. repeat split. Qed.

(** ** Salary and remote work *)

Section SalaryRemote.
Import Scoring.
Open Scope Q_scope.

Lemma not_num_false (x : option Q) :
  not_num x = false <-> exists q, x = Some q /\ ~ q == 0.
Proof.
  destruct x as [q|]; simpl.
  - split.
    + intros H. exists q. split; [reflexivity|].
      intros E. apply Qeq_bool_iff in E. congruence.
    + intros (q' & [= <-] & Hq). apply not_true_iff_false.
      intros E. apply Hq, Qeq_bool_iff, E.
  - split; [discriminate|]. intros (q & Hq & _). discriminate.
Qed.

Lemma salary_score_unknown (c j : option Q) :
  not_num c = true \/ not_num j = true -> salary_score c j = 1.0.
Proof.
  unfold salary_score. intros [-> | ->]; [reflexivity|].
  rewrite orb_true_r. reflexivity.
Qed.

Lemma salary_score_known (c j : Q) :
  ~ c == 0 -> ~ j == 0 ->
  salary_score (Some c) (Some j) = if Qle_bool c j then 1.0 else 0.0.
Proof.
  intros Hc Hj. unfold salary_score.
  assert (not_num (Some c) = false) as -> by (apply not_num_false; eauto).
  assert (not_num (Some j) = false) as -> by (apply not_num_false; eauto).
  reflexivity.
Qed.

End SalaryRemote.

(** C5, as stated, fails: a job salary of 0 is a number strictly below a
    candidate minimum of 1000, and [salary_score] still answers 1.0, since
    [not job_salary] holds for 0 as it does for [None]. *)
Lemma salary_score_zero_salary_counterexample :
  (0 < 1000)%Q
  /\ Scoring.salary_score (Some 1000%Q) (Some 0%Q) = 1.0%Q
  /\ ~ (Scoring.salary_score (Some 1000%Q) (Some 0%Q) == 0.0)%Q.
Proof.
  split; [reflexivity|]. split; [reflexivity|].
  intros H. vm_compute in H. discriminate H.
Qed.

(** C5, amended: the salary dimension scores 1.0 when either value is
    unknown ([None], or a key missing from the record handed to
    [calculate_match_score]) or zero, which the code takes for unknown;
    for two non-zero values it scores 1.0 when the job's salary is at least
    the candidate's minimum and 0.0 when it is strictly below. *)
Theorem salary_score_amended (c j : option Q) :
  ((c = None \/ j = None
    \/ (exists q, c = Some q /\ q == 0) \/ (exists q, j = Some q /\ q == 0))%Q ->
   Scoring.salary_score c j = 1.0%Q)
  /\ (forall c' j' : Q, c = Some c' -> j = Some j' -> ~ (c' == 0)%Q -> ~ (j' == 0)%Q ->
      ((c' <= j')%Q -> Scoring.salary_score c j = 1.0%Q)
      /\ ((j' < c')%Q -> Scoring.salary_score c j = 0.0%Q))
  /\ (forall candidate job,
      Candidate.min_salary candidate = None \/ Job.salary job = None ->
      Scoring.calculate_match_score_salary candidate job = 1.0%Q).
Proof.
  split; [|split].
  - intros H. apply salary_score_unknown.
    destruct H as [-> | [-> | [(q & -> & Hq) | (q & -> & Hq)]]]; simpl; auto.
    + left. apply Qeq_bool_iff, Hq.
    + right. apply Qeq_bool_iff, Hq.
  - intros c' j' -> -> Hc Hj. rewrite salary_score_known by assumption. split.
    + intros Hle. apply Qle_bool_iff in Hle. rewrite Hle. reflexivity.
    + intros Hlt. destruct (Qle_bool c' j') eqn:E; [|reflexivity].
      apply Qle_bool_iff in E. exfalso. apply (Qlt_not_le _ _ Hlt E).
  - intros candidate job H. unfold Scoring.calculate_match_score_salary.
    apply salary_score_unknown. destruct H as [-> | ->]; simpl; auto.
Qed.

Lemma salary_score_amended_witness :
  Scoring.salary_score (Some 35000%Q) (Some 30000%Q) = 0.0%Q
  /\ Scoring.salary_score (Some 35000%Q) (Some 40000%Q) = 1.0%Q
  /\ Scoring.salary_score (Some 35000%Q) None = 1.0%Q.
Proof.
  split; [|split].
  - apply (proj1 (proj2 (salary_score_amended (Some 35000%Q) (Some 30000%Q)))
             35000%Q 30000%Q); try reflexivity;
      intros H; vm_compute in H; discriminate H.
  - apply (proj1 (proj2 (salary_score_amended (Some 35000%Q) (Some 40000%Q)))
             35000%Q 40000%Q); try reflexivity;
      intros H; vm_compute in H; discriminate H.
  - apply (proj1 (salary_score_amended (Some 35000%Q) None)).
    right. left. reflexivity.
Defined.

(** [remote_work_score] itself follows the rule of the specification:
    equal preferences or an unknown one score 1.0, all else 0.0. *)
Lemma remote_work_score_rule (c j : option bool) :
  Scoring.remote_work_score c j
  = if match c, j with
       | Some c', Some j' => Bool.eqb c' j'
       | _, _ => true
       end then 1.0%Q else 0.0%Q.
Proof. destruct c as [[]|], j as [[]|]; reflexivity. Qed.

(** C4, the code at the failing input: a candidate record without
    [wants_remote], matched against a job that offers remote work, scores
    0.0 on the remote dimension, because [calculate_match_score] reads the
    missing field as [False] and not as unknown. *)
Theorem remote_work_missing_preference_scores_zero :
  Scoring.calculate_match_score_remote_work
    (Candidate.mk None None None)
    (Job.mk None None None None (Some (Some true)) None None) = 0.0%Q
  /\ Scoring.remote_work_score None (Some true) = 1.0%Q.
Proof. split; reflexivity. Qed.

(** ** Adaptive weights *)

Section AdaptiveWeights.
Import Vocab.
Import Scoring.
Open Scope Q_scope.

(** The allocator reads a job through seven tests only: a proof goes
    through the patterns of their outcomes. *)
Ltac job_patterns job :=
  unfold total, adjustable_mass, removed_mass, removed_adjustable_mass,
    adaptive_weights, present, fields_absent;
  destruct (not_list (Job.hard_skills job)),
           (not_list (Job.required_experiences job)),
           (not_str (Job.required_degree job)),
           (Job.salary job) as [[?|]|],
           (Job.offers_remote job) as [?|],
           (not_list (Job.required_languages job)),
           (not_list (Job.required_soft_skills job)).

Lemma adaptive_weights_total (job : Job.t) :
  existsb (present job) ADJUSTABLE_FIELDS = true ->
  exists weights,
    adaptive_weights job None = inr weights /\ total weights == 1.
Proof.
  job_patterns job; intros H; try discriminate H; clear H;
    (eexists; split; [vm_compute; reflexivity | vm_compute; reflexivity]).
Qed.

Lemma Qabs_within (x : Q) : x == 1 -> Qabs (x - 1) <= 1 # 1000000.
Proof. intros ->. vm_compute. discriminate. Qed.

Lemma dict_get_In {V} (d : Config.dict V) (key : string) (v : V) :
  dict_get d key = Some v -> In (key, v) d.
Proof.
  unfold dict_get. induction d as [|[k v'] d IH]; [discriminate|].
  cbn [find]. change ((k, v').1) with k.
  destruct (String.eqb_spec k key) as [-> | _].
  - intros [= <-]. left. reflexivity.
  - intros H. right. apply IH, H.
Qed.

(** C2, amended: in [adaptive_weights] an absent dimension, fixed or
    adjustable, gets weight 0; a present fixed dimension (salary,
    remote work) keeps its base weight; a present adjustable dimension gets
    its base weight scaled by (adjustableSum + removedMass) / adjustableSum,
    where removedMass is the base weight of all absent dimensions, the
    absent fixed ones included: the mass of an absent salary or remote
    indicator is redistributed to the adjustable dimensions with the rest. *)
Theorem adaptive_weights_redistribution (job : Job.t) (field : string) (b : Q) :
  Scoring.dict_get Config.BASE_WEIGHTS field = Some b ->
  exists weights x,
    Scoring.adaptive_weights job None = inr weights
    /\ Scoring.dict_get weights field = Some x
    /\ (x == (if negb (Vocab.present job field) then 0
              else if Similarity.mem field Config.FIXED_FIELDS then b
              else b * ((Vocab.adjustable_mass job + Vocab.removed_mass job)
                        / Vocab.adjustable_mass job)))%Q.
Proof.
  intros Hb.
  assert (Hf : In (field, b) Config.BASE_WEIGHTS) by (apply dict_get_In, Hb).
  clear Hb. simpl in Hf.
  repeat (destruct Hf as [[= <- <-] | Hf];
          [job_patterns job; do 2 eexists;
           (split; [vm_compute; reflexivity |
            split; [vm_compute; reflexivity | vm_compute; reflexivity]]) |]).
  destruct Hf.
Qed.

End AdaptiveWeights.

(** C1, as stated, fails: a job whose only present dimension is the salary
    gets the weight vector with 0.025 for the salary and 0 elsewhere, whose
    sum is 0.025. *)
Lemma adaptive_weights_salary_only_counterexample :
  Vocab.present Vocab.job_salary_only "salary" = true
  /\ exists weights,
      Scoring.adaptive_weights Vocab.job_salary_only None = inr weights
      /\ (Vocab.total weights == 0.025)%Q
      /\ ~ (Qabs (Vocab.total weights - 1) <= 1 # 1000000)%Q.
Proof.
  split; [reflexivity|]. eexists. split; [vm_compute; reflexivity|].
  split; [vm_compute; reflexivity|].
  intros H. vm_compute in H. apply H. reflexivity.
Qed.

(** C1, amended: for every job with at least one present adjustable
    dimension (hard skills, soft skills, experience, degree, languages),
    the weight vector [adaptive_weights] returns sums to 1.0, hence within
    1e-6 of it. *)
Theorem adaptive_weights_sum_one (job : Job.t) :
  existsb (Vocab.present job) Vocab.ADJUSTABLE_FIELDS = true ->
  exists weights,
    Scoring.adaptive_weights job None = inr weights
    /\ (Vocab.total weights == 1)%Q
    /\ (Qabs (Vocab.total weights - 1) <= 1 # 1000000)%Q.
Proof.
  intros H. destruct (adaptive_weights_total job H) as (weights & Hw & Ht).
  exists weights. split; [exact Hw|]. split; [exact Ht|].
  apply Qabs_within, Ht.
Qed.

Lemma adaptive_weights_sum_one_witness :
  exists weights,
    Scoring.adaptive_weights Vocab.job_skills_only None = inr weights
    /\ (Vocab.total weights == 1)%Q
    /\ (Qabs (Vocab.total weights - 1) <= 1 # 1000000)%Q.
Proof. apply (adaptive_weights_sum_one Vocab.job_skills_only). reflexivity. Defined.

(** C2, as stated, fails: with every adjustable dimension present and the
    salary absent, no mass is freed by adjustable dimensions, and yet the
    hard-skill weight rises from 0.40 to 39/95: the salary's 0.025 has been
    spread over the adjustable dimensions, and the total is still 1. *)
Lemma adaptive_weights_absent_salary_counterexample :
  Scoring.fields_absent Vocab.job_without_salary = ["salary"]
  /\ (Vocab.removed_adjustable_mass Vocab.job_without_salary == 0)%Q
  /\ exists weights x,
      Scoring.adaptive_weights Vocab.job_without_salary None = inr weights
      /\ Scoring.dict_get weights "hard_skills" = Some x
      /\ (x == 39 # 95)%Q
      /\ ~ (x == 0.40 * ((Vocab.adjustable_mass Vocab.job_without_salary
                           + Vocab.removed_adjustable_mass Vocab.job_without_salary)
                          / Vocab.adjustable_mass Vocab.job_without_salary))%Q
      /\ (Vocab.total weights == 1)%Q.
Proof.
  split; [reflexivity|]. split; [vm_compute; reflexivity|].
  do 2 eexists. split; [vm_compute; reflexivity|].
  split; [vm_compute; reflexivity|]. split; [vm_compute; reflexivity|].
  split; [|vm_compute; reflexivity].
  intros H. vm_compute in H. discriminate H.
Qed.

Lemma adaptive_weights_redistribution_witness :
  exists weights x,
    Scoring.adaptive_weights Vocab.job_without_salary None = inr weights
    /\ Scoring.dict_get weights "hard_skills" = Some x
    /\ (x == 0.40 * ((Vocab.adjustable_mass Vocab.job_without_salary
                      + Vocab.removed_mass Vocab.job_without_salary)
                     / Vocab.adjustable_mass Vocab.job_without_salary))%Q.
Proof.
  apply (adaptive_weights_redistribution Vocab.job_without_salary "hard_skills" 0.40%Q).
  reflexivity.
Defined.

(** ** The cache *)

Section Cache.
Import Py Database Similarity Vocab.
Open Scope Q_scope.

Lemma sorted_pair_comm (a b : string) : Text.sorted_pair a b = Text.sorted_pair b a.
Proof.
  unfold Text.sorted_pair, String.ltb.
  destruct (String.compare a b) eqn:E.
  - apply String.compare_eq_iff in E. subst.
    destruct (String.compare b b); reflexivity.
  - rewrite String.compare_antisym, E. reflexivity.
  - rewrite String.compare_antisym, E. reflexivity.
Qed.

Lemma get_cache_key_comm ct a b : get_cache_key ct a b = get_cache_key ct b a.
Proof. unfold get_cache_key. rewrite (sorted_pair_comm a b). reflexivity. Qed.

Lemma cache_peek_comm w ct a b : cache_peek w ct a b = cache_peek w ct b a.
Proof.
  unfold cache_peek.
  rewrite (get_cache_key_comm ct a b), (sorted_pair_comm a b). reflexivity.
Qed.

Lemma read_world_comm w ct a b : read_world w ct a b = read_world w ct b a.
Proof.
  unfold read_world.
  rewrite (get_cache_key_comm ct a b), (sorted_pair_comm a b). reflexivity.
Qed.

Lemma save_world_comm w ct a b s : save_world w ct a b s = save_world w ct b a s.
Proof.
  unfold save_world.
  rewrite (get_cache_key_comm ct a b), (sorted_pair_comm a b). reflexivity.
Qed.

(** The two cache functions, as functions of the world. *)
Lemma run_get w ct a b :
  run (get_similarity_from_cache ct a b) w
  = (inr (cache_peek w ct a b), read_world w ct a b).
Proof.
  unfold run, get_similarity_from_cache, cache_peek, read_world.
  unfold mbind, M_bind, gets, modify, mret, M_ret. simpl.
  destruct (redis_client w) as [store|]; simpl.
  - destruct (store !! get_cache_key ct a b); [reflexivity|].
    destruct (select_score _ _ _); reflexivity.
  - destruct (select_score _ _ _); reflexivity.
Qed.

Lemma run_save w ct a b s :
  run (save_similarity_to_cache ct a b s) w = (inr tt, save_world w ct a b s).
Proof.
  unfold run, save_similarity_to_cache, save_world.
  unfold mbind, M_bind, gets, modify, mret, M_ret. simpl.
  destruct (redis_client w) as [store|]; reflexivity.
Qed.

Lemma select_score_update_timestamp rows t1 t2 now a b :
  select_score (update_timestamp rows t1 t2 now) a b = select_score rows a b.
Proof.
  unfold select_score, update_timestamp.
  induction rows as [|r rows IH]; [reflexivity|]. simpl.
  destruct (row_matches t1 t2 r); simpl.
  - change (row_matches a b (mkRow (row_text1 r) (row_text2 r) (row_score r) now))
      with (row_matches a b r).
    destruct (row_matches a b r); [reflexivity | exact IH].
  - destruct (row_matches a b r); [reflexivity | exact IH].
Qed.

Lemma select_score_upsert rows t1 t2 s now :
  select_score (upsert rows t1 t2 s now) t1 t2 = Some s.
Proof.
  unfold select_score.
  assert (Hm : forall x, row_matches t1 t2 (mkRow t1 t2 s x) = true).
  { intros x. unfold row_matches. simpl. rewrite !String.eqb_refl. reflexivity. }
  induction rows as [|r rows IH]; simpl.
  - rewrite Hm. reflexivity.
  - destruct (row_matches t1 t2 r) eqn:E; simpl.
    + rewrite Hm. reflexivity.
    + rewrite E. exact IH.
Qed.

(** A lookup changes no answer of the cache. *)
Lemma cache_peek_read_world w ct a b ct' a' b' :
  cache_peek (read_world w ct a b) ct' a' b' = cache_peek w ct' a' b'.
Proof.
  unfold read_world, cache_peek.
  destruct (redis_client w ≫= (fun store => store !! get_cache_key ct a b));
    [reflexivity|].
  destruct (select_score (pg_tables w ct) _ _); [|reflexivity].
  simpl.
  destruct (redis_client w ≫= (fun store => store !! get_cache_key ct' a' b'));
    [reflexivity|].
  destruct (decide (ct' = ct)) as [->|]; [|reflexivity].
  apply select_score_update_timestamp.
Qed.

(** A write is read back. *)
Lemma cache_peek_save_world w ct a b s :
  cache_peek (save_world w ct a b s) ct a b = Some s.
Proof.
  unfold save_world, cache_peek.
  destruct (redis_client w) as [store|] eqn:R; simpl.
  - rewrite lookup_insert_eq. reflexivity.
  - rewrite R. simpl. destruct (decide (ct = ct)); [|congruence].
    apply select_score_upsert.
Qed.

Lemma oracle_calls_read_world w ct a b :
  oracle_calls (read_world w ct a b) = oracle_calls w.
Proof.
  unfold read_world. destruct (_ ≫= _); [reflexivity|].
  destruct (select_score _ _ _); reflexivity.
Qed.

Lemma oracle_read_world w ct a b : oracle (read_world w ct a b) = oracle w.
Proof.
  unfold read_world. destruct (_ ≫= _); [reflexivity|].
  destruct (select_score _ _ _); reflexivity.
Qed.

Lemma lru_read_world w ct a b : lru (read_world w ct a b) = lru w.
Proof.
  unfold read_world. destruct (_ ≫= _); [reflexivity|].
  destruct (select_score _ _ _); reflexivity.
Qed.

Lemma cache_reads_read_world w ct a b :
  cache_reads (read_world w ct a b) = S (cache_reads w).
Proof.
  unfold read_world. destruct (_ ≫= _); [reflexivity|].
  destruct (select_score _ _ _); reflexivity.
Qed.

Lemma oracle_calls_save_world w ct a b s :
  oracle_calls (save_world w ct a b s) = oracle_calls w.
Proof. unfold save_world. destruct (redis_client w); reflexivity. Qed.

Lemma lru_save_world w ct a b s : lru (save_world w ct a b s) = lru w.
Proof. unfold save_world. destruct (redis_client w); reflexivity. Qed.

(** A lookup that misses leaves the world as it was, the count of
    lookups apart. *)
Lemma read_world_miss w ct a b :
  cache_peek w ct a b = None -> read_world w ct a b = count_cache_read w.
Proof.
  unfold cache_peek, read_world.
  destruct (_ ≫= _); [discriminate|]. intros ->. reflexivity.
Qed.

End Cache.

(** ** The resolvers *)

Section Resolvers.
Import Py Database Similarity Vocab.
Open Scope Q_scope.

Lemma run_bind {A B} (m : M A) (f : A -> M B) (w w' : World) (a : A) :
  run m w = (inr a, w') -> run (m ≫= f) w = run (f a) w'.
Proof. unfold run, mbind, M_bind. intros ->. reflexivity. Qed.

Lemma cache_peek_count_cache_read w ct a b :
  cache_peek (count_cache_read w) ct a b = cache_peek w ct a b.
Proof. reflexivity. Qed.

Lemma run_semantic w a b ct pt :
  run (semantic_similarity_chatgpt a b ct pt) w
  = (inr (semantic_outcome w a b ct pt).1, (semantic_outcome w a b ct pt).2).
Proof.
  unfold semantic_similarity_chatgpt, semantic_outcome.
  rewrite (run_bind _ _ _ _ _ (run_get w ct a b)).
  destruct (cache_peek w ct a b) as [c|] eqn:P; [reflexivity|].
  rewrite (read_world_miss _ _ _ _ P).
  unfold run, try_except, chat_completions_create.
  unfold mbind, M_bind, gets, modify, mret, M_ret, raise. simpl.
  destruct (oracle w (oracle_calls w) (prompts_get pt a b)) as [content|];
    [|reflexivity].
  fold (score_of_response content).
  pose proof (run_save (count_oracle_call (count_cache_read w)) ct a b
                (score_of_response content)) as Hs.
  unfold run in Hs. rewrite Hs. reflexivity.
Qed.

Lemma run_get_similarity w ct pt a b :
  run (get_similarity ct pt a b) w
  = (inr (similarity_outcome w ct pt a b).1, (similarity_outcome w ct pt a b).2).
Proof.
  unfold get_similarity, similarity_outcome.
  destruct (negb (Text.truthy a) || negb (Text.truthy b)); [reflexivity|].
  destruct (String.eqb (normalize_text a) (normalize_text b)); [reflexivity|].
  rewrite (run_bind _ _ _ _ _ (run_get w ct a b)).
  destruct (cache_peek w ct a b) as [c|] eqn:P; [reflexivity|].
  rewrite (read_world_miss _ _ _ _ P). apply run_semantic.
Qed.

Lemma run_skill_body w a b :
  run (calculate_skill_similarity_body a b) w
  = (inr (skill_body_outcome w a b).1, (skill_body_outcome w a b).2).
Proof.
  unfold calculate_skill_similarity_body, skill_body_outcome.
  destruct (String.eqb (normalize_text a) (normalize_text b)); [reflexivity|].
  rewrite (run_bind _ _ _ _ _ (run_get w ct_hard_skills a b)).
  destruct (cache_peek w ct_hard_skills a b) as [c|] eqn:P; [reflexivity|].
  rewrite (read_world_miss _ _ _ _ P).
  destruct (check_skills_relations a b) as [r|]; [|apply run_semantic].
  rewrite (run_bind _ _ _ _ _ (run_save (count_cache_read w) ct_hard_skills a b r)).
  reflexivity.
Qed.

Lemma run_hard_skill w a b :
  run (get_hard_skill_similarity a b) w
  = (inr (hard_skill_outcome w a b).1, (hard_skill_outcome w a b).2).
Proof.
  unfold get_hard_skill_similarity, hard_skill_outcome.
  destruct (negb (Text.truthy a) || negb (Text.truthy b)); [reflexivity|].
  unfold calculate_skill_similarity, lru_cache.
  unfold run at 1, mbind at 1, M_bind at 1, gets at 1.
  destruct (lru_lookup (lru w) a b) as [m|]; [reflexivity|].
  pose proof (run_skill_body w a b) as Hb. unfold run in Hb.
  unfold mbind, M_bind. rewrite Hb. reflexivity.
Qed.

(** A resolver computes its outcome, and never raises. *)
Lemma run_resolve w kind a b :
  run (resolve kind a b) w
  = (inr (resolve_outcome w kind a b).1, (resolve_outcome w kind a b).2).
Proof.
  destruct kind; simpl;
    [apply run_get_similarity | apply run_hard_skill
    | apply run_get_similarity | apply run_get_similarity].
Qed.

End Resolvers.

(** ** Write-through of the oracle fallback *)

Section WriteThrough.
Import Py Database Similarity Vocab.
Open Scope Q_scope.

(** The PostgreSQL row of a pair after a write. *)
Lemma select_score_save_world w ct a b s :
  select_score (pg_tables (save_world w ct a b s) ct)
    (Text.sorted_pair a b).1 (Text.sorted_pair a b).2 = Some s.
Proof.
  unfold save_world. simpl.
  destruct (decide (ct = ct)); [|congruence]. apply select_score_upsert.
Qed.

Lemma cache_writes_save_world w ct a b s :
  cache_writes (save_world w ct a b s) = S (cache_writes w).
Proof. unfold save_world. destruct (redis_client w); reflexivity. Qed.

Lemma cache_reads_save_world w ct a b s :
  cache_reads (save_world w ct a b s) = cache_reads w.
Proof. unfold save_world. destruct (redis_client w); reflexivity. Qed.

End WriteThrough.

(** C3, as stated, fails: when the request to the language model raises,
    [semantic_similarity_chatgpt] answers 0.5 and writes nothing: the pair
    is in neither tier afterwards. *)
Lemma semantic_similarity_failed_call_counterexample :
  exists w',
    Py.run (Similarity.semantic_similarity_chatgpt "Data Engineer" "Data Analyst"
              Py.ct_name "job_title") (Vocab.fresh_world Vocab.model_down)
    = (inr 0.5%Q, w')
    /\ Database.cache_peek w' Py.ct_name "Data Engineer" "Data Analyst" = None
    /\ Py.pg_tables w' Py.ct_name = []
    /\ Py.cache_writes w' = 0%nat.
Proof.
  eexists. split; [vm_compute; reflexivity|].
  split; [|split]; reflexivity.
Qed.

(** C3, amended: on a pair the cache does not hold, when the request to the
    language model raises, [semantic_similarity_chatgpt] answers the neutral
    0.5 without raising and writes nothing to the cache; when the model
    answers, the score read from the answer, which is 0.5 when the answer
    holds no number, is answered and written through to the cache, Redis
    and PostgreSQL row alike. *)
Theorem semantic_similarity_write_through
    (w : Py.World) (text1 text2 : string) (ct : Py.cache_type) (prompt_type : string) :
  Database.cache_peek w ct text1 text2 = None ->
  (Py.oracle w (Py.oracle_calls w) (Similarity.prompts_get prompt_type text1 text2) = None ->
   exists w',
     Py.run (Similarity.semantic_similarity_chatgpt text1 text2 ct prompt_type) w
     = (inr 0.5%Q, w')
     /\ Py.redis_client w' = Py.redis_client w
     /\ (forall ct', Py.pg_tables w' ct' = Py.pg_tables w ct')
     /\ Py.cache_writes w' = Py.cache_writes w
     /\ Database.cache_peek w' ct text1 text2 = None)
  /\ (forall content,
      Py.oracle w (Py.oracle_calls w) (Similarity.prompts_get prompt_type text1 text2)
      = Some content ->
      exists w',
        Py.run (Similarity.semantic_similarity_chatgpt text1 text2 ct prompt_type) w
        = (inr (Vocab.score_of_response content), w')
        /\ Database.cache_peek w' ct text1 text2 = Some (Vocab.score_of_response content)
        /\ Database.select_score (Py.pg_tables w' ct)
             (Text.sorted_pair text1 text2).1 (Text.sorted_pair text1 text2).2
           = Some (Vocab.score_of_response content)
        /\ Py.cache_writes w' = S (Py.cache_writes w))
  /\ (forall content,
      Similarity.re_search_number (Text.strip content) = None ->
      Vocab.score_of_response content = 0.5%Q).
Proof.
  intros Hmiss. split; [|split].
  - intros Hdown. eexists. rewrite run_semantic.
    unfold Vocab.semantic_outcome. rewrite Hmiss, Hdown. simpl.
    split; [reflexivity|]. split; [reflexivity|]. split; [reflexivity|].
    split; [reflexivity|]. exact Hmiss.
  - intros content Hanswer. eexists. rewrite run_semantic.
    unfold Vocab.semantic_outcome. rewrite Hmiss, Hanswer. simpl.
    split; [reflexivity|]. split; [apply cache_peek_save_world|].
    split; [apply select_score_save_world|].
    rewrite cache_writes_save_world. reflexivity.
  - intros content Hnone. unfold Vocab.score_of_response. rewrite Hnone. reflexivity.
Qed.

Lemma semantic_similarity_write_through_witness :
  (exists w',
     Py.run (Similarity.semantic_similarity_chatgpt "React" "Vue" Py.ct_name "general")
            (Vocab.fresh_world_redis (Vocab.model_const "aucune idée"))
     = (inr (Vocab.score_of_response "aucune idée"), w')
     /\ Database.cache_peek w' Py.ct_name "React" "Vue"
        = Some (Vocab.score_of_response "aucune idée")
     /\ Database.select_score (Py.pg_tables w' Py.ct_name)
          (Text.sorted_pair "React" "Vue").1 (Text.sorted_pair "React" "Vue").2
        = Some (Vocab.score_of_response "aucune idée")
     /\ Py.cache_writes w' = 1%nat)
  /\ Vocab.score_of_response "aucune idée" = 0.5%Q.
Proof.
  pose proof (semantic_similarity_write_through
                (Vocab.fresh_world_redis (Vocab.model_const "aucune idée"))
                "React" "Vue" Py.ct_name "general" eq_refl) as (_ & Hanswer & Hnone).
  split.
  - apply (Hanswer "aucune idée"). reflexivity.
  - apply (Hnone "aucune idée"). reflexivity.
Defined.

(** ** The exact-match shortcut *)

Section Shortcut.
Import Py Database Similarity Vocab.
Open Scope Q_scope.

Lemma truthy_true (s : string) : s <> "" <-> Text.truthy s = true.
Proof. destruct s; simpl; split; congruence. Qed.

Lemma untouched_refl w : untouched w w.
Proof. repeat split. Qed.

Lemma untouched_set_lru w l : untouched w (set_lru l w).
Proof. repeat split. Qed.

(** Past the shortcuts, every path of the oracle fallback counts a
    lookup. *)
Lemma cache_reads_semantic w a b ct pt :
  (cache_reads w < cache_reads (semantic_outcome w a b ct pt).2)%nat.
Proof.
  unfold semantic_outcome.
  destruct (cache_peek w ct a b).
  - cbn [fst snd]. rewrite cache_reads_read_world. lia.
  - destruct (oracle w (oracle_calls w) _); cbn [fst snd].
    + rewrite cache_reads_save_world. simpl. lia.
    + simpl. lia.
Qed.

Lemma similarity_outcome_shortcut w ct pt a b :
  a <> "" -> b <> "" -> normalize_text a = normalize_text b ->
  similarity_outcome w ct pt a b = (1.0, w).
Proof.
  intros Ha%truthy_true Hb%truthy_true Hn. unfold similarity_outcome.
  rewrite Ha, Hb, Hn, String.eqb_refl. reflexivity.
Qed.

Lemma similarity_outcome_shortcut_only w ct pt a b :
  (similarity_outcome w ct pt a b).1 == 1.0 ->
  cache_reads (similarity_outcome w ct pt a b).2 = cache_reads w ->
  a <> "" /\ b <> "" /\ normalize_text a = normalize_text b.
Proof.
  unfold similarity_outcome.
  assert (Hne : ~ (0.0 == 1.0)) by (intros H; vm_compute in H; discriminate H).
  destruct (Text.truthy a) eqn:Ha, (Text.truthy b) eqn:Hb; cbn [negb orb fst snd];
    try (intros H; destruct (Hne H)).
  destruct (String.eqb_spec (normalize_text a) (normalize_text b)) as [Hn|Hn].
  - intros _ _. split; [apply truthy_true, Ha|].
    split; [apply truthy_true, Hb | exact Hn].
  - intros _. destruct (cache_peek w ct a b).
    + cbn [fst snd]. rewrite cache_reads_read_world. lia.
    + pose proof (cache_reads_semantic (count_cache_read w) a b ct pt) as Hlt.
      simpl in Hlt. lia.
Qed.

Lemma hard_skill_outcome_shortcut w a b :
  a <> "" -> b <> "" -> normalize_text a = normalize_text b -> lru_sound w ->
  (hard_skill_outcome w a b).1 = 1.0 /\ untouched w (hard_skill_outcome w a b).2.
Proof.
  intros Ha%truthy_true Hb%truthy_true Hn Hsound. unfold hard_skill_outcome.
  rewrite Ha, Hb. simpl.
  destruct (lru_lookup (lru w) a b) as [m|] eqn:L.
  - rewrite (Hsound a b m L Hn). split; [reflexivity | apply untouched_set_lru].
  - unfold skill_body_outcome. rewrite Hn, String.eqb_refl. simpl.
    split; [reflexivity | apply untouched_set_lru].
Qed.

End Shortcut.

(** C7, as stated, fails: ["!"] and ["?"] are not empty, both normalize to
    the empty string, and the resolver answers 1.0 for them without a look
    at the cache or a request to the language model. *)
Lemma resolve_empty_normalization_counterexample :
  Similarity.normalize_text "!" = ""
  /\ Similarity.normalize_text "?" = ""
  /\ Py.run (Similarity.resolve Py.ct_name "!" "?") (Vocab.fresh_world Vocab.model_down)
     = (inr 1.0%Q, Vocab.fresh_world Vocab.model_down).
Proof. repeat split. Qed.

(** C7, amended: for every kind, [resolve] answers 1.0 without a look at
    the cache or a request to the language model whenever both texts are
    non-empty and their normalizations are equal, the empty normalization
    included (the hard-skill memo being sound); for the kinds other than
    hard skills, whose memo can answer too, an answer of 1.0 without a
    lookup happens in that case only. *)
Theorem resolve_exact_match_shortcut
    (kind : Py.cache_type) (textA textB : string) (w : Py.World) :
  (textA <> "" -> textB <> "" ->
   Similarity.normalize_text textA = Similarity.normalize_text textB ->
   Vocab.lru_sound w ->
   exists w',
     Py.run (Similarity.resolve kind textA textB) w = (inr 1.0%Q, w')
     /\ Vocab.untouched w w')
  /\ (kind <> Py.ct_hard_skills ->
      forall s w',
        Py.run (Similarity.resolve kind textA textB) w = (inr s, w') ->
        (s == 1.0)%Q -> Py.cache_reads w' = Py.cache_reads w ->
        textA <> "" /\ textB <> ""
        /\ Similarity.normalize_text textA = Similarity.normalize_text textB).
Proof.
  split.
  - intros Ha Hb Hn Hsound. rewrite run_resolve.
    destruct kind; simpl;
      try (rewrite similarity_outcome_shortcut by assumption;
           eexists; split; [reflexivity | apply untouched_refl]).
    destruct (hard_skill_outcome_shortcut w textA textB Ha Hb Hn Hsound) as [-> Hu].
    eexists. split; [reflexivity | exact Hu].
  - intros Hkind s w'. rewrite run_resolve. intros [= <- <-].
    destruct kind; simpl; try congruence; apply similarity_outcome_shortcut_only.
Qed.

Lemma resolve_exact_match_shortcut_witness :
  (exists w',
     Py.run (Similarity.resolve Py.ct_hard_skills "Python" "python ")
            (Vocab.fresh_world Vocab.model_down) = (inr 1.0%Q, w')
     /\ Vocab.untouched (Vocab.fresh_world Vocab.model_down) w')
  /\ ("C++" <> "" /\ "C#" <> ""
      /\ Similarity.normalize_text "C++" = Similarity.normalize_text "C#").
Proof.
  split.
  - apply (proj1 (resolve_exact_match_shortcut Py.ct_hard_skills "Python" "python "
                    (Vocab.fresh_world Vocab.model_down))).
    + discriminate.
    + discriminate.
    + reflexivity.
    + intros a b v H. vm_compute in H. discriminate H.
  - apply (proj2 (resolve_exact_match_shortcut Py.ct_name "C++" "C#"
                    (Vocab.fresh_world Vocab.model_down))
             ltac:(discriminate) 1.0%Q (Vocab.fresh_world Vocab.model_down)).
    + reflexivity.
    + reflexivity.
    + reflexivity.
Defined.

(** ** Symmetry and stability of a resolution *)

Section Symmetry.
Import Py Database Similarity Vocab.
Open Scope Q_scope.

Lemma relations_scan_comm table n1 n2 :
  relations_scan table n1 n2 = relations_scan table n2 n1.
Proof.
  induction table as [|[base related] table IH]; [reflexivity|]. simpl.
  rewrite (andb_comm (mem n2 related) (mem n1 related)), IH.
  destruct (String.eqb n1 base && mem n2 related),
           (String.eqb n2 base && mem n1 related); reflexivity.
Qed.

Lemma check_skills_relations_comm a b :
  check_skills_relations a b = check_skills_relations b a.
Proof.
  unfold check_skills_relations.
  rewrite (String.eqb_sym (normalize_text a)), relations_scan_comm. reflexivity.
Qed.

(** *** The memo *)

Lemma lru_lookup_head a b v l : lru_lookup ((a, b, v) :: l) a b = Some v.
Proof.
  unfold lru_lookup, lru_key_eqb. simpl. rewrite !String.eqb_refl. reflexivity.
Qed.

Lemma lru_lookup_cons_ne a b v l x y :
  (a, b) <> (x, y) -> lru_lookup ((a, b, v) :: l) x y = lru_lookup l x y.
Proof.
  intros Hne. unfold lru_lookup, lru_key_eqb. simpl.
  destruct (String.eqb_spec a x) as [->|]; [|reflexivity].
  destruct (String.eqb_spec b y) as [->|]; [congruence | reflexivity].
Qed.

Lemma lru_lookup_none_remove l a b x y :
  lru_lookup l x y = None -> lru_lookup (lru_remove l a b) x y = None.
Proof.
  unfold lru_lookup, lru_remove. induction l as [|e l IH]; [reflexivity|].
  simpl. destruct (lru_key_eqb x y e) eqn:E; [discriminate|]. intros H.
  destruct (negb (lru_key_eqb a b e)); simpl; [rewrite E|]; apply IH, H.
Qed.

Lemma lru_lookup_none_take l n x y :
  lru_lookup l x y = None -> lru_lookup (take n l) x y = None.
Proof.
  unfold lru_lookup. revert n. induction l as [|e l IH]; intros [|n];
    try reflexivity.
  simpl. destruct (lru_key_eqb x y e); [discriminate|]. apply IH.
Qed.

(** *** What a resolution leaves in the cache *)

Lemma semantic_outcome_miss_calls w a b ct pt :
  cache_peek w ct a b = None ->
  oracle_calls (semantic_outcome w a b ct pt).2 = S (oracle_calls w).
Proof.
  unfold semantic_outcome. intros ->.
  destruct (oracle w (oracle_calls w) _); cbn [fst snd]; [|reflexivity].
  rewrite oracle_calls_save_world. reflexivity.
Qed.

Lemma semantic_outcome_leaves_cached w a b ct pt :
  is_Some (oracle w (oracle_calls w) (prompts_get pt a b)) ->
  cache_peek (semantic_outcome w a b ct pt).2 ct a b
  = Some (semantic_outcome w a b ct pt).1.
Proof.
  intros [content Hc]. unfold semantic_outcome.
  destruct (cache_peek w ct a b) as [c|] eqn:P; cbn [fst snd].
  - rewrite cache_peek_read_world. exact P.
  - rewrite Hc. cbn [fst snd]. apply cache_peek_save_world.
Qed.

Lemma similarity_outcome_cases w ct pt a b :
  similarity_outcome w ct pt a b
  = match shortcut a b with
    | Some k => (k, w)
    | None =>
        match cache_peek w ct a b with
        | Some c => (c, read_world w ct a b)
        | None => semantic_outcome (count_cache_read w) a b ct pt
        end
    end.
Proof.
  unfold similarity_outcome, shortcut.
  destruct (negb (Text.truthy a) || negb (Text.truthy b)); [reflexivity|].
  destruct (String.eqb _ _); reflexivity.
Qed.

Lemma shortcut_comm a b : shortcut a b = shortcut b a.
Proof.
  unfold shortcut.
  rewrite (orb_comm (negb (Text.truthy a))), (String.eqb_sym (normalize_text a)).
  reflexivity.
Qed.

Lemma settled_shortcut a b c :
  settled a b c = match shortcut a b with Some k => k | None => c end.
Proof.
  unfold settled, shortcut.
  destruct (negb (Text.truthy a) || negb (Text.truthy b)); [reflexivity|].
  destruct (String.eqb _ _); reflexivity.
Qed.

(** The kinds other than hard skills: the answer and the cache after a
    resolution. *)
Lemma similarity_outcome_quiet w ct pt a b :
  oracle_calls (similarity_outcome w ct pt a b).2 = oracle_calls w ->
  (similarity_outcome w ct pt b a).1 = (similarity_outcome w ct pt a b).1
  /\ oracle_calls (similarity_outcome w ct pt b a).2 = oracle_calls w.
Proof.
  rewrite !similarity_outcome_cases, (shortcut_comm b a), (cache_peek_comm w ct b a).
  destruct (shortcut a b); [split; reflexivity|].
  destruct (cache_peek w ct a b) as [c|] eqn:P.
  - intros _. cbn [fst snd]. rewrite oracle_calls_read_world.
    split; reflexivity.
  - rewrite semantic_outcome_miss_calls by exact P. simpl. lia.
Qed.

Lemma similarity_outcome_settled w ct pt a b c :
  cache_peek w ct a b = Some c ->
  (similarity_outcome w ct pt a b).1 = settled a b c
  /\ oracle_calls (similarity_outcome w ct pt a b).2 = oracle_calls w
  /\ cache_peek (similarity_outcome w ct pt a b).2 ct a b = Some c.
Proof.
  intros P. rewrite similarity_outcome_cases, settled_shortcut, P.
  destruct (shortcut a b); cbn [fst snd].
  - repeat split. exact P.
  - rewrite oracle_calls_read_world, cache_peek_read_world. repeat split. exact P.
Qed.

(** After a resolution that the oracle, if asked, has answered, the
    pair resolves to the same score in either order. *)
Lemma similarity_outcome_again w ct pt a b a' b' :
  (a', b') = (a, b) \/ (a', b') = (b, a) ->
  is_Some (oracle w (oracle_calls w) (prompts_get pt a b)) ->
  let out := similarity_outcome w ct pt a b in
  (similarity_outcome out.2 ct pt a' b').1 = out.1
  /\ oracle_calls (similarity_outcome out.2 ct pt a' b').2 = oracle_calls out.2.
Proof.
  intros Hab Hanswer out.
  assert (Hs : shortcut a' b' = shortcut a b).
  { destruct Hab as [[= -> ->] | [= -> ->]]; [reflexivity | apply shortcut_comm]. }
  assert (Hp : forall w', cache_peek w' ct a' b' = cache_peek w' ct a b).
  { intros w'. destruct Hab as [[= -> ->] | [= -> ->]];
      [reflexivity | apply cache_peek_comm]. }
  subst out. rewrite (similarity_outcome_cases _ ct pt a' b'), Hs, Hp.
  rewrite (similarity_outcome_cases w ct pt a b).
  destruct (shortcut a b) as [k|]; [split; reflexivity|].
  destruct (cache_peek w ct a b) as [c|] eqn:P; cbn [fst snd].
  - rewrite cache_peek_read_world, P. cbn [fst snd].
    rewrite oracle_calls_read_world. split; reflexivity.
  - rewrite semantic_outcome_leaves_cached by exact Hanswer. cbn [fst snd].
    rewrite oracle_calls_read_world. split; reflexivity.
Qed.

End Symmetry.

Section HardSkillSymmetry.
Import Py Database Similarity Vocab.
Open Scope Q_scope.

Lemma lru_semantic_outcome w a b ct pt :
  lru (semantic_outcome w a b ct pt).2 = lru w.
Proof.
  unfold semantic_outcome. destruct (cache_peek w ct a b); cbn [fst snd].
  - apply lru_read_world.
  - destruct (oracle w (oracle_calls w) _); cbn [fst snd]; [|reflexivity].
    rewrite lru_save_world. reflexivity.
Qed.

Lemma lru_skill_body w a b : lru (skill_body_outcome w a b).2 = lru w.
Proof.
  unfold skill_body_outcome.
  destruct (String.eqb _ _); [reflexivity|].
  destruct (cache_peek w ct_hard_skills a b); cbn [fst snd];
    [apply lru_read_world|].
  destruct (check_skills_relations a b); cbn [fst snd].
  - rewrite lru_save_world. reflexivity.
  - rewrite lru_semantic_outcome. reflexivity.
Qed.

Lemma skill_body_quiet w a b :
  oracle_calls (skill_body_outcome w a b).2 = oracle_calls w ->
  (skill_body_outcome w b a).1 = (skill_body_outcome w a b).1
  /\ oracle_calls (skill_body_outcome w b a).2 = oracle_calls w.
Proof.
  unfold skill_body_outcome.
  rewrite (String.eqb_sym (normalize_text b)), (cache_peek_comm w _ b a),
    (check_skills_relations_comm b a).
  destruct (String.eqb _ _); [split; reflexivity|].
  destruct (cache_peek w ct_hard_skills a b) as [c|] eqn:P; cbn [fst snd].
  - rewrite !oracle_calls_read_world. split; reflexivity.
  - destruct (check_skills_relations a b) as [r|]; cbn [fst snd].
    + rewrite !oracle_calls_save_world. split; reflexivity.
    + rewrite semantic_outcome_miss_calls by exact P. simpl. lia.
Qed.

Lemma skill_body_settled w a b c :
  cache_peek w ct_hard_skills a b = Some c ->
  (skill_body_outcome w a b).1
  = (if String.eqb (normalize_text a) (normalize_text b) then 1.0 else c)
  /\ oracle_calls (skill_body_outcome w a b).2 = oracle_calls w
  /\ cache_peek (skill_body_outcome w a b).2 ct_hard_skills a b = Some c.
Proof.
  intros P. unfold skill_body_outcome. rewrite P.
  destruct (String.eqb _ _); cbn [fst snd].
  - repeat split. exact P.
  - rewrite oracle_calls_read_world, cache_peek_read_world. repeat split. exact P.
Qed.

Lemma skill_body_leaves_cached w a b :
  String.eqb (normalize_text a) (normalize_text b) = false ->
  is_Some (oracle w (oracle_calls w) (prompts_get "hard_skill" a b)) ->
  cache_peek (skill_body_outcome w a b).2 ct_hard_skills a b
  = Some (skill_body_outcome w a b).1.
Proof.
  intros Hn Hanswer. unfold skill_body_outcome. rewrite Hn.
  destruct (cache_peek w ct_hard_skills a b) as [c|] eqn:P; cbn [fst snd].
  - rewrite cache_peek_read_world. exact P.
  - destruct (check_skills_relations a b) as [r|]; cbn [fst snd].
    + apply cache_peek_save_world.
    + apply semantic_outcome_leaves_cached. exact Hanswer.
Qed.

Lemma hard_skill_outcome_quiet w a b :
  lru_lookup (lru w) a b = None -> lru_lookup (lru w) b a = None ->
  oracle_calls (hard_skill_outcome w a b).2 = oracle_calls w ->
  (hard_skill_outcome w b a).1 = (hard_skill_outcome w a b).1
  /\ oracle_calls (hard_skill_outcome w b a).2 = oracle_calls w.
Proof.
  intros Lab Lba. unfold hard_skill_outcome.
  rewrite (orb_comm (negb (Text.truthy b))), Lab, Lba.
  destruct (negb (Text.truthy a) || negb (Text.truthy b)); [split; reflexivity|].
  cbn [fst snd]. apply skill_body_quiet.
Qed.

Lemma hard_skill_outcome_settled w a b c :
  cache_peek w ct_hard_skills a b = Some c ->
  lru_lookup (lru w) a b = None ->
  (hard_skill_outcome w a b).1 = settled a b c
  /\ oracle_calls (hard_skill_outcome w a b).2 = oracle_calls w
  /\ cache_peek (hard_skill_outcome w a b).2 ct_hard_skills a b = Some c.
Proof.
  intros P L. unfold hard_skill_outcome, settled. rewrite L.
  destruct (negb (Text.truthy a) || negb (Text.truthy b)).
  - repeat split. exact P.
  - cbn [fst snd]. apply skill_body_settled, P.
Qed.


(** A call in the other order right after is answered by the cache. *)
Lemma hard_skill_outcome_swapped w a b :
  lru_lookup (lru w) a b = None -> lru_lookup (lru w) b a = None ->
  is_Some (oracle w (oracle_calls w) (prompts_get "hard_skill" a b)) ->
  let out := hard_skill_outcome w a b in
  (hard_skill_outcome out.2 b a).1 = out.1
  /\ oracle_calls (hard_skill_outcome out.2 b a).2 = oracle_calls out.2.
Proof.
  intros Lab Lba Hanswer out. subst out. unfold hard_skill_outcome.
  rewrite (orb_comm (negb (Text.truthy b))), Lab.
  destruct (negb (Text.truthy a) || negb (Text.truthy b)); [split; reflexivity|].
  cbn [fst snd lru set_lru]. rewrite lru_skill_body.
  change (take 1000 ?l) with (take (S 999) l). cbn [take].
  destruct (decide ((a, b) = (b, a))) as [[= E _] | Hne].
  - subst b. rewrite lru_lookup_head. split; reflexivity.
  - rewrite lru_lookup_cons_ne by exact Hne.
    rewrite lru_lookup_none_take by (apply lru_lookup_none_remove, Lba).
    cbn [fst snd].
    set (w1 := (skill_body_outcome w a b).2).
    set (r := (skill_body_outcome w a b).1).
    set (l := ((a, b, r) :: take 999 (lru_remove (lru w) a b))).
    destruct (String.eqb (normalize_text a) (normalize_text b)) eqn:Hn.
    + assert (r = 1.0) as ->.
      { subst r. unfold skill_body_outcome. rewrite Hn. reflexivity. }
      unfold skill_body_outcome. rewrite String.eqb_sym, Hn. split; reflexivity.
    + pose proof (skill_body_leaves_cached w a b Hn Hanswer) as Hc.
      fold w1 r in Hc.
      assert (Hc' : cache_peek (set_lru l w1) ct_hard_skills b a = Some r).
      { rewrite cache_peek_comm. exact Hc. }
      destruct (skill_body_settled (set_lru l w1) b a r Hc') as (H1 & H2 & _).
      rewrite String.eqb_sym, Hn in H1. split; [exact H1 | exact H2].
Qed.

End HardSkillSymmetry.

Section ResolveTwice.
Import Py Database Similarity Vocab.
Open Scope Q_scope.

Lemma resolve_outcome_quiet w kind a b :
  lru_lookup (lru w) a b = None -> lru_lookup (lru w) b a = None ->
  oracle_calls (resolve_outcome w kind a b).2 = oracle_calls w ->
  (resolve_outcome w kind b a).1 = (resolve_outcome w kind a b).1
  /\ oracle_calls (resolve_outcome w kind b a).2 = oracle_calls w.
Proof.
  intros Lab Lba. destruct kind; simpl;
    [apply similarity_outcome_quiet | apply hard_skill_outcome_quiet; assumption
    | apply similarity_outcome_quiet | apply similarity_outcome_quiet].
Qed.

Lemma resolve_outcome_swapped w kind a b :
  lru_lookup (lru w) a b = None -> lru_lookup (lru w) b a = None ->
  is_Some (oracle w (oracle_calls w) (prompt_of kind a b)) ->
  (resolve_outcome (resolve_outcome w kind a b).2 kind b a).1
  = (resolve_outcome w kind a b).1
  /\ oracle_calls (resolve_outcome (resolve_outcome w kind a b).2 kind b a).2
     = oracle_calls (resolve_outcome w kind a b).2.
Proof.
  intros Lab Lba Hanswer. destruct kind; simpl in *;
    [apply similarity_outcome_again; auto
    | apply hard_skill_outcome_swapped; assumption
    | apply similarity_outcome_again; auto | apply similarity_outcome_again; auto].
Qed.


Lemma resolve_outcome_settled w kind a b c :
  cache_peek w kind a b = Some c -> lru_lookup (lru w) a b = None ->
  (resolve_outcome w kind a b).1 = settled a b c
  /\ oracle_calls (resolve_outcome w kind a b).2 = oracle_calls w
  /\ cache_peek (resolve_outcome w kind a b).2 kind a b = Some c.
Proof.
  intros P L. destruct kind; simpl;
    [apply similarity_outcome_settled, P | apply hard_skill_outcome_settled; assumption
    | apply similarity_outcome_settled, P | apply similarity_outcome_settled, P].
Qed.



End ResolveTwice.

(** C8, as stated, fails.  On a pair the cache does not hold, the two
    orders send two different prompts, which a language model may rate 0.9
    and 0.1; and when the first request fails, nothing is cached, so that
    the swapped call made next asks again and may answer 0.9 after 0.5. *)
Lemma resolve_order_counterexample :
  ((Py.run (Similarity.resolve Py.ct_name "Data Engineer" "Data Analyst")
           (Vocab.fresh_world Vocab.model_ordered)).1 = inr (0.9)%Q
   /\ (Py.run (Similarity.resolve Py.ct_name "Data Analyst" "Data Engineer")
              (Vocab.fresh_world Vocab.model_ordered)).1 = inr (0.1)%Q
   /\ ~ (0.9 == 0.1)%Q)
  /\ exists w1 w2,
      Py.run (Similarity.resolve Py.ct_name "Data Engineer" "Data Analyst")
             (Vocab.fresh_world Vocab.model_flaky) = (inr (0.5)%Q, w1)
      /\ Py.run (Similarity.resolve Py.ct_name "Data Analyst" "Data Engineer") w1
         = (inr (0.9)%Q, w2)
      /\ ~ (0.5 == 0.9)%Q.
Proof.
  split.
  - split; [vm_compute; reflexivity|]. split; [vm_compute; reflexivity|].
    intros H. vm_compute in H. discriminate H.
  - do 2 eexists. split; [vm_compute; reflexivity|].
    split; [vm_compute; reflexivity|].
    intros H. vm_compute in H. discriminate H.
Qed.

(** C8, amended: with the hard-skill memo holding the pair in neither
    order, resolve(kind, a, b) and resolve(kind, b, a) answer the same score
    from one state of the caches whenever the first needs no request to the
    language model (an empty text, equal normalizations, a related pair of
    hard skills, a cached pair); and resolve(kind, b, a) called right after
    resolve(kind, a, b) sends no request whenever the language model, if
    asked by the first call, has answered, and answers the same score when
    a Redis client serves the cache or when the first call has written
    nothing to the cache.  Without Redis a score the first call has just
    written is read back from the REAL column of PostgreSQL, and nothing
    is said of what the swapped call answers then. *)
Theorem resolve_symmetric_short_of_oracle
    (kind : Py.cache_type) (a b : string) (w : Py.World) (s1 : Q) (w1 : Py.World) :
  Similarity.lru_lookup (Py.lru w) a b = None ->
  Similarity.lru_lookup (Py.lru w) b a = None ->
  Py.run (Similarity.resolve kind a b) w = (inr s1, w1) ->
  (Py.oracle_calls w1 = Py.oracle_calls w ->
   exists w2,
     Py.run (Similarity.resolve kind b a) w = (inr s1, w2)
     /\ Py.oracle_calls w2 = Py.oracle_calls w)
  /\ (is_Some (Py.oracle w (Py.oracle_calls w) (Vocab.prompt_of kind a b)) ->
      exists s2 w2,
        Py.run (Similarity.resolve kind b a) w1 = (inr s2, w2)
        /\ Py.oracle_calls w2 = Py.oracle_calls w1
        /\ (is_Some (Py.redis_client w) \/ Py.cache_writes w1 = Py.cache_writes w ->
            s2 = s1)).
Proof.
  intros Lab Lba. rewrite run_resolve. intros [= <- <-]. split.
  - intros Hquiet.
    destruct (resolve_outcome_quiet w kind a b Lab Lba Hquiet) as [E1 E2].
    eexists. rewrite run_resolve, E1. split; [reflexivity | exact E2].
  - intros Hanswer.
    destruct (resolve_outcome_swapped w kind a b Lab Lba Hanswer) as [E1 E2].
    do 2 eexists. rewrite run_resolve.
    split; [reflexivity|]. split; [exact E2|]. intros _. exact E1.
Qed.

Lemma resolve_symmetric_short_of_oracle_witness :
  (exists w2,
     Py.run (Similarity.resolve Py.ct_hard_skills "JavaScript" "React")
            (Vocab.fresh_world Vocab.model_down) = (inr (0.85)%Q, w2)
     /\ Py.oracle_calls w2 = 0%nat)
  /\ (exists s2 w2,
        Py.run (Similarity.resolve Py.ct_name "Data Analyst" "Data Engineer")
               (Py.run (Similarity.resolve Py.ct_name "Data Engineer" "Data Analyst")
                       (Vocab.fresh_world_redis (Vocab.model_const "0.9"))).2
        = (inr s2, w2)
        /\ Py.oracle_calls w2 = 1%nat
        /\ (is_Some (Py.redis_client (Vocab.fresh_world_redis (Vocab.model_const "0.9")))
            \/ Py.cache_writes
                 (Py.run (Similarity.resolve Py.ct_name "Data Engineer" "Data Analyst")
                         (Vocab.fresh_world_redis (Vocab.model_const "0.9"))).2
               = Py.cache_writes (Vocab.fresh_world_redis (Vocab.model_const "0.9")) ->
            s2 = (0.9)%Q)).
Proof.
  split.
  - apply (proj1 (resolve_symmetric_short_of_oracle Py.ct_hard_skills
                    "React" "JavaScript" (Vocab.fresh_world Vocab.model_down) (0.85)%Q
                    (Py.run (Similarity.resolve Py.ct_hard_skills "React" "JavaScript")
                            (Vocab.fresh_world Vocab.model_down)).2
                    eq_refl eq_refl ltac:(vm_compute; reflexivity))).
    vm_compute. reflexivity.
  - apply (proj2 (resolve_symmetric_short_of_oracle Py.ct_name
                    "Data Engineer" "Data Analyst"
                    (Vocab.fresh_world_redis (Vocab.model_const "0.9")) (0.9)%Q
                    (Py.run (Similarity.resolve Py.ct_name "Data Engineer" "Data Analyst")
                            (Vocab.fresh_world_redis (Vocab.model_const "0.9"))).2
                    eq_refl eq_refl ltac:(vm_compute; reflexivity))).
    vm_compute. eexists. reflexivity.
Defined.




(** ** Soundness of the hard-skill memo is an invariant *)

Section MemoSound.
Import Py Database Similarity Vocab.
Open Scope Q_scope.

Lemma lru_lookup_take_some l n x y v :
  lru_lookup (take n l) x y = Some v -> lru_lookup l x y = Some v.
Proof.
  unfold lru_lookup. revert n. induction l as [|e l IH]; intros [|n];
    try discriminate.
  simpl. destruct (lru_key_eqb x y e); [trivial | apply IH].
Qed.

Lemma lru_lookup_remove_some l a b x y v :
  lru_lookup (lru_remove l a b) x y = Some v -> lru_lookup l x y = Some v.
Proof.
  unfold lru_lookup, lru_remove. induction l as [|e l IH]; [discriminate|].
  simpl. destruct (lru_key_eqb a b e) eqn:Eab; simpl.
  - intros H. destruct (lru_key_eqb x y e) eqn:Exy; [|apply IH, H].
    exfalso. unfold lru_key_eqb in Eab, Exy.
    apply andb_true_iff in Eab as [E1%String.eqb_eq E2%String.eqb_eq].
    apply andb_true_iff in Exy as [E3%String.eqb_eq E4%String.eqb_eq].
    assert (Hxy : x = a /\ y = b) by (split; congruence).
    destruct Hxy as [-> ->]. clear -H.
    induction l as [|e' l IH]; [discriminate|]. simpl in H.
    destruct (lru_key_eqb a b e') eqn:E; simpl in H; [apply IH, H|].
    rewrite E in H. apply IH, H.
  - destruct (lru_key_eqb x y e); [trivial | apply IH].
Qed.

Lemma lru_lookup_cons_some a b r l x y v :
  lru_lookup ((a, b, r) :: l) x y = Some v ->
  (x = a /\ y = b /\ v = r) \/ lru_lookup l x y = Some v.
Proof.
  unfold lru_lookup, lru_key_eqb. simpl.
  destruct (String.eqb_spec a x) as [<-|]; [|auto].
  destruct (String.eqb_spec b y) as [<-|]; [|auto].
  simpl. intros [= <-]. auto.
Qed.

Lemma lru_similarity_outcome w ct pt a b :
  lru (similarity_outcome w ct pt a b).2 = lru w.
Proof.
  rewrite similarity_outcome_cases. destruct (shortcut a b); [reflexivity|].
  destruct (cache_peek w ct a b); cbn [fst snd].
  - apply lru_read_world.
  - rewrite lru_semantic_outcome. reflexivity.
Qed.

(** Every resolution keeps the memo sound; the memo of a starting
    process, which is empty, is sound. *)
Lemma lru_sound_resolve w kind a b :
  lru_sound w -> lru_sound (resolve_outcome w kind a b).2.
Proof.
  intros Hs.
  assert (Hsame : forall w', lru w' = lru w -> lru_sound w').
  { intros w' E x y v. rewrite E. apply Hs. }
  destruct kind; simpl; try (apply Hsame, lru_similarity_outcome).
  unfold hard_skill_outcome.
  destruct (negb (Text.truthy a) || negb (Text.truthy b)); [exact Hs|].
  destruct (lru_lookup (lru w) a b) as [m|] eqn:L; cbn [fst snd];
    intros x y v; cbn [lru set_lru].
  - intros [(-> & -> & ->) | H]%lru_lookup_cons_some.
    + apply (Hs a b m L).
    + apply (Hs x y v), (lru_lookup_remove_some _ _ _ _ _ _ H).
  - intros H%lru_lookup_take_some.
    apply lru_lookup_cons_some in H as [(-> & -> & ->) | H].
    + intros Hn. unfold skill_body_outcome. rewrite Hn, String.eqb_refl. reflexivity.
    + rewrite lru_skill_body in H.
      apply (Hs x y v), (lru_lookup_remove_some _ _ _ _ _ _ H).
Qed.

Lemma lru_sound_fresh model : lru_sound (fresh_world model).
Proof. intros x y v H. discriminate H. Qed.

End MemoSound.

(** ** Hard skills *)

Section HardSkills.
Import Py Database Similarity Scoring Vocab.
Open Scope Q_scope.

Lemma run_best_candidate w cands job_skill m best :
  run (best_candidate cands job_skill m best) w
  = (inr (best_candidate_outcome w cands job_skill m best).1,
     (best_candidate_outcome w cands job_skill m best).2).
Proof.
  revert w m best. induction cands as [|c cands IH]; intros w m best;
    [reflexivity|].
  cbn [best_candidate best_candidate_outcome].
  rewrite (run_bind _ _ _ _ _ (run_hard_skill w c job_skill)).
  destruct (Qltb m (hard_skill_outcome w c job_skill).1); apply IH.
Qed.



Lemma dict_get_set {V} (d : Config.dict V) key (v : V) :
  dict_get (dict_set d key v) key = Some v.
Proof.
  unfold dict_get. induction d as [|[k v'] d IH]; simpl.
  - rewrite String.eqb_refl. reflexivity.
  - destruct (String.eqb k key) eqn:E; simpl; rewrite E; [reflexivity | exact IH].
Qed.


(** One iteration on a skill of neither category. *)
Lemma run_step_uncategorised cands st info w :
  let category := Text.lower (get_default (category info) "") in
  category <> "obligatoire" -> category <> "recommandé" ->
  let job_skill := get_default (skill info) "" in
  let out := best_candidate_outcome w cands job_skill 0.0 None in
  run (hard_skill_step cands st info) w
  = match final_score st with
    | Some f =>
        (inr (mkLocals (obligatory_scores st) (recommended_scores st)
                (dict_set (detailed_scores st) job_skill
                   (mkSkillDetail out.1.2 f category))
                (Some f)),
         out.2)
    | None => (inl (UnboundLocalError "final_score"), out.2)
    end.
Proof.
  intros category Ho Hr job_skill out. unfold hard_skill_step.
  rewrite (run_bind _ _ _ _ _ (run_best_candidate w cands _ 0.0 None)).
  fold category job_skill out. unfold apply_category.
  destruct (String.eqb_spec category "obligatoire") as [E|_]; [contradiction|].
  destruct (String.eqb_spec category "recommandé") as [E|_]; [contradiction|].
  cbv iota. destruct st as [os rs ds [f|]]; reflexivity.
Qed.

(** An exception of an iteration ends the loop. *)
Lemma run_loop_raise cands st info rest w e w' :
  run (hard_skill_step cands st info) w = (inl e, w') ->
  run (hard_skills_loop cands st (info :: rest)) w = (inl e, w').
Proof.
  intros H. cbn [hard_skills_loop]. unfold run, mbind, M_bind in *.
  rewrite H. reflexivity.
Qed.


(** What [final_score] holds between two iterations: nothing before the
    first mandatory skill, the last gated mandatory score after. *)
Lemma step_final_score cands st info w st' w' :
  final_score st = last (obligatory_scores st) ->
  run (hard_skill_step cands st info) w = (inr st', w') ->
  final_score st' = last (obligatory_scores st').
Proof.
  intros Hinv. unfold hard_skill_step.
  rewrite (run_bind _ _ _ _ _ (run_best_candidate w cands _ 0.0 None)).
  unfold apply_category.
  destruct (String.eqb _ "obligatoire"), (String.eqb _ "recommandé");
    try destruct (Qltb _ _); cbn;
    try (intros [= <- _]; cbn; rewrite ?last_snoc; first [reflexivity | exact Hinv]).
  destruct st as [os rs ds [f|]]; cbn; [|discriminate].
  intros [= <- _]. exact Hinv.
Qed.

Lemma loop_final_score cands reqs st w st' w' :
  final_score st = last (obligatory_scores st) ->
  run (hard_skills_loop cands st reqs) w = (inr st', w') ->
  final_score st' = last (obligatory_scores st').
Proof.
  revert st w. induction reqs as [|info reqs IH]; intros st w Hinv.
  - cbn. intros [= <- _]. exact Hinv.
  - cbn [hard_skills_loop].
    destruct (run (hard_skill_step cands st info) w) as [[e|st1] w1] eqn:E.
    + unfold run, mbind, M_bind in *. rewrite E. discriminate.
    + rewrite (run_bind _ _ _ _ _ E). apply IH.
      apply (step_final_score _ _ _ _ _ _ Hinv E).
Qed.

End HardSkills.



(** The example of the specification: a best similarity of 0.79 for a
    mandatory skill gives the score of no match at all. *)
Lemma mandatory_gate_almost_match :
  (Py.run (Scoring.compare_hard_skills ["Pyton"] [Vocab.a_skill])
          (Vocab.world_with Py.ct_hard_skills "Pyton" "Python" 0.79%Q)).1
  = (Py.run (Scoring.compare_hard_skills ["Pyton"] [Vocab.a_skill])
            (Vocab.world_with Py.ct_hard_skills "Pyton" "Python" 0.0%Q)).1.
Proof. vm_compute. reflexivity. Qed.

(** C10, as stated, fails: the category is lower-cased before it is
    compared, so that a first entry of category "Obligatoire", a string that
    is neither 'obligatoire' nor 'recommandé', is a mandatory one and the
    comparison returns, here with score 1. *)
Lemma compare_hard_skills_capitalised_category_counterexample :
  category Vocab.a_capitalised_skill <> Some "obligatoire"
  /\ category Vocab.a_capitalised_skill <> Some "recommandé"
  /\ exists final_score details w',
      Py.run (Scoring.compare_hard_skills ["Python"] [Vocab.a_capitalised_skill])
             (Vocab.fresh_world Vocab.model_down)
      = (inr (final_score, details), w')
      /\ (final_score == 1)%Q.
Proof.
  split; [discriminate|]. split; [discriminate|].
  do 3 eexists. split; [vm_compute; reflexivity|]. reflexivity.
Qed.

(** C10, amended: on a candidate skill list that is not empty and required
    skills whose first entry has a category that, once lower-cased, is
    neither 'obligatoire' nor 'recommandé', [compare_hard_skills] raises
    UnboundLocalError on [final_score]; an entry of such a category met
    later, once a mandatory entry has assigned [final_score], raises
    nothing and records as its score the value [final_score] holds, the
    gated score of the last mandatory entry. *)
Theorem compare_hard_skills_unbound_final_score
    (candidate_skills : list string) (job_skill_info : SkillReq)
    (rest : list SkillReq) (w : Py.World) :
  candidate_skills <> [] ->
  Text.lower (Scoring.get_default (category job_skill_info) "") <> "obligatoire" ->
  Text.lower (Scoring.get_default (category job_skill_info) "") <> "recommandé" ->
  (exists w',
     Py.run (Scoring.compare_hard_skills candidate_skills (job_skill_info :: rest)) w
     = (inl (Py.UnboundLocalError "final_score"), w'))
  /\ (forall st gated,
      Scoring.final_score st = last (Scoring.obligatory_scores st) ->
      last (Scoring.obligatory_scores st) = Some gated ->
      exists st' w',
        Py.run (Scoring.hard_skill_step candidate_skills st job_skill_info) w
        = (inr st', w')
        /\ Scoring.score <$> Scoring.dict_get (Scoring.detailed_scores st')
                               (Scoring.get_default (skill job_skill_info) "")
           = Some gated
        /\ Scoring.obligatory_scores st' = Scoring.obligatory_scores st
        /\ Scoring.recommended_scores st' = Scoring.recommended_scores st
        /\ Scoring.final_score st' = last (Scoring.obligatory_scores st')).
Proof.
  intros Hne Ho Hr. split.
  - destruct candidate_skills as [|c cs]; [contradiction|].
    unfold Scoring.compare_hard_skills. eexists.
    unfold Py.run, mbind, Py.M_bind.
    pose proof (run_loop_raise (c :: cs) (Scoring.mkLocals [] [] [] None)
                  job_skill_info rest w) as Hloop.
    rewrite (run_step_uncategorised _ _ _ _ Ho Hr) in Hloop.
    unfold Py.run in Hloop. rewrite (Hloop _ _ eq_refl). reflexivity.
  - intros st gated Hinv Hlast. rewrite (run_step_uncategorised _ _ _ _ Ho Hr).
    rewrite Hinv, Hlast. do 2 eexists. split; [reflexivity|].
    cbn [Scoring.detailed_scores Scoring.obligatory_scores
         Scoring.recommended_scores Scoring.final_score].
    rewrite dict_get_set. repeat split. symmetry. exact Hlast.
Qed.

Lemma compare_hard_skills_unbound_final_score_witness :
  exists w',
    Py.run (Scoring.compare_hard_skills ["Python"]
              [Vocab.an_uncategorised_skill; Vocab.a_skill])
           (Vocab.fresh_world Vocab.model_down)
    = (inl (Py.UnboundLocalError "final_score"), w').
Proof.
  apply (proj1 (compare_hard_skills_unbound_final_score ["Python"]
                  Vocab.an_uncategorised_skill [Vocab.a_skill]
                  (Vocab.fresh_world Vocab.model_down)
                  ltac:(discriminate) ltac:(discriminate) ltac:(discriminate))).
Defined.

(** After a mandatory skill, a skill without category is recorded with the
    gated score of the mandatory one: "Docker", whose best similarity here
    is 0.5, gets the 1.0 of "Python". *)
Lemma uncategorised_skill_reuses_final_score :
  exists final_score details w',
    Py.run (Scoring.compare_hard_skills ["Python"]
              [Vocab.a_skill; Vocab.an_uncategorised_skill])
           (Vocab.fresh_world Vocab.model_down)
    = (inr (final_score, details), w')
    /\ Vocab.best_score (Vocab.fresh_world Vocab.model_down) ["Python"]
         Vocab.an_uncategorised_skill = 0.5%Q
    /\ Scoring.score <$> Scoring.dict_get details "Docker" = Some 1.0%Q.
Proof.
  do 3 eexists. split; [vm_compute; reflexivity|]. split; reflexivity.
Qed.

(** * Further properties *)

(** ** The cache tables *)

Section CacheTables.
Import Py Database Similarity Vocab Vocab2.
Open Scope Q_scope.

(** Linear arithmetic with [Nat.min]. *)
Ltac lia_min :=
  repeat match goal with
         | H : context [Nat.min ?a ?b] |- _ =>
             pose proof (Nat.min_spec a b);
             generalize dependent (Nat.min a b); intros
         | |- context [Nat.min ?a ?b] =>
             pose proof (Nat.min_spec a b);
             generalize dependent (Nat.min a b); intros
         end; lia.

Lemma pair_of_update_timestamp rows t1 t2 now :
  map pair_of (update_timestamp rows t1 t2 now) = map pair_of rows.
Proof.
  unfold update_timestamp. induction rows as [|r rows IH]; [reflexivity|].
  simpl. rewrite IH. destruct (row_matches t1 t2 r); reflexivity.
Qed.

Lemma content_of_update_timestamp rows t1 t2 now :
  map content_of (update_timestamp rows t1 t2 now) = map content_of rows.
Proof.
  unfold update_timestamp. induction rows as [|r rows IH]; [reflexivity|].
  simpl. rewrite IH. destruct (row_matches t1 t2 r); reflexivity.
Qed.

Lemma row_matches_pair t1 t2 r : row_matches t1 t2 r = true <-> pair_of r = (t1, t2).
Proof.
  unfold row_matches, pair_of. rewrite andb_true_iff, !String.eqb_eq.
  split; [intros [-> ->]; reflexivity | intros [= -> ->]; auto].
Qed.

Lemma In_pair_upsert rows t1 t2 s now p :
  In p (map pair_of (upsert rows t1 t2 s now)) ->
  p = (t1, t2) \/ In p (map pair_of rows).
Proof.
  induction rows as [|r rows IH]; simpl.
  - intros [<- | []]. left. reflexivity.
  - destruct (row_matches t1 t2 r) eqn:E; simpl.
    + intros [<- | H]; [left; reflexivity | right; right; exact H].
    + intros [<- | H]; [right; left; reflexivity|].
      destruct (IH H) as [-> | H']; [left; reflexivity | right; right; exact H'].
Qed.

Lemma unique_pairs_upsert rows t1 t2 s now :
  unique_pairs rows -> unique_pairs (upsert rows t1 t2 s now).
Proof.
  unfold unique_pairs. induction rows as [|r rows IH]; simpl.
  - intros _. apply List.NoDup_cons; [intros [] | apply List.NoDup_nil].
  - intros [Hr Hrows]%List.NoDup_cons_iff.
    destruct (row_matches t1 t2 r) eqn:E; simpl.
    + apply row_matches_pair in E. apply List.NoDup_cons; [|exact Hrows].
      change (pair_of (mkRow t1 t2 s now)) with (t1, t2). rewrite <- E. exact Hr.
    + apply List.NoDup_cons; [|apply IH, Hrows].
      intros [Hp | Hp]%In_pair_upsert; [|exact (Hr Hp)].
      apply row_matches_pair in Hp. congruence.
Qed.

Lemma In_remove_first (p : Row -> bool) rows r :
  In r (remove_first p rows) -> In r rows.
Proof.
  induction rows as [|r' rows IH]; simpl; [trivial|].
  destruct (p r'); simpl; [auto|]. intros [<- | H]; auto.
Qed.

Lemma unique_pairs_remove_first (p : Row -> bool) rows :
  unique_pairs rows -> unique_pairs (remove_first p rows).
Proof.
  unfold unique_pairs. induction rows as [|r rows IH]; simpl; [trivial|].
  intros [Hr Hrows]%List.NoDup_cons_iff. destruct (p r); [exact Hrows|].
  simpl. apply List.NoDup_cons; [|apply IH, Hrows].
  intros (r' & E & Hin)%in_map_iff. apply Hr. rewrite <- E.
  apply in_map, (In_remove_first _ _ _ Hin).
Qed.

Lemma unique_pairs_delete_oldest n rows :
  unique_pairs rows -> unique_pairs (delete_oldest n rows).
Proof.
  intros H. unfold delete_oldest. induction n as [|n IH]; [exact H|].
  simpl. unfold delete_oldest_row at 1.
  destruct (min_timestamp _); [apply unique_pairs_remove_first|]; exact IH.
Qed.

(** *** The oldest row *)

Lemma min_timestamp_spec rows m :
  min_timestamp rows = Some m ->
  (forall k, In k rows -> (m <= row_timestamp k)%Z)
  /\ exists r, In r rows /\ row_timestamp r = m.
Proof.
  revert m. unfold min_timestamp.
  induction rows as [|r rows IH]; intros m; [discriminate|]. simpl.
  destruct (foldr _ None rows) as [m'|] eqn:E.
  - intros [= <-]. destruct (IH m' eq_refl) as (Hle & r' & Hin & Hts). split.
    + intros k [<- | Hk]; [lia|]. specialize (Hle k Hk). lia.
    + destruct (Z.min_spec (row_timestamp r) m') as [[_ ->] | [_ ->]];
        [exists r; auto | exists r'; auto].
  - intros [= <-]. destruct rows as [|r' rows].
    + split; [intros k [<- | []]; lia | exists r; simpl; auto].
    + simpl in E. destruct (foldr _ None rows); discriminate.
Qed.

Lemma min_timestamp_none rows : min_timestamp rows = None -> rows = [].
Proof.
  unfold min_timestamp. destruct rows as [|r rows]; [trivial|]. simpl.
  destruct (foldr _ None rows); discriminate.
Qed.

Lemma remove_first_perm (p : Row -> bool) rows r :
  In r rows -> p r = true ->
  exists r', p r' = true /\ Permutation rows (r' :: remove_first p rows).
Proof.
  induction rows as [|r0 rows IH]; [intros []|]. intros Hin Hp. simpl.
  destruct (p r0) eqn:E.
  - exists r0. split; [exact E | reflexivity].
  - destruct Hin as [-> | Hin]; [congruence|].
    destruct (IH Hin Hp) as (r' & Hp' & Hperm). exists r'. split; [exact Hp'|].
    eapply perm_trans; [apply perm_skip, Hperm | apply perm_swap].
Qed.

(** [delete_oldest_row] takes a row of least timestamp out of a table
    that has rows. *)
Lemma delete_oldest_row_spec rows :
  rows <> [] ->
  exists r, Permutation rows (r :: delete_oldest_row rows)
            /\ forall k, In k rows -> (row_timestamp r <= row_timestamp k)%Z.
Proof.
  intros Hne. unfold delete_oldest_row.
  destruct (min_timestamp rows) as [m|] eqn:E.
  - destruct (min_timestamp_spec rows m E) as (Hle & r & Hin & Hts).
    destruct (remove_first_perm (fun r => Z.eqb (row_timestamp r) m) rows r Hin)
      as (r' & Hp & Hperm); [apply Z.eqb_eq, Hts|].
    exists r'. split; [exact Hperm|]. apply Z.eqb_eq in Hp. rewrite Hp. exact Hle.
  - apply min_timestamp_none in E. contradiction.
Qed.

Lemma delete_oldest_row_nil : delete_oldest_row [] = [].
Proof. reflexivity. Qed.

Lemma delete_oldest_succ n rows :
  delete_oldest (S n) rows = delete_oldest_row (delete_oldest n rows).
Proof. reflexivity. Qed.

(** X4: the [DELETE] of [save_similarity_to_cache] takes out of a table as
    many rows as asked, all of them when there are fewer, and no row it
    takes out is younger than a row it leaves. *)
Theorem delete_oldest_drops_oldest (n : nat) (rows : list Row) :
  exists dropped,
    Permutation rows (dropped ++ delete_oldest n rows)
    /\ List.length dropped = Nat.min n (List.length rows)
    /\ forall d k, In d dropped -> In k (delete_oldest n rows) ->
                   (row_timestamp d <= row_timestamp k)%Z.
Proof.
  induction n as [|n (dropped & Hperm & Hlen & Hold)].
  - exists []. split; [reflexivity|]. split; [reflexivity|]. intros d k [].
  - rewrite delete_oldest_succ.
    destruct (delete_oldest n rows) as [|k0 kept] eqn:E.
    + exists dropped. rewrite delete_oldest_row_nil. split; [exact Hperm|].
      split; [|intros d k _ []].
      apply Permutation_length in Hperm. rewrite length_app in Hperm.
      simpl in Hperm. lia_min.
    + destruct (delete_oldest_row_spec (k0 :: kept)) as (r & Hp & Hmin);
        [discriminate|].
      exists (dropped ++ [r]). split; [|split].
      * eapply perm_trans; [exact Hperm|]. rewrite <- app_assoc.
        apply Permutation_app_head. exact Hp.
      * apply Permutation_length in Hperm. rewrite length_app in Hperm.
        rewrite length_app. cbn [List.length] in *. lia_min.
      * intros d k Hd Hk.
        assert (Hk' : In k (k0 :: kept)).
        { apply (Permutation_in _ (Permutation_sym Hp)). right. exact Hk. }
        apply in_app_iff in Hd as [Hd | [<- | []]];
          [apply (Hold d k Hd Hk') | apply (Hmin k Hk')].
Qed.

Lemma length_delete_oldest_row rows :
  List.length (delete_oldest_row rows) = Nat.pred (List.length rows).
Proof.
  destruct rows as [|r rows]; [reflexivity|].
  destruct (delete_oldest_row_spec (r :: rows)) as (r' & Hperm & _); [discriminate|].
  apply Permutation_length in Hperm. cbn [List.length] in *. lia.
Qed.

Lemma length_delete_oldest n rows :
  List.length (delete_oldest n rows) = (List.length rows - n)%nat.
Proof.
  induction n as [|n IH]; [unfold delete_oldest; simpl; lia|].
  rewrite delete_oldest_succ, length_delete_oldest_row, IH. lia.
Qed.

Lemma length_upsert_le rows t1 t2 s now :
  (List.length (upsert rows t1 t2 s now) <= S (List.length rows))%nat.
Proof.
  induction rows as [|r rows IH]; simpl; [lia|].
  destruct (row_matches t1 t2 r); simpl; lia.
Qed.

Lemma length_upsert_new rows t1 t2 s now :
  select_score rows t1 t2 = None ->
  List.length (upsert rows t1 t2 s now) = S (List.length rows).
Proof.
  unfold select_score. induction rows as [|r rows IH]; simpl; [reflexivity|].
  destruct (row_matches t1 t2 r); simpl; [discriminate|].
  intros H. rewrite (IH H). reflexivity.
Qed.

Lemma pg_tables_save_world w ct a b s :
  pg_tables (save_world w ct a b s) ct
  = upsert (if (max_cache_entries w <=? Z.of_nat (List.length (pg_tables w ct)))%Z
            then delete_oldest (Z.to_nat (max_cache_entries w / 10)) (pg_tables w ct)
            else pg_tables w ct)
      (Text.sorted_pair a b).1 (Text.sorted_pair a b).2 s (clock w).
Proof.
  unfold save_world. simpl. destruct (decide (ct = ct)); [reflexivity | congruence].
Qed.

Lemma pg_tables_save_world_other w ct ct' a b s :
  ct' <> ct -> pg_tables (save_world w ct a b s) ct' = pg_tables w ct'.
Proof.
  intros Hne. unfold save_world. simpl.
  destruct (decide (ct' = ct)); [contradiction|].
  destruct (redis_client w); reflexivity.
Qed.

Lemma max_cache_entries_save_world w ct a b s :
  max_cache_entries (save_world w ct a b s) = max_cache_entries w.
Proof. unfold save_world. destruct (redis_client w); reflexivity. Qed.

End CacheTables.

Section CacheRoundTrip.
Import Py Database Similarity Vocab Vocab2.
Open Scope Q_scope.

Lemma append_assoc (x y z : string) : ((x ++ y) ++ z = x ++ (y ++ z))%string.
Proof.
  induction x as [|c x IH]; [reflexivity|].
  change (String c ((x ++ y) ++ z) = String c (x ++ (y ++ z)))%string.
  rewrite IH. reflexivity.
Qed.

Lemma append_length (x y : string) :
  String.length (x ++ y)%string = (String.length x + String.length y)%nat.
Proof.
  induction x as [|c x IH]; [reflexivity|].
  change (S (String.length (x ++ y)%string) = S (String.length x + String.length y)).
  rewrite IH. reflexivity.
Qed.

Lemma get_cache_key_kind ct ct' a b x y :
  ct' <> ct -> get_cache_key ct' x y <> get_cache_key ct a b.
Proof.
  intros Hne. unfold get_cache_key.
  destruct ct, ct'; try congruence; simpl; discriminate.
Qed.

Lemma redis_save_world w ct a b s :
  redis_client (save_world w ct a b s)
  = (fun store => <[get_cache_key ct a b := s]> store) <$> redis_client w.
Proof.
  unfold save_world. destruct (redis_client w) eqn:R; simpl; [reflexivity|].
  rewrite R. reflexivity.
Qed.

Lemma redis_read_world w ct a b : redis_client (read_world w ct a b) = redis_client w.
Proof.
  unfold read_world. destruct (_ ≫= _); [reflexivity|].
  destruct (select_score _ _ _); reflexivity.
Qed.

Lemma pg_tables_read_world w ct a b ct' :
  map content_of (pg_tables (read_world w ct a b) ct')
  = map content_of (pg_tables w ct')
  /\ map pair_of (pg_tables (read_world w ct a b) ct') = map pair_of (pg_tables w ct').
Proof.
  unfold read_world. destruct (_ ≫= _); [split; reflexivity|].
  destruct (select_score _ _ _); [|split; reflexivity]. simpl.
  destruct (decide (ct' = ct)) as [->|]; [|split; reflexivity].
  split; [apply content_of_update_timestamp | apply pair_of_update_timestamp].
Qed.

End CacheRoundTrip.

Section CacheProperties.
Import Py.

(** X1: with a capacity that is not negative, a write of a pair
    returns and the next lookup of the pair finds a score, in the order
    the pair was saved and in the other order; with a Redis client the
    score found is the score saved.  Without Redis the score is read back
    from the REAL column of PostgreSQL, and nothing is said of its
    digits. *)
Theorem save_then_get_round_trip
    (w : Py.World) (ct : Py.cache_type) (text1 text2 : string) (score : Q) :
  (0 <= Py.max_cache_entries w)%Z ->
  exists w1,
    Py.run (Database.save_similarity_to_cache ct text1 text2 score) w = (inr tt, w1)
    /\ (exists answer w2,
          Py.run (Database.get_similarity_from_cache ct text1 text2) w1
          = (inr (Some answer), w2)
          /\ (is_Some (Py.redis_client w) -> answer = score))
    /\ (exists answer w2,
          Py.run (Database.get_similarity_from_cache ct text2 text1) w1
          = (inr (Some answer), w2)
          /\ (is_Some (Py.redis_client w) -> answer = score)).
Proof.
  intros _. eexists. split; [apply run_save|].
  split; do 2 eexists; rewrite run_get.
  - rewrite cache_peek_save_world. split; reflexivity.
  - rewrite cache_peek_comm, cache_peek_save_world. split; reflexivity.
Qed.

Lemma save_then_get_round_trip_witness :
  exists w1,
    Py.run (Database.save_similarity_to_cache Py.ct_name "React" "Vue" 0.9%Q)
           (Vocab.fresh_world_redis Vocab.model_down) = (inr tt, w1)
    /\ (exists answer w2,
          Py.run (Database.get_similarity_from_cache Py.ct_name "React" "Vue") w1
          = (inr (Some answer), w2)
          /\ (is_Some (Py.redis_client (Vocab.fresh_world_redis Vocab.model_down)) ->
              answer = 0.9%Q))
    /\ (exists answer w2,
          Py.run (Database.get_similarity_from_cache Py.ct_name "Vue" "React") w1
          = (inr (Some answer), w2)
          /\ (is_Some (Py.redis_client (Vocab.fresh_world_redis Vocab.model_down)) ->
              answer = 0.9%Q)).
Proof.
  apply (save_then_get_round_trip (Vocab.fresh_world_redis Vocab.model_down)
           Py.ct_name "React" "Vue" 0.9%Q).
  vm_compute. discriminate.
Defined.

(** X2: a lookup writes no score: it leaves Redis as it is and the
    pairs and scores of every table as they are, sends no request and
    leaves the memo alone; when it misses, the tables are untouched, and
    when it answers from PostgreSQL, which it does when there is no Redis
    client or when Redis has no entry for the key, the row of the pair
    carries the time of the lookup. *)
Theorem lookup_refreshes_timestamps_only
    (w : Py.World) (ct : Py.cache_type) (text1 text2 : string) :
  exists answer w',
    Py.run (Database.get_similarity_from_cache ct text1 text2) w = (inr answer, w')
    /\ Py.redis_client w' = Py.redis_client w
    /\ (forall ct', map Vocab2.content_of (Py.pg_tables w' ct')
                    = map Vocab2.content_of (Py.pg_tables w ct'))
    /\ Py.oracle_calls w' = Py.oracle_calls w
    /\ Py.lru w' = Py.lru w
    /\ (answer = None -> forall ct', Py.pg_tables w' ct' = Py.pg_tables w ct')
    /\ (Py.redis_client w
          ≫= (fun store => store !! Database.get_cache_key ct text1 text2) = None ->
        answer <> None ->
        forall r, In r (Py.pg_tables w' ct) ->
                  Vocab2.pair_of r = Text.sorted_pair text1 text2 ->
                  Py.row_timestamp r = Py.clock w).
Proof.
  do 2 eexists. split; [apply run_get|].
  split; [apply redis_read_world|].
  split; [intros ct'; apply pg_tables_read_world|].
  split; [apply oracle_calls_read_world|].
  split; [apply lru_read_world|]. split.
  - intros Hmiss ct'. rewrite (read_world_miss _ _ _ _ Hmiss). reflexivity.
  - intros Hredis Hhit r. unfold Database.cache_peek in Hhit.
    unfold Vocab.read_world. rewrite Hredis in *.
    destruct (Database.select_score _ _ _); [|congruence].
    cbn [Py.pg_tables Py.set_table].
    destruct (decide (ct = ct)); [|congruence].
    unfold Database.update_timestamp. intros (r0 & E & _)%in_map_iff Hpair.
    destruct (Database.row_matches _ _ r0) eqn:M; [subst r; reflexivity|].
    subst r. destruct (Text.sorted_pair text1 text2) as [t1 t2].
    apply row_matches_pair in Hpair. simpl in M. congruence.
Qed.

(** X3: the uniqueness of the pairs of every table is kept by a
    write and by a lookup: the cache never comes to hold two rows for one
    pair. *)
Theorem cache_keeps_pairs_unique
    (w : Py.World) (ct : Py.cache_type) (text1 text2 : string) (score : Q) :
  (forall ct', Vocab2.unique_pairs (Py.pg_tables w ct')) ->
  (forall w1,
     Py.run (Database.save_similarity_to_cache ct text1 text2 score) w = (inr tt, w1) ->
     forall ct', Vocab2.unique_pairs (Py.pg_tables w1 ct'))
  /\ (forall answer w1,
      Py.run (Database.get_similarity_from_cache ct text1 text2) w = (inr answer, w1) ->
      forall ct', Vocab2.unique_pairs (Py.pg_tables w1 ct')).
Proof.
  intros Huniq. split.
  - intros w1. rewrite run_save. intros [= <-] ct'.
    destruct (decide (ct' = ct)) as [->|Hne].
    + rewrite pg_tables_save_world. apply unique_pairs_upsert.
      destruct (_ <=? _)%Z; [apply unique_pairs_delete_oldest|]; apply Huniq.
    + rewrite pg_tables_save_world_other by exact Hne. apply Huniq.
  - intros answer w1. rewrite run_get. intros [= _ <-] ct'.
    unfold Vocab2.unique_pairs.
    rewrite (proj2 (pg_tables_read_world w ct text1 text2 ct')). apply Huniq.
Qed.

Lemma cache_keeps_pairs_unique_witness :
  Vocab2.unique_pairs
    (Py.pg_tables
       (Py.run (Database.save_similarity_to_cache Py.ct_name "React" "Vue" 0.5%Q)
               (Vocab.world_with Py.ct_name "Vue" "React" 0.4%Q)).2 Py.ct_name).
Proof.
  apply (proj1 (cache_keeps_pairs_unique
                  (Vocab.world_with Py.ct_name "Vue" "React" 0.4%Q)
                  Py.ct_name "React" "Vue" 0.5%Q
                  ltac:(intros []; repeat constructor; simpl; tauto))).
  reflexivity.
Defined.

(** X5: with [MAX_CACHE_ENTRIES] at least 10, a table that holds at
    most [MAX_CACHE_ENTRIES] rows still does after a write. *)
Theorem cache_table_stays_within_capacity
    (w : Py.World) (ct : Py.cache_type) (text1 text2 : string) (score : Q)
    (w1 : Py.World) :
  (10 <= Py.max_cache_entries w)%Z ->
  (Z.of_nat (List.length (Py.pg_tables w ct)) <= Py.max_cache_entries w)%Z ->
  Py.run (Database.save_similarity_to_cache ct text1 text2 score) w = (inr tt, w1) ->
  (Z.of_nat (List.length (Py.pg_tables w1 ct)) <= Py.max_cache_entries w1)%Z.
Proof.
  intros Hmax Hlen. rewrite run_save. intros [= <-].
  rewrite max_cache_entries_save_world, pg_tables_save_world.
  pose proof (length_upsert_le
                (if (Py.max_cache_entries w <=? Z.of_nat (List.length (Py.pg_tables w ct)))%Z
                 then Database.delete_oldest (Z.to_nat (Py.max_cache_entries w / 10))
                        (Py.pg_tables w ct)
                 else Py.pg_tables w ct)
                (Text.sorted_pair text1 text2).1 (Text.sorted_pair text1 text2).2
                score (Py.clock w)) as Hup.
  destruct (Py.max_cache_entries w <=? Z.of_nat (List.length (Py.pg_tables w ct)))%Z
    eqn:E.
  - apply Z.leb_le in E. rewrite length_delete_oldest in Hup.
    assert (1 <= Py.max_cache_entries w / 10)%Z
      by (apply Z.div_le_lower_bound; lia).
    lia.
  - apply Z.leb_gt in E. lia.
Qed.

Lemma cache_table_stays_within_capacity_witness :
  (Z.of_nat (List.length
               (Py.pg_tables
                  (Py.run (Database.save_similarity_to_cache Py.ct_name
                             "React" "Angular" 0.5%Q)
                          (Vocab2.crowded_world 10)).2
                  Py.ct_name))
   <= 10)%Z.
Proof.
  apply (cache_table_stays_within_capacity (Vocab2.crowded_world 10)
           Py.ct_name "React" "Angular" 0.5%Q
           (Py.run (Database.save_similarity_to_cache Py.ct_name
                      "React" "Angular" 0.5%Q)
                   (Vocab2.crowded_world 10)).2).
  - vm_compute. discriminate.
  - vm_compute. discriminate.
  - reflexivity.
Defined.

(** X6: with [MAX_CACHE_ENTRIES] between 0 and 9 the tenth to evict
    is zero rows: a write of a pair the table does not hold adds a row
    whatever the size of the table, which is not bounded then. *)
Theorem small_capacity_never_evicts
    (w : Py.World) (ct : Py.cache_type) (text1 text2 : string) (score : Q)
    (w1 : Py.World) :
  (0 <= Py.max_cache_entries w < 10)%Z ->
  Database.select_score (Py.pg_tables w ct)
    (Text.sorted_pair text1 text2).1 (Text.sorted_pair text1 text2).2 = None ->
  Py.run (Database.save_similarity_to_cache ct text1 text2 score) w = (inr tt, w1) ->
  List.length (Py.pg_tables w1 ct) = S (List.length (Py.pg_tables w ct)).
Proof.
  intros Hmax Hnew. rewrite run_save. intros [= <-].
  rewrite pg_tables_save_world.
  assert (Py.max_cache_entries w / 10 = 0)%Z as -> by (apply Z.div_small; lia).
  change (Database.delete_oldest (Z.to_nat 0) ?rows) with rows.
  destruct (_ <=? _)%Z; apply length_upsert_new, Hnew.
Qed.

(** X7: the kinds are kept apart: a write under one kind changes no
    table of another kind and nothing a lookup under another kind answers,
    Redis included. *)
Theorem save_leaves_other_kinds
    (w : Py.World) (ct ct' : Py.cache_type) (text1 text2 : string) (score : Q)
    (w1 : Py.World) :
  ct' <> ct ->
  Py.run (Database.save_similarity_to_cache ct text1 text2 score) w = (inr tt, w1) ->
  Py.pg_tables w1 ct' = Py.pg_tables w ct'
  /\ forall x y, Database.cache_peek w1 ct' x y = Database.cache_peek w ct' x y.
Proof.
  intros Hne. rewrite run_save. intros [= <-].
  split; [apply pg_tables_save_world_other, Hne|]. intros x y.
  unfold Database.cache_peek.
  rewrite redis_save_world, pg_tables_save_world_other by exact Hne.
  destruct (Py.redis_client w) as [store|]; [|reflexivity]. simpl.
  rewrite lookup_insert_ne; [reflexivity|].
  intros E. symmetry in E. revert E. apply get_cache_key_kind, Hne.
Qed.
End CacheProperties.

Section CacheProperties2.
Import Py.

Lemma small_capacity_never_evicts_witness :
  List.length
    (Py.pg_tables
       (Py.run (Database.save_similarity_to_cache Py.ct_name "React" "Vue" 0.5%Q)
               (Vocab2.crowded_world 5)).2 Py.ct_name) = 11%nat.
Proof.
  apply (small_capacity_never_evicts (Vocab2.crowded_world 5) Py.ct_name
           "React" "Vue" 0.5%Q
           (Py.run (Database.save_similarity_to_cache Py.ct_name "React" "Vue" 0.5%Q)
                   (Vocab2.crowded_world 5)).2).
  - split; [vm_compute; discriminate | reflexivity].
  - reflexivity.
  - reflexivity.
Defined.

Lemma save_leaves_other_kinds_witness :
  Py.pg_tables
    (Py.run (Database.save_similarity_to_cache Py.ct_name "React" "Vue" 0.5%Q)
            (Vocab.fresh_world_redis Vocab.model_down)).2 Py.ct_hard_skills = []
  /\ forall x y,
      Database.cache_peek
        (Py.run (Database.save_similarity_to_cache Py.ct_name "React" "Vue" 0.5%Q)
                (Vocab.fresh_world_redis Vocab.model_down)).2 Py.ct_hard_skills x y
      = Database.cache_peek (Vocab.fresh_world_redis Vocab.model_down)
          Py.ct_hard_skills x y.
Proof.
  apply (save_leaves_other_kinds (Vocab.fresh_world_redis Vocab.model_down)
           Py.ct_name Py.ct_hard_skills "React" "Vue" 0.5%Q
           (Py.run (Database.save_similarity_to_cache Py.ct_name "React" "Vue" 0.5%Q)
                   (Vocab.fresh_world_redis Vocab.model_down)).2).
  - discriminate.
  - reflexivity.
Defined.

(** X8: the Redis key joins the kind and the two sorted texts with
    colons and escapes nothing, so that the pairs (x, y:z) and (x:y, z),
    which differ, share their key: with a Redis client, once a score is
    saved for the first, a lookup of the second answers that score. *)
Theorem redis_key_collision
    (w : Py.World) (store : gmap string Q) (ct : Py.cache_type)
    (x y z : string) (score : Q) (w1 : Py.World) :
  Py.redis_client w = Some store ->
  String.ltb (Vocab2.joined y z) x = false ->
  String.ltb z (Vocab2.joined x y) = false ->
  Py.run (Database.save_similarity_to_cache ct x (Vocab2.joined y z) score) w = (inr tt, w1) ->
  (Vocab2.joined x y, z) <> (x, Vocab2.joined y z)
  /\ exists w2,
      Py.run (Database.get_similarity_from_cache ct (Vocab2.joined x y) z) w1
      = (inr (Some score), w2).
Proof.
  intros Hredis H1 H2. rewrite run_save. intros [= <-]. split.
  - intros [= E _]. apply (f_equal String.length) in E.
    unfold Vocab2.joined in E. rewrite append_length in E. simpl in E. lia.
  - eexists. rewrite run_get. f_equal. f_equal.
    unfold Database.cache_peek. rewrite redis_save_world, Hredis. simpl.
    assert (Database.get_cache_key ct (Vocab2.joined x y) z
            = Database.get_cache_key ct x (Vocab2.joined y z)) as ->.
    { unfold Database.get_cache_key, Text.sorted_pair. rewrite H1, H2.
      unfold Vocab2.joined. cbn [fst snd]. rewrite !append_assoc. reflexivity. }
    rewrite lookup_insert_eq. reflexivity.
Qed.

Lemma redis_key_collision_witness :
  (Vocab2.joined "a" "b", "c") <> ("a", Vocab2.joined "b" "c")
  /\ exists w2,
      Py.run (Database.get_similarity_from_cache Py.ct_name (Vocab2.joined "a" "b") "c")
             (Py.run (Database.save_similarity_to_cache Py.ct_name "a"
                        (Vocab2.joined "b" "c") 0.9%Q)
                     (Vocab.fresh_world_redis Vocab.model_down)).2
      = (inr (Some 0.9%Q), w2).
Proof.
  apply (redis_key_collision (Vocab.fresh_world_redis Vocab.model_down) ∅
           Py.ct_name "a" "b" "c" 0.9%Q
           (Py.run (Database.save_similarity_to_cache Py.ct_name "a"
                      (Vocab2.joined "b" "c") 0.9%Q)
                   (Vocab.fresh_world_redis Vocab.model_down)).2);
    reflexivity.
Defined.

End CacheProperties2.

(** ** What a resolution costs *)

Section ResolutionCost.
Import Py Database Similarity Vocab Vocab2.
Open Scope Q_scope.

(** The counters after the oracle fallback. *)
Lemma semantic_outcome_counts w a b ct pt :
  let w' := (semantic_outcome w a b ct pt).2 in
  cache_reads w' = S (cache_reads w)
  /\ (cache_writes w' <= S (cache_writes w))%nat
  /\ (oracle_calls w' = oracle_calls w
      \/ oracle_calls w' = S (oracle_calls w) /\ cache_peek w ct a b = None).
Proof.
  unfold semantic_outcome.
  destruct (cache_peek w ct a b) as [c|] eqn:P; cbn [fst snd].
  - rewrite cache_reads_read_world, oracle_calls_read_world.
    split; [reflexivity|]. split; [|left; reflexivity].
    unfold read_world. destruct (_ ≫= _); [simpl; lia|].
    destruct (select_score _ _ _); simpl; lia.
  - destruct (oracle w (oracle_calls w) _); cbn [fst snd].
    + rewrite cache_reads_save_world, cache_writes_save_world,
        oracle_calls_save_world. simpl.
      split; [reflexivity|]. split; [lia | right; split; reflexivity].
    + simpl. split; [reflexivity|]. split; [lia | right; split; reflexivity].
Qed.

Lemma cache_writes_read_world w ct a b :
  cache_writes (read_world w ct a b) = cache_writes w.
Proof.
  unfold read_world. destruct (_ ≫= _); [reflexivity|].
  destruct (select_score _ _ _); reflexivity.
Qed.

Lemma similarity_outcome_counts w ct pt a b :
  let w' := (similarity_outcome w ct pt a b).2 in
  (cache_reads w' <= cache_reads w + 2)%nat
  /\ (cache_writes w' <= S (cache_writes w))%nat
  /\ (oracle_calls w' = oracle_calls w
      \/ oracle_calls w' = S (oracle_calls w)
         /\ cache_peek w ct a b = None /\ shortcut a b = None).
Proof.
  rewrite similarity_outcome_cases.
  destruct (shortcut a b); cbn [fst snd]; [split; [lia|]; split; [lia | auto]|].
  destruct (cache_peek w ct a b) as [c|] eqn:P; cbn [fst snd].
  - rewrite cache_reads_read_world, cache_writes_read_world, oracle_calls_read_world.
    split; [lia|]. split; [lia | auto].
  - destruct (semantic_outcome_counts (count_cache_read w) a b ct pt)
      as (Hr & Hw & Ho). simpl in Hr, Hw, Ho.
    split; [lia|]. split; [exact Hw|].
    destruct Ho as [Ho | [Ho _]]; [left; exact Ho | right; auto].
Qed.

Lemma skill_body_counts w a b :
  let w' := (skill_body_outcome w a b).2 in
  (cache_reads w' <= cache_reads w + 2)%nat
  /\ (cache_writes w' <= S (cache_writes w))%nat
  /\ (oracle_calls w' = oracle_calls w
      \/ oracle_calls w' = S (oracle_calls w)
         /\ cache_peek w ct_hard_skills a b = None
         /\ check_skills_relations a b = None).
Proof.
  unfold skill_body_outcome.
  destruct (String.eqb _ _); cbn [fst snd]; [split; [lia|]; split; [lia | auto]|].
  destruct (cache_peek w ct_hard_skills a b) as [c|] eqn:P; cbn [fst snd].
  - rewrite cache_reads_read_world, cache_writes_read_world, oracle_calls_read_world.
    split; [lia|]. split; [lia | auto].
  - destruct (check_skills_relations a b) as [r|]; cbn [fst snd].
    + rewrite cache_reads_save_world, cache_writes_save_world,
        oracle_calls_save_world. simpl. split; [lia|]. split; [lia | auto].
    + destruct (semantic_outcome_counts (count_cache_read w) a b ct_hard_skills
                  "hard_skill") as (Hr & Hw & Ho). simpl in Hr, Hw, Ho.
      split; [lia|]. split; [exact Hw|].
      destruct Ho as [Ho | [Ho _]]; [left; exact Ho | right; auto].
Qed.

Lemma hard_skill_outcome_counts w a b :
  let w' := (hard_skill_outcome w a b).2 in
  (cache_reads w' <= cache_reads w + 2)%nat
  /\ (cache_writes w' <= S (cache_writes w))%nat
  /\ (oracle_calls w' = oracle_calls w
      \/ oracle_calls w' = S (oracle_calls w)
         /\ cache_peek w ct_hard_skills a b = None /\ shortcut a b = None).
Proof.
  unfold hard_skill_outcome, shortcut.
  destruct (negb (Text.truthy a) || negb (Text.truthy b));
    cbn [fst snd]; [split; [lia|]; split; [lia | auto]|].
  destruct (lru_lookup (lru w) a b); cbn [fst snd];
    [simpl; split; [lia|]; split; [lia | auto]|].
  destruct (skill_body_counts w a b) as (Hr & Hw & Ho).
  cbn [cache_reads cache_writes oracle_calls set_lru].
  split; [exact Hr|]. split; [exact Hw|].
  destruct Ho as [Ho | (Ho & P & _)]; [left; exact Ho|]. right.
  split; [exact Ho|]. split; [exact P|].
  destruct (String.eqb _ _) eqn:E; [|reflexivity].
  exfalso. unfold skill_body_outcome in Ho. rewrite E in Ho. simpl in Ho. lia.
Qed.

(** X9: a resolution never raises, asks the language model at most
    once, looks the cache up at most twice and writes to it at most once;
    and it asks the language model only for a pair that no shortcut
    settles and that the cache does not hold. *)
Theorem resolve_asks_at_most_once
    (kind : cache_type) (textA textB : string) (w : World) :
  exists score w',
    run (resolve kind textA textB) w = (inr score, w')
    /\ (cache_reads w' <= cache_reads w + 2)%nat
    /\ (cache_writes w' <= S (cache_writes w))%nat
    /\ (oracle_calls w' = oracle_calls w
        \/ oracle_calls w' = S (oracle_calls w)
           /\ cache_peek w kind textA textB = None
           /\ shortcut textA textB = None).
Proof.
  do 2 eexists. split; [apply run_resolve|].
  destruct kind; simpl;
    [apply similarity_outcome_counts | apply hard_skill_outcome_counts
    | apply similarity_outcome_counts | apply similarity_outcome_counts].
Qed.

(** *** The memo stays small *)

Lemma lru_keys_remove l a b :
  lru_keys (lru_remove l a b)
  = List.filter (fun k => negb (String.eqb k.1 a && String.eqb k.2 b)) (lru_keys l).
Proof.
  unfold lru_keys, lru_remove. induction l as [|e l IH]; [reflexivity|].
  simpl. unfold lru_key_eqb at 1.
  destruct (negb (String.eqb e.1.1 a && String.eqb e.1.2 b)); simpl;
    rewrite IH; reflexivity.
Qed.

Lemma lru_keys_remove_notin l a b : ~ In (a, b) (lru_keys (lru_remove l a b)).
Proof.
  rewrite lru_keys_remove. intros [_ H]%filter_In. simpl in H.
  rewrite !String.eqb_refl in H. discriminate.
Qed.

Lemma lru_remove_length l a b :
  (List.length (lru_remove l a b) <= List.length l)%nat.
Proof. unfold lru_remove. apply filter_length_le. Qed.

Lemma lru_remove_length_hit l a b v :
  lru_lookup l a b = Some v ->
  (List.length (lru_remove l a b) < List.length l)%nat.
Proof.
  unfold lru_lookup, lru_remove. induction l as [|e l IH]; [discriminate|].
  simpl. destruct (lru_key_eqb a b e); simpl.
  - intros _. pose proof (filter_length_le (fun e => negb (lru_key_eqb a b e)) l). lia.
  - intros H. specialize (IH H). lia.
Qed.

Lemma NoDup_take {A} (l : list A) n : List.NoDup l -> List.NoDup (take n l).
Proof.
  revert n. induction l as [|x l IH]; intros [|n] H; simpl;
    try apply List.NoDup_nil.
  apply List.NoDup_cons_iff in H as [Hx Hl]. apply List.NoDup_cons; [|apply IH, Hl].
  intros Hin. apply Hx. clear -Hin. revert n Hin.
  induction l as [|y l IH]; intros [|n]; simpl; try tauto.
  intros [-> | H]; [left; reflexivity | right; apply (IH n H)].
Qed.

Lemma lru_keys_take l n : lru_keys (take n l) = take n (lru_keys l).
Proof.
  unfold lru_keys. revert n. induction l as [|e l IH]; intros [|n]; simpl;
    try reflexivity.
  rewrite IH. reflexivity.
Qed.

Lemma lru_keys_fresh l a b v :
  List.NoDup (lru_keys l) -> List.NoDup (lru_keys ((a, b, v) :: lru_remove l a b)).
Proof.
  intros H. simpl. apply List.NoDup_cons; [apply lru_keys_remove_notin|].
  rewrite lru_keys_remove. apply List.NoDup_filter, H.
Qed.

(** X10: the memo of hard skills never grows beyond its 1000 entries
    and never holds an ordered pair twice, whatever is resolved. *)
Theorem lru_stays_bounded
    (kind : cache_type) (textA textB : string) (w : World) (score : Q) (w' : World) :
  (List.length (lru w) <= 1000)%nat ->
  List.NoDup (lru_keys (lru w)) ->
  run (resolve kind textA textB) w = (inr score, w') ->
  (List.length (lru w') <= 1000)%nat /\ List.NoDup (lru_keys (lru w')).
Proof.
  intros Hlen Hnd. rewrite run_resolve. intros [= _ <-].
  destruct kind; simpl; try (rewrite lru_similarity_outcome; split; assumption).
  unfold hard_skill_outcome.
  destruct (negb (Text.truthy textA) || negb (Text.truthy textB));
    [split; assumption|].
  destruct (lru_lookup (lru w) textA textB) as [m|] eqn:L;
    cbn [fst snd lru set_lru].
  - split; [|apply lru_keys_fresh, Hnd].
    pose proof (lru_remove_length_hit _ _ _ _ L). cbn [List.length]. lia.
  - rewrite lru_skill_body. split.
    + rewrite length_take. lia.
    + rewrite lru_keys_take. apply NoDup_take, lru_keys_fresh, Hnd.
Qed.

Lemma lru_stays_bounded_witness :
  (List.length
     (lru (run (resolve ct_hard_skills "React" "Cobol")
               (fresh_world (model_const "0.6"))).2) <= 1000)%nat
  /\ List.NoDup
       (lru_keys (lru (run (resolve ct_hard_skills "React" "Cobol")
                           (fresh_world (model_const "0.6"))).2)).
Proof.
  apply (lru_stays_bounded ct_hard_skills "React" "Cobol"
           (fresh_world (model_const "0.6")) 0.6
           (run (resolve ct_hard_skills "React" "Cobol")
                (fresh_world (model_const "0.6"))).2).
  - simpl. lia.
  - apply List.NoDup_nil.
  - vm_compute. reflexivity.
Defined.

(** *** The relation table and the answers *)

Lemma relations_scan_range table n1 n2 r :
  relations_scan table n1 n2 = Some r -> r = 0.85 \/ r = 0.7.
Proof.
  induction table as [|[base related] table IH]; [discriminate|]. simpl.
  destruct (_ && _); [intros [= <-]; auto|].
  destruct (_ && _); [intros [= <-]; auto|].
  destruct (_ && _); [intros [= <-]; auto | exact IH].
Qed.

(** X11: [check_skills_relations] does not depend on the order of the two
    skills, and it answers nothing or one of 1.0, 0.85 and 0.7. *)
Theorem check_skills_relations_symmetric (skill1 skill2 : string) :
  check_skills_relations skill1 skill2 = check_skills_relations skill2 skill1
  /\ forall r, check_skills_relations skill1 skill2 = Some r ->
               r = 1.0 \/ r = 0.85 \/ r = 0.7.
Proof.
  split; [apply check_skills_relations_comm|].
  intros r. unfold check_skills_relations.
  destruct (String.eqb _ _); [intros [= <-]; auto|].
  intros [-> | ->]%relations_scan_range; auto.
Qed.

Lemma digits_value_nonneg ds : (0 <= digits_value ds)%Z.
Proof.
  unfold digits_value.
  assert (H : forall acc, (0 <= acc)%Z ->
            (0 <= fold_left (fun acc d => (acc * 10 + Z.of_nat d)%Z) ds acc)%Z).
  { induction ds as [|d ds IH]; intros acc Hacc; simpl; [exact Hacc|].
    apply IH. lia. }
  apply H. lia.
Qed.

Lemma re_search_number_nonneg s q : re_search_number s = Some q -> 0 <= q.
Proof.
  assert (Hf : forall a b, 0 <= float_of_digits a b).
  { intros a b. unfold float_of_digits, Qle. simpl.
    pose proof (digits_value_nonneg (a ++ b)). lia. }
  induction s as [|c s IH]; [discriminate|]. cbn [re_search_number].
  destruct (is_digit c); [|exact IH].
  destruct (span_digits (String c s)) as [int_part tail].
  destruct tail as [|d after]; [intros [= <-]; apply Hf|].
  destruct (Ascii.eqb_spec d "."%char) as [->|Hd].
  - destruct (span_digits after) as [frac_part rest].
    destruct frac_part; intros [= <-]; apply Hf.
  - destruct d as [[] [] [] [] [] [] [] []]; try (intros [= <-]; apply Hf).
    congruence.
Qed.

(** X12: the score read from an answer of the language model is never
    negative; and it is what [semantic_similarity_chatgpt] answers for a
    pair the cache does not hold, so that no negative score comes from
    the language model. *)
Theorem oracle_score_is_not_negative
    (w : World) (text1 text2 : string) (ct : cache_type) (prompt_type : string) :
  (forall content, 0 <= score_of_response content)
  /\ (cache_peek w ct text1 text2 = None ->
      exists score w',
        run (semantic_similarity_chatgpt text1 text2 ct prompt_type) w
        = (inr score, w')
        /\ 0 <= score).
Proof.
  assert (H : forall content, 0 <= score_of_response content).
  { intros content. unfold score_of_response.
    destruct (re_search_number _) as [q|] eqn:E;
      [apply (re_search_number_nonneg _ _ E) | discriminate]. }
  split; [exact H|]. intros Hmiss. do 2 eexists.
  split; [apply run_semantic|]. unfold semantic_outcome. rewrite Hmiss.
  destruct (oracle w (oracle_calls w) _); cbn [fst snd]; [apply H | discriminate].
Qed.

End ResolutionCost.

(** ** Normalization and the relation table *)

Section Normalization.
Import Py Database Similarity Vocab Vocab2.
Open Scope Q_scope.

Lemma has_punctuation_remove s :
  has_punctuation (Text.remove_punctuation s) = false.
Proof.
  induction s as [|c s IH]; [reflexivity|]. simpl.
  destruct (Text.is_punctuation c) eqn:E; [exact IH|].
  simpl. rewrite E, IH. reflexivity.
Qed.

Lemma has_punctuation_lstrip s :
  has_punctuation s = false -> has_punctuation (Text.lstrip s) = false.
Proof.
  induction s as [|c s IH]; [reflexivity|]. intros H. simpl.
  destruct (Text.is_whitespace c); [|exact H].
  apply IH. simpl in H. apply orb_false_iff in H as [_ H]. exact H.
Qed.

Lemma has_punctuation_rev_app s1 s2 :
  has_punctuation (String.rev_app s1 s2)
  = has_punctuation s1 || has_punctuation s2.
Proof.
  revert s2. induction s1 as [|c s1 IH]; intros s2; [reflexivity|].
  simpl. rewrite IH. simpl.
  destruct (Text.is_punctuation c), (has_punctuation s1), (has_punctuation s2);
    reflexivity.
Qed.

Lemma has_punctuation_rev s :
  has_punctuation (String.rev s) = has_punctuation s.
Proof.
  unfold String.rev. rewrite has_punctuation_rev_app. simpl.
  apply orb_false_r.
Qed.

Lemma has_punctuation_strip s :
  has_punctuation s = false -> has_punctuation (Text.strip s) = false.
Proof.
  intros H. unfold Text.strip, Text.rstrip.
  rewrite has_punctuation_rev. apply has_punctuation_lstrip.
  rewrite has_punctuation_rev. apply has_punctuation_lstrip, H.
Qed.

Lemma has_punctuation_normalize t : has_punctuation (normalize_text t) = false.
Proof.
  unfold normalize_text. destruct (negb (Text.truthy t)); [reflexivity|].
  apply has_punctuation_strip, has_punctuation_remove.
Qed.

(** A skill that is no base skill and no related skill of the table is
    related to nothing. *)
Lemma relations_scan_stranger table n1 n2 :
  forallb (fun entry => negb (String.eqb n1 entry.1) && negb (mem n1 entry.2))
          table = true ->
  relations_scan table n1 n2 = None.
Proof.
  induction table as [|[base related] table IH]; [reflexivity|].
  simpl. intros [[Hb Hr]%andb_true_iff Ht]%andb_true_iff.
  apply negb_true_iff in Hb, Hr. rewrite Hb, Hr. simpl.
  rewrite andb_false_r. apply IH, Ht.
Qed.

Lemma relations_scan_skip pre rest n1 n2 :
  forallb (fun entry => negb (String.eqb n1 entry.1) && negb (mem n1 entry.2))
          pre = true ->
  relations_scan (pre ++ rest) n1 n2 = relations_scan rest n1 n2.
Proof.
  induction pre as [|[base related] pre IH]; [reflexivity|].
  simpl. intros [[Hb Hr]%andb_true_iff Ht]%andb_true_iff.
  apply negb_true_iff in Hb, Hr. rewrite Hb, Hr. simpl.
  rewrite andb_false_r. apply IH, Ht.
Qed.

(** X13: a normalized text holds no punctuation character, so that no
    text normalizes to an entry of the relation table that is written
    with one (c#, c++, ci/cd, node.js, .net ...).  C# in particular
    normalizes to the letter c, which the table lists beside stl, boost,
    qt and unreal engine: C# is found identical to whatever normalizes
    to c, C++ among them, related by 0.7 to these four, and related to
    nothing else, dotnet included. *)
Theorem normalize_text_drops_punctuation :
  (forall text, has_punctuation (normalize_text text) = false)
  /\ (forall text entry, has_punctuation entry = true ->
                         normalize_text text <> entry)
  /\ (forall skill,
        check_skills_relations "C#" skill
        = if String.eqb (normalize_text skill) "c" then Some 1.0
          else if mem (normalize_text skill) ["stl"; "boost"; "qt"; "unreal engine"]
               then Some 0.7 else None)
  /\ check_skills_relations "C#" "C++" = Some 1.0
  /\ check_skills_relations "C#" ".NET" = None.
Proof.
  split; [apply has_punctuation_normalize|].
  assert (Hne : forall text entry, has_punctuation entry = true ->
                                   normalize_text text <> entry).
  { intros text entry H E. rewrite <- E, has_punctuation_normalize in H.
    discriminate. }
  split; [exact Hne|].
  split; [|split; vm_compute; reflexivity].
  intros skill. unfold check_skills_relations.
  change (normalize_text "C#") with "c".
  rewrite (String.eqb_sym "c").
  destruct (String.eqb (normalize_text skill) "c") eqn:Ec; [reflexivity|].
  rewrite <- (take_drop 5 Config.TECH_SKILLS_RELATIONS).
  rewrite relations_scan_skip by (vm_compute; reflexivity).
  let d := eval vm_compute in (drop 5 Config.TECH_SKILLS_RELATIONS) in
  change (drop 5 Config.TECH_SKILLS_RELATIONS) with d.
  match goal with
  | |- relations_scan (?e :: ?post) _ _ = _ =>
      change (e :: post) with ([e] ++ post)%list; set (tail := post)
  end.
  cbn [relations_scan app fst snd].
  change (String.eqb "c" "c++") with false.
  change (mem "c" ["c"; "stl"; "boost"; "qt"; "unreal engine"]) with true.
  assert (Hcpp : String.eqb (normalize_text skill) "c++" = false).
  { apply String.eqb_neq, Hne. reflexivity. }
  rewrite Hcpp. cbn [andb].
  change (mem (normalize_text skill) ["c"; "stl"; "boost"; "qt"; "unreal engine"])
    with (String.eqb (normalize_text skill) "c"
          || mem (normalize_text skill) ["stl"; "boost"; "qt"; "unreal engine"]).
  rewrite Ec. cbn [orb].
  destruct (mem (normalize_text skill) _); [reflexivity|].
  subst tail. apply relations_scan_stranger. vm_compute. reflexivity.
Qed.

End Normalization.

(** ** The weights of a job *)

Section Weights.
Import Py Vocab Vocab2 Scoring.
Open Scope Q_scope.

Ltac job_cases job :=
  unfold total, adaptive_weights, present, fields_absent;
  destruct (not_list (Job.hard_skills job)),
           (not_list (Job.required_experiences job)),
           (not_str (Job.required_degree job)),
           (Job.salary job) as [[?|]|],
           (Job.offers_remote job) as [?|],
           (not_list (Job.required_languages job)),
           (not_list (Job.required_soft_skills job)).

Ltac by_evaluation :=
  vm_compute; let H := fresh in intros H; discriminate H.

(** X14: with the default base weights [adaptive_weights] never
    raises; it answers a weight for each of the seven dimensions, in the
    order of the base weights; no weight is negative, and within the
    tolerance of 1e-6 no weight and no total of the weights is above 1 and
    a dimension the job has never weighs less than its base weight. *)
Theorem adaptive_weights_default_shape (job : Job.t) :
  exists weights,
    adaptive_weights job None = inr weights
    /\ map fst weights = map fst Config.BASE_WEIGHTS
    /\ Forall (fun x => 0 <= x /\ x <= 1 + tolerance) (dict_values weights)
    /\ total weights <= 1 + tolerance
    /\ Forall2 (fun kv kb => present job kb.1 = true -> kb.2 - tolerance <= kv.2)
               weights Config.BASE_WEIGHTS.
Proof.
  job_cases job;
    (eexists; split; [vm_compute; reflexivity|];
     split; [reflexivity|];
     split; [unfold dict_values; cbn [map snd];
             repeat (constructor; [split; by_evaluation|]); constructor|];
     split; [by_evaluation|];
     repeat (constructor;
             [let H := fresh in
              intros H; first [ vm_compute in H; discriminate H | by_evaluation ]|]);
     constructor).
Qed.

Lemma dict_get_set_other {V} (d : Config.dict V) key k (v : V) :
  k <> key -> dict_get (dict_set d key v) k = dict_get d k.
Proof.
  intros Hne. unfold dict_get. induction d as [|[k' v'] d IH]; simpl.
  - destruct (String.eqb_spec key k) as [->|_]; [congruence | reflexivity].
  - destruct (String.eqb_spec k' key) as [->|Hk]; simpl.
    + destruct (String.eqb_spec key k) as [->|_]; [congruence | reflexivity].
    + destruct (String.eqb k' k); [reflexivity | exact IH].
Qed.

Lemma dict_get_zeroed (absent : list string) (d : Config.dict Q) k :
  dict_get (fold_left (fun d field => dict_set d field 0.0) absent d) k
  = if Similarity.mem k absent then Some 0.0 else dict_get d k.
Proof.
  revert d. induction absent as [|f absent IH]; intros d; [reflexivity|].
  cbn [fold_left]. rewrite IH. unfold Similarity.mem. cbn [existsb].
  fold (Similarity.mem k absent).
  destruct (Similarity.mem k absent); [rewrite orb_true_r; reflexivity|].
  rewrite orb_false_r.
  destruct (String.eqb_spec k f) as [->|Hne];
    [apply dict_get_set | apply dict_get_set_other, Hne].
Qed.

Ltac fixed_fields :=
  let Hp := fresh in
  intros ? [<- | [<- | []]] Hp;
  first [ match goal with
          | M : Similarity.mem _ _ = true |- _ => rewrite M in Hp; discriminate Hp
          end
        | match goal with
          | G : dict_get _ _ = Some _ |- _ => rewrite G; discriminate
          end ].

(** X15: with base weights of the caller's, [adaptive_weights] raises a
    KeyError exactly when the job has a salary or a remote-work indicator
    for which the base weights hold no entry, and the error names such a
    field; a dimension the job lacks needs no entry. *)
Theorem adaptive_weights_custom_key_error
    (job : Job.t) (base_weights : Config.dict Q) :
  match adaptive_weights job (Some base_weights) with
  | inl e =>
      exists field,
        e = KeyError field /\ In field Config.FIXED_FIELDS
        /\ present job field = true /\ dict_get base_weights field = None
  | inr _ =>
      forall field,
        In field Config.FIXED_FIELDS -> present job field = true ->
        dict_get base_weights field <> None
  end.
Proof.
  unfold adaptive_weights, present.
  cbn [get_default Config.FIXED_FIELDS fixed_loop].
  set (absent := fields_absent job).
  set (zeroed := fold_left _ absent base_weights).
  assert (Hs : dict_get zeroed "salary"
               = if Similarity.mem "salary" absent then Some 0.0
                 else dict_get base_weights "salary")
    by apply dict_get_zeroed.
  assert (Hr : dict_get zeroed "remote_work"
               = if Similarity.mem "remote_work" absent then Some 0.0
                 else dict_get base_weights "remote_work")
    by apply dict_get_zeroed.
  destruct (Similarity.mem "salary" absent) eqn:Ms; cbn [negb].
  - rewrite dict_get_set_other by discriminate.
    destruct (Similarity.mem "remote_work" absent) eqn:Mr; cbn [negb].
    + destruct (adjustable_loop _ _).
      fixed_fields.
    + rewrite Hr. destruct (dict_get base_weights "remote_work") eqn:Gr.
      * destruct (adjustable_loop _ _).
        fixed_fields.
      * exists "remote_work". rewrite Mr.
        repeat split; [right; left; reflexivity | exact Gr].
  - rewrite Hs. destruct (dict_get base_weights "salary") eqn:Gs.
    + destruct (Similarity.mem "remote_work" absent) eqn:Mr; cbn [negb].
      * destruct (adjustable_loop _ _).
        fixed_fields.
      * rewrite Hr. destruct (dict_get base_weights "remote_work") eqn:Gr.
        -- destruct (adjustable_loop _ _).
           fixed_fields.
        -- exists "remote_work". rewrite Mr.
        repeat split; [right; left; reflexivity | exact Gr].
    + exists "salary". rewrite Ms.
      repeat split; [left; reflexivity | exact Gs].
Qed.

End Weights.

(** ** Languages *)

Section LanguageScores.
Import Py Vocab Vocab2 Scoring Languages.
Open Scope Q_scope.

Lemma level_value_range (level : string) : (0 <= level_value level <= 4)%Z.
Proof.
  unfold level_value.
  destruct (dict_get LANGUAGE_LEVELS (Text.lower level)) as [v|] eqn:E;
    cbn [get_default]; [|lia].
  apply dict_get_In in E. unfold LANGUAGE_LEVELS in E. cbn [In] in E.
  repeat (destruct E as [[= _ <-]|E]; [lia|]). destruct E.
Qed.

(** The scorer reads the two levels through their values, five each. *)
Ltac level_cases c r :=
  let vc := fresh "vc" in
  let vr := fresh "vr" in
  let Hc := fresh in
  let Hr := fresh in
  pose proof (level_value_range c) as Hc;
  pose proof (level_value_range r) as Hr;
  unfold meets, language_score;
  set (vc := level_value c) in *; set (vr := level_value r) in *;
  assert (vc = 0 \/ vc = 1 \/ vc = 2 \/ vc = 3 \/ vc = 4)%Z
    as [-> | [-> | [-> | [-> | ->]]]] by lia;
  assert (vr = 0 \/ vr = 1 \/ vr = 2 \/ vr = 3 \/ vr = 4)%Z
    as [-> | [-> | [-> | [-> | ->]]]] by lia;
  clear Hc Hr.

Ltac evaluated :=
  vm_compute; first [ reflexivity | let H := fresh in intros H; discriminate H ].

Lemma language_score_in_unit c r req : in_unit (language_score c r req).
Proof. destruct req; level_cases c r; split; evaluated. Qed.

Lemma language_score_met c r req :
  (level_value r <= level_value c)%Z -> language_score c r req == 1.
Proof.
  destruct req; level_cases c r; intros H;
    first [ evaluated | exfalso; lia ].
Qed.

(** X16: [language_score] lies between 0 and 1; it is 1 exactly when the
    candidate's level reaches the level asked for, so that the bonus for a
    higher level never shows; a required language never scores more than
    the same language when recommended, and a recommended language never
    scores 0.  A level that [LANGUAGE_LEVELS] does not list counts as no
    level at all. *)
Theorem language_score_shape (candidate_level required_level : string) :
  (forall is_required,
     in_unit (language_score candidate_level required_level is_required)
     /\ (language_score candidate_level required_level is_required == 1
         <-> (level_value required_level <= level_value candidate_level)%Z))
  /\ language_score candidate_level required_level true
     <= language_score candidate_level required_level false
  /\ 0 < language_score candidate_level required_level false
  /\ (dict_get LANGUAGE_LEVELS (Text.lower candidate_level) = None ->
      level_value candidate_level = 0%Z).
Proof.
  split; [|split; [|split]].
  - intros [|]; level_cases candidate_level required_level;
      (split; [split; evaluated|]);
      (split; intros H;
       [ first [ lia | exfalso; vm_compute in H; discriminate H ]
       | first [ evaluated | exfalso; lia ] ]).
  - level_cases candidate_level required_level; evaluated.
  - level_cases candidate_level required_level; evaluated.
  - unfold level_value. intros ->. reflexivity.
Qed.

(** *** Averages of scores *)

Lemma inject_Z_succ (n : nat) :
  inject_Z (Z.of_nat (S n)) == inject_Z (Z.of_nat n) + 1.
Proof. rewrite Nat2Z.inj_succ, <- Z.add_1_r, inject_Z_plus. reflexivity. Qed.

Lemma fold_plus_unit (xs : list Q) (a : Q) :
  Forall in_unit xs ->
  a <= fold_left Qplus xs a
  /\ fold_left Qplus xs a <= a + inject_Z (Z.of_nat (List.length xs)).
Proof.
  intros H. revert a. induction H as [|x xs [Hx0 Hx1] _ IH]; intros a.
  - cbn [fold_left List.length]. change (inject_Z (Z.of_nat 0)) with 0.
    split; lra.
  - cbn [fold_left List.length]. destruct (IH (a + x)) as [IH0 IH1].
    rewrite inject_Z_succ. split; lra.
Qed.

Lemma fold_plus_ones (xs : list Q) (a : Q) :
  Forall (fun x => x == 1) xs ->
  fold_left Qplus xs a == a + inject_Z (Z.of_nat (List.length xs)).
Proof.
  intros H. revert a. induction H as [|x xs Hx _ IH]; intros a.
  - cbn [fold_left List.length]. change (inject_Z (Z.of_nat 0)) with 0. lra.
  - cbn [fold_left List.length]. rewrite IH, inject_Z_succ, Hx. lra.
Qed.

Lemma length_positive {A} (xs : list A) :
  xs <> [] -> 0 < inject_Z (Z.of_nat (List.length xs)).
Proof.
  destruct xs as [|x xs]; [congruence|]. intros _.
  cbn [List.length]. rewrite inject_Z_succ.
  assert (0 <= inject_Z (Z.of_nat (List.length xs))).
  { change 0 with (inject_Z 0). rewrite <- Zle_Qle. lia. }
  lra.
Qed.

Lemma mean_in_unit (xs : list Q) :
  xs <> [] -> Forall in_unit xs -> in_unit (mean xs).
Proof.
  intros Hne H. unfold mean, sum.
  destruct (fold_plus_unit xs 0 H) as [H0 H1].
  pose proof (length_positive xs Hne) as Hn. split.
  - apply Qle_shift_div_l; [exact Hn | lra].
  - apply Qle_shift_div_r; [exact Hn | lra].
Qed.

Lemma mean_ones (xs : list Q) :
  xs <> [] -> Forall (fun x => x == 1) xs -> mean xs == 1.
Proof.
  intros Hne H. unfold mean, sum. rewrite (fold_plus_ones xs 0 H).
  pose proof (length_positive xs Hne) as Hn.
  rewrite Qplus_0_l. unfold Qdiv. apply Qmult_inv_r. lra.
Qed.

Lemma combine_in_unit (xs ys : list Q) :
  Forall in_unit xs -> Forall in_unit ys ->
  in_unit (combine_averages (mean_or_none xs) (mean_or_none ys)).
Proof.
  intros Hx Hy.
  assert (Gx : xs <> [] -> in_unit (mean xs)) by (intros; apply mean_in_unit; auto).
  assert (Gy : ys <> [] -> in_unit (mean ys)) by (intros; apply mean_in_unit; auto).
  destruct xs as [|x xs], ys as [|y ys]; cbn [mean_or_none combine_averages].
  - split; evaluated.
  - apply Gy. discriminate.
  - apply Gx. discriminate.
  - destruct Gx as [? ?]; [discriminate|]. destruct Gy as [? ?]; [discriminate|].
    split; lra.
Qed.

Lemma combine_ones (xs ys : list Q) :
  Forall (fun x => x == 1) xs -> Forall (fun x => x == 1) ys ->
  (xs <> [] \/ ys <> []) ->
  combine_averages (mean_or_none xs) (mean_or_none ys) == 1.
Proof.
  intros Hx Hy Hne.
  assert (Gx : xs <> [] -> mean xs == 1) by (intros; apply mean_ones; auto).
  assert (Gy : ys <> [] -> mean ys == 1) by (intros; apply mean_ones; auto).
  destruct xs as [|x xs], ys as [|y ys]; cbn [mean_or_none combine_averages].
  - destruct Hne; congruence.
  - apply Gy. discriminate.
  - apply Gx. discriminate.
  - rewrite Gx, Gy by discriminate. lra.
Qed.

(** The two lists of scores along the loop. *)
Lemma language_loop_scores (P : Q -> Prop) candidate_languages
    (required_languages : Config.dict LanguageReq) (st : LanguageLocals) :
  Forall (fun item =>
            P (language_score
                 (get_default (dict_get candidate_languages (Text.lower item.1)) "rien")
                 (get_default (level item.2) "")
                 (get_default (required item.2) false)))
         required_languages ->
  Forall P (required_scores st) -> Forall P (recommended_scores st) ->
  let st' := fold_left (language_step candidate_languages) required_languages st in
  Forall P (required_scores st') /\ Forall P (recommended_scores st')
  /\ (List.length (required_scores st') + List.length (recommended_scores st')
      = List.length (required_scores st) + List.length (recommended_scores st)
        + List.length required_languages)%nat.
Proof.
  intros H. revert st. induction H as [|item rest Hitem _ IH]; intros st H1 H2.
  - simpl. repeat split; auto.
  - cbn [fold_left].
    set (st1 := language_step candidate_languages st item).
    assert (Forall P (required_scores st1) /\ Forall P (recommended_scores st1)
            /\ (List.length (required_scores st1)
                + List.length (recommended_scores st1)
                = S (List.length (required_scores st)
                     + List.length (recommended_scores st)))%nat)
      as (G1 & G2 & G3).
    { subst st1. unfold language_step.
      destruct (get_default (required item.2) false);
        cbn [required_scores recommended_scores];
        rewrite ?Forall_app, ?length_app; cbn [List.length];
        (split; [|split]); auto; lia. }
    destruct (IH st1 G1 G2) as (K1 & K2 & K3).
    split; [exact K1|]. split; [exact K2|].
    rewrite K3, G3. cbn [List.length]. lia.
Qed.

(** X17: the score of [calculate_language_score] lies between 0 and
    1, whatever the levels the candidate and the job give. *)
Theorem calculate_language_score_in_unit
    (candidate_languages : Config.dict string)
    (required_languages : Config.dict LanguageReq) :
  in_unit (calculate_language_score candidate_languages required_languages).1.
Proof.
  unfold calculate_language_score.
  destruct required_languages as [|item rest]; [split; evaluated|].
  cbn [fst].
  destruct (language_loop_scores in_unit candidate_languages (item :: rest)
              (mkLanguageLocals [] [] [])) as (H1 & H2 & _);
    [|constructor|constructor|apply combine_in_unit; assumption].
  apply Forall_forall. intros ? _. apply language_score_in_unit.
Qed.

(** X18: a candidate who reaches the level of every language asked for
    scores 1.0, provided a language is asked for at all. *)
Theorem calculate_language_score_full_marks
    (candidate_languages : Config.dict string)
    (required_languages : Config.dict LanguageReq) :
  required_languages <> [] ->
  Forall (meets candidate_languages) required_languages ->
  (calculate_language_score candidate_languages required_languages).1 == 1.
Proof.
  intros Hne Hall. unfold calculate_language_score.
  destruct required_languages as [|item rest]; [congruence|].
  cbn [fst].
  destruct (language_loop_scores (fun x => x == 1) candidate_languages
              (item :: rest) (mkLanguageLocals [] [] [])) as (H1 & H2 & H3);
    [|constructor|constructor|].
  - eapply Forall_impl; [exact Hall|]. intros it Hit.
    apply language_score_met, Hit.
  - apply combine_ones; [exact H1 | exact H2|].
    cbn [required_scores recommended_scores List.length] in H3.
    destruct (required_scores _); [|left; discriminate].
    destruct (recommended_scores _); [|right; discriminate].
    simpl in H3. lia.
Qed.

Lemma calculate_language_score_full_marks_witness :
  (calculate_language_score [("anglais", "Courant")]
     [a_language]).1 == 1.
Proof.
  apply (calculate_language_score_full_marks [("anglais", "Courant")]
           [a_language]).
  - discriminate.
  - constructor; [vm_compute; discriminate | constructor].
Defined.

End LanguageScores.

(** ** Experiences *)

Section ExperienceScores.
Import Py Vocab Vocab2 Scoring Experiences.
Open Scope Q_scope.

(** X19: for months that a float holds exactly (up to 2^53 either way),
    [experience_duration_score] is at most 1, and is 1 exactly when
    nothing is required or the candidate has the months required; it is
    not negative for a candidate whose months are not, and it is negative,
    not 0, for negative months against a positive requirement. *)
Theorem experience_duration_score_shape (candidate_months required_months : Z) :
  float_exact candidate_months -> float_exact required_months ->
  experience_duration_score candidate_months required_months <= 1
  /\ (experience_duration_score candidate_months required_months == 1
      <-> (required_months <= 0 \/ required_months <= candidate_months)%Z)
  /\ ((0 <= candidate_months)%Z ->
      0 <= experience_duration_score candidate_months required_months)
  /\ ((candidate_months < 0 < required_months)%Z ->
      experience_duration_score candidate_months required_months < 0).
Proof.
  intros _ _. unfold experience_duration_score.
  destruct (Z.leb_spec required_months 0) as [Hr|Hr].
  - split; [lra|]. split; [split; [auto | reflexivity]|].
    split; [intros _; lra | lia].
  - assert (Hpos : 0 < inject_Z required_months).
    { change 0 with (inject_Z 0). rewrite <- Zlt_Qlt. exact Hr. }
    set (ratio := inject_Z candidate_months / inject_Z required_months).
    assert (Hle : 1 <= ratio <-> (required_months <= candidate_months)%Z).
    { unfold ratio. rewrite Zle_Qle. split; intros H.
      - apply Qmult_le_compat_r with (z := inject_Z required_months) in H;
          [|lra].
        rewrite Qmult_1_l in H. unfold Qdiv in H.
        rewrite <- Qmult_assoc, (Qmult_comm (/ _)), Qmult_inv_r, Qmult_1_r in H
          by lra.
        exact H.
      - apply Qle_shift_div_l; [exact Hpos | lra]. }
    assert (Hsign : (0 <= candidate_months)%Z -> 0 <= ratio).
    { intros Hc. unfold ratio. apply Qle_shift_div_l; [exact Hpos|].
      rewrite Qmult_0_l. change 0 with (inject_Z 0). rewrite <- Zle_Qle.
      exact Hc. }
    assert (Hneg : (candidate_months < 0)%Z -> ratio < 0).
    { intros Hc. unfold ratio. apply Qlt_shift_div_r; [exact Hpos|].
      rewrite Qmult_0_l. change 0 with (inject_Z 0). rewrite <- Zlt_Qlt.
      exact Hc. }
    destruct (Q.min_spec 1.0 ratio) as [[Hlt Hm] | [Hge Hm]];
      set (m := Qmin 1.0 ratio) in *.
    + split; [lra|]. split.
      * split; [intros _; right; apply Hle; lra | intros _; lra].
      * split; [intros _; lra|]. intros [Hc _]. apply Hneg in Hc. lra.
    + split; [lra|]. split.
      * split.
        -- intros H. right. apply Hle. lra.
        -- intros [H | H]; [lia|]. apply Hle in H. lra.
      * split.
        -- intros Hc. apply Hsign in Hc. lra.
        -- intros [Hc _]. apply Hneg in Hc. lra.
Qed.

Lemma experience_duration_score_shape_witness :
  experience_duration_score 6 12 <= 1
  /\ (experience_duration_score 6 12 == 1 <-> (12 <= 0 \/ 12 <= 6)%Z)
  /\ ((0 <= 6)%Z -> 0 <= experience_duration_score 6 12)
  /\ ((6 < 0 < 12)%Z -> experience_duration_score 6 12 < 0).
Proof.
  apply (experience_duration_score_shape 6 12);
    unfold float_exact; vm_compute; discriminate.
Defined.

Lemma run_calculate_experience_score candidate_exp required_exp w :
  exists found w',
    run (calculate_experience_score candidate_exp required_exp) w = (inr found, w').
Proof.
  unfold calculate_experience_score, Similarity.get_name_similarity.
  rewrite (run_bind _ _ _ _ _ (run_get_similarity w _ _ _ _)).
  do 2 eexists. reflexivity.
Qed.

Lemma run_best_experience candidate_experiences required_exp best w :
  exists best' w',
    run (best_experience candidate_experiences required_exp best) w
    = (inr best', w').
Proof.
  revert best w. induction candidate_experiences as [|c rest IH]; intros best w.
  - do 2 eexists. reflexivity.
  - cbn [best_experience].
    destruct (run_calculate_experience_score c required_exp w) as (found & w1 & R).
    rewrite (run_bind _ _ _ _ _ R).
    destruct (Qltb best.1.1 found.1); apply IH.
Qed.

Lemma run_experience_step candidate_experiences st required_exp w :
  exists st' w',
    run (experience_step candidate_experiences st required_exp) w = (inr st', w')
    /\ List.length (experience_details st') = S (List.length (experience_details st))
    /\ (unknown_category required_exp ->
        obligatory_scores st' = obligatory_scores st
        /\ recommended_scores st' = recommended_scores st).
Proof.
  unfold experience_step.
  destruct (run_best_experience candidate_experiences required_exp
              (0.0, mkSubScores 0.0 0.0, "") w) as (best & w1 & R).
  rewrite (run_bind _ _ _ _ _ R).
  destruct (String.eqb_spec
              (Text.lower (get_default (exp_category required_exp) ""))
              "obligatoire") as [E1|E1];
    [|destruct (String.eqb_spec
                  (Text.lower (get_default (exp_category required_exp) ""))
                  "recommandée") as [E2|E2]];
    do 2 eexists; (split; [reflexivity|]);
    cbn [experience_details obligatory_scores recommended_scores];
    rewrite length_app; cbn [List.length];
    (split; [lia|]); intros [U1 U2]; try congruence; split; reflexivity.
Qed.

Lemma run_experiences_loop candidate_experiences st required_experiences w :
  exists st' w',
    run (experiences_loop candidate_experiences st required_experiences) w
    = (inr st', w')
    /\ List.length (experience_details st')
       = (List.length (experience_details st)
          + List.length required_experiences)%nat
    /\ (Forall unknown_category required_experiences ->
        obligatory_scores st' = obligatory_scores st
        /\ recommended_scores st' = recommended_scores st).
Proof.
  revert st w. induction required_experiences as [|r rest IH]; intros st w.
  - do 2 eexists. split; [reflexivity|]. cbn [List.length].
    split; [lia | auto].
  - cbn [experiences_loop].
    destruct (run_experience_step candidate_experiences st r w)
      as (st1 & w1 & R & L1 & U1).
    rewrite (run_bind _ _ _ _ _ R).
    destruct (IH st1 w1) as (st2 & w2 & R2 & L2 & U2).
    exists st2, w2. split; [exact R2|]. cbn [List.length].
    split; [lia|]. intros [Hr Hrest]%Forall_cons.
    destruct (U1 Hr) as [E1 E2]. destruct (U2 Hrest) as [F1 F2].
    split; congruence.
Qed.

(** X20: when every required experience has a category that,
    lower-cased, is neither obligatoire nor recommandée (the masculine
    recommandé of the hard skills, for one), and the months of all
    experiences are integers that a float holds exactly,
    [compare_experiences] raises nothing and answers the score 0.0 however
    well the candidate matches, with one detail for each requirement when
    the candidate has an experience: the requirements are matched and
    listed, and count in neither average. *)
Theorem compare_experiences_unknown_category
    (candidate_experiences required_experiences : list Experience) (w : World) :
  Forall months_exact candidate_experiences ->
  Forall months_exact required_experiences ->
  Forall unknown_category required_experiences ->
  exists details w',
    run (compare_experiences candidate_experiences required_experiences) w
    = (inr (0.0, details), w')
    /\ List.length details
       = match candidate_experiences with
         | [] => 0%nat
         | _ => List.length required_experiences
         end.
Proof.
  intros _ _ Hall. unfold compare_experiences.
  destruct candidate_experiences as [|c cands];
    [do 2 eexists; split; reflexivity|].
  destruct required_experiences as [|r reqs];
    [do 2 eexists; split; reflexivity|].
  destruct (run_experiences_loop (c :: cands) (mkExperienceLocals [] [] [])
              (r :: reqs) w) as (st & w1 & R & L & U).
  rewrite (run_bind _ _ _ _ _ R).
  destruct (U Hall) as [E1 E2]. cbn [obligatory_scores recommended_scores] in E1, E2.
  rewrite E1, E2. do 2 eexists. split; [reflexivity|].
  cbn [snd]. rewrite L. reflexivity.
Qed.

Lemma compare_experiences_unknown_category_witness :
  exists details w',
    run (compare_experiences [an_experience] [a_recommended_experience])
        (fresh_world model_down)
    = (inr (0.0, details), w')
    /\ List.length details = 1%nat.
Proof.
  apply (compare_experiences_unknown_category [an_experience]
           [a_recommended_experience] (fresh_world model_down)).
  - constructor; [|constructor]. vm_compute. discriminate.
  - constructor; [|constructor]. vm_compute. discriminate.
  - constructor; [|constructor]. split; vm_compute; discriminate.
Defined.

End ExperienceScores.

(** ** The total of a match *)

Section MatchTotal.
Import Py Vocab Vocab2 Scoring Matching.
Open Scope Q_scope.

Lemma elem_of_tag_set (x : string) (tags : list string) :
  x ∈ tag_set tags <-> exists tag, In tag tags /\ Text.lower tag = x.
Proof.
  unfold tag_set. rewrite elem_of_list_to_set, list_elem_of_In, in_map_iff.
  split; intros (tag & H1 & H2); exists tag; auto.
Qed.

Lemma size_list_to_set_le (l : list string) :
  (size (list_to_set l : gset string) <= List.length l)%nat.
Proof.
  induction l as [|x l IH]; [rewrite list_to_set_nil, size_empty; lia|].
  rewrite list_to_set_cons, size_union_alt, size_singleton. cbn [List.length].
  assert (size (list_to_set l ∖ {[x]} : gset string)
          <= size (list_to_set l : gset string))%nat
    by (apply subseteq_size, subseteq_difference_l; reflexivity).
  lia.
Qed.

Lemma size_tag_set_le (tags : list string) :
  (size (tag_set tags) <= List.length tags)%nat.
Proof.
  unfold tag_set. etransitivity; [apply size_list_to_set_le|].
  rewrite length_map. lia.
Qed.

(** X21: the common tags are the lower-cased tags the two lists share,
    whatever the order of the lists, their case and their repetitions:
    there are no more of them than tags in either list, so that a bonus
    takes two tags on each side, and the bonus is 0, 0.05 or 0.10. *)
Theorem common_tags_shape (candidate_tags job_tags : list string) :
  common_tags candidate_tags job_tags = common_tags job_tags candidate_tags
  /\ (forall x, x ∈ common_tags candidate_tags job_tags
                <-> exists c j, In c candidate_tags /\ In j job_tags
                                /\ Text.lower c = x /\ Text.lower j = x)
  /\ (size (common_tags candidate_tags job_tags)
      <= Nat.min (List.length candidate_tags) (List.length job_tags))%nat
  /\ (forall n, tag_bonus n == 0 \/ tag_bonus n == 0.05 \/ tag_bonus n == 0.10)
  /\ (0 < tag_bonus (size (common_tags candidate_tags job_tags)) ->
      (2 <= List.length candidate_tags)%nat /\ (2 <= List.length job_tags)%nat).
Proof.
  assert (Hsize : (size (common_tags candidate_tags job_tags)
                   <= Nat.min (List.length candidate_tags)
                              (List.length job_tags))%nat).
  { unfold common_tags. apply Nat.min_glb.
    - etransitivity; [|apply size_tag_set_le].
      apply subseteq_size, intersection_subseteq_l.
    - etransitivity; [|apply size_tag_set_le].
      apply subseteq_size, intersection_subseteq_r. }
  split; [unfold common_tags; apply intersection_comm_L|].
  split.
  { intros x. unfold common_tags.
    rewrite elem_of_intersection, !elem_of_tag_set. split.
    - intros [(c & Hc & Ec) (j & Hj & Ej)]. exists c, j. auto.
    - intros (c & j & Hc & Hj & Ec & Ej). split; eauto. }
  split; [exact Hsize|].
  split.
  { intros n. unfold tag_bonus.
    destruct (n =? 2)%nat; [right; left; reflexivity|].
    destruct (3 <=? n)%nat; [right; right; reflexivity | left; reflexivity]. }
  unfold tag_bonus.
  destruct (Nat.eqb_spec (size (common_tags candidate_tags job_tags)) 2) as [E|_];
    [intros _; lia|].
  destruct (Nat.leb_spec 3 (size (common_tags candidate_tags job_tags)))
    as [Hge|_]; [intros _; lia|].
  intros Hpos. exfalso. vm_compute in Hpos. discriminate Hpos.
Qed.

Ltac job_cases job :=
  unfold adaptive_weights, fields_absent;
  destruct (not_list (Job.hard_skills job)),
           (not_list (Job.required_experiences job)),
           (not_str (Job.required_degree job)),
           (Job.salary job) as [[?|]|],
           (Job.offers_remote job) as [?|],
           (not_list (Job.required_languages job)),
           (not_list (Job.required_soft_skills job)).

Ltac evaluated :=
  vm_compute; first [ reflexivity | let H := fresh in intros H; discriminate H ].

(** The default weights as a vector. *)
Lemma adaptive_weights_default_vector (job : Job.t) :
  exists wh wso we wd wsa wr wl,
    adaptive_weights job None
    = inr [("hard_skills", wh); ("soft_skills", wso); ("experience", we);
           ("degree", wd); ("salary", wsa); ("remote_work", wr);
           ("languages", wl)]
    /\ 0 <= wh /\ 0 <= wso /\ 0 <= we /\ 0 <= wd /\ 0 <= wsa /\ 0 <= wr
    /\ 0 <= wl /\ wh + wso + we + wd + wsa + wr + wl <= 1.
Proof.
  job_cases job;
    (do 7 eexists; split; [vm_compute; reflexivity|]; repeat split; evaluated).
Qed.

Lemma weighted_in_unit (weight x : Q) :
  0 <= weight -> in_unit x -> 0 <= weight * x /\ weight * x <= weight.
Proof.
  intros Hw [H0 H1]. split; [apply Qmult_le_0_compat; assumption|].
  rewrite <- (Qmult_1_r weight) at 2.
  rewrite (Qmult_comm weight x), (Qmult_comm weight 1).
  apply Qmult_le_compat_r; assumption.
Qed.

(** X22: with the seven scores between 0 and 1, [calculate_match_score]
    raises nothing when it weighs them, whatever the job lacks, and its
    total is not negative and, within the tolerance of 1e-6, at most
    1.10, and at most 1 without the tag filter: the tag bonus is the only
    way for a total to pass 1 by more than a rounding error. *)
Theorem total_score_bounds
    (activate_tags : bool) (candidate_tags job_tags : list string)
    (job : Job.t) (s : DimensionScores) :
  scores_in_unit s ->
  exists total_score,
    Matching.total_score activate_tags candidate_tags job_tags job s
    = inr total_score
    /\ 0 <= total_score /\ total_score <= 1.10 + tolerance
    /\ (activate_tags = false -> total_score <= 1 + tolerance).
Proof.
  intros (Hh & Hso & He & Hd & Hsa & Hr & Hl).
  unfold Matching.total_score, calculate_match_score_total.
  set (n := num_common_tags activate_tags candidate_tags job_tags).
  assert (Hn : activate_tags = false -> n = 0%nat)
    by (intros ->; reflexivity).
  destruct (activate_tags && (n =? 0)%nat) eqn:G.
  { eexists. split; [reflexivity|]. repeat split; try evaluated.
    intros _. evaluated. }
  destruct (adaptive_weights_default_vector job)
    as (wh & wso & we & wd & wsa & wr & wl & -> & Wh & Wso & We & Wd & Wsa
        & Wr & Wl & Wsum).
  exists ((wh * hard_skill_score s + wso * soft_skill_score s + we * exp_score s
           + wd * deg_score s + wsa * sal_score s + wr * remote_score s
           + wl * language_score s) * (1 + tag_bonus n)).
  split; [reflexivity|].
  destruct (weighted_in_unit wh _ Wh Hh), (weighted_in_unit wso _ Wso Hso),
    (weighted_in_unit we _ We He), (weighted_in_unit wd _ Wd Hd),
    (weighted_in_unit wsa _ Wsa Hsa), (weighted_in_unit wr _ Wr Hr),
    (weighted_in_unit wl _ Wl Hl).
  set (p1 := wh * hard_skill_score s) in *.
  set (p2 := wso * soft_skill_score s) in *.
  set (p3 := we * exp_score s) in *.
  set (p4 := wd * deg_score s) in *.
  set (p5 := wsa * sal_score s) in *.
  set (p6 := wr * remote_score s) in *.
  set (p7 := wl * language_score s) in *.
  assert (Hb : tag_bonus n == 0 \/ tag_bonus n == 0.05 \/ tag_bonus n == 0.10).
  { unfold tag_bonus. destruct (n =? 2)%nat; [right; left; reflexivity|].
    destruct (3 <=? n)%nat; [right; right; reflexivity | left; reflexivity]. }
  assert (Hb0 : activate_tags = false -> tag_bonus n == 0)
    by (intros E; rewrite (Hn E); reflexivity).
  set (bonus := tag_bonus n) in *. unfold tolerance.
  split; [|split].
  - destruct Hb as [-> | [-> | ->]]; lra.
  - destruct Hb as [-> | [-> | ->]]; lra.
  - intros E. rewrite (Hb0 E). lra.
Qed.

Lemma total_score_bounds_witness :
  exists total_score,
    Matching.total_score true ["Python"; "react"; "SQL"] ["python"; "React"; "sql"]
      job_skills_only (mkDimensionScores 1 1 1 1 1 1 1)
    = inr total_score
    /\ 0 <= total_score /\ total_score <= 1.10 + tolerance
    /\ (true = false -> total_score <= 1 + tolerance).
Proof.
  apply (total_score_bounds true ["Python"; "react"; "SQL"]
           ["python"; "React"; "sql"] job_skills_only
           (mkDimensionScores 1 1 1 1 1 1 1)).
  repeat split; vm_compute; discriminate.
Defined.

(** X23: with the tag filter on, a candidate none of whose tags is a tag
    of the job, case apart, totals 0.0 whatever the seven scores are. *)
Theorem total_score_without_common_tag
    (candidate_tags job_tags : list string) (job : Job.t) (s : DimensionScores) :
  (forall c j, In c candidate_tags -> In j job_tags ->
               Text.lower c <> Text.lower j) ->
  Matching.total_score true candidate_tags job_tags job s = inr 0.0.
Proof.
  intros Hno. unfold Matching.total_score, num_common_tags.
  assert (E : common_tags candidate_tags job_tags = ∅).
  { apply leibniz_equiv, elem_of_equiv_empty. intros x.
    unfold common_tags. rewrite elem_of_intersection, !elem_of_tag_set.
    intros [(c & Hc & Ec) (j & Hj & Ej)]. apply (Hno c j Hc Hj). congruence. }
  rewrite E, size_empty. reflexivity.
Qed.

Lemma total_score_without_common_tag_witness :
  Matching.total_score true ["Python"] ["Java"] job_skills_only
    (mkDimensionScores 1 1 1 1 1 1 1) = inr 0.0.
Proof.
  apply (total_score_without_common_tag ["Python"] ["Java"]).
  intros c j [<- | []] [<- | []]. vm_compute. discriminate.
Defined.

(** X24: the result collected for the task of the hard skills is never
    an exception; when the first required skill of the job has a category
    that is neither obligatoire nor recommandé and the candidate has a
    skill, the UnboundLocalError of [compare_hard_skills] is swallowed and
    the task counts as a score of 0.0 with no details, whatever the other
    skills are. *)
Theorem hard_skills_task_swallows_error
    (candidate : Candidate.t) (job : Job.t) (candidate_skills : list string)
    (job_skill_info : SkillReq) (rest : list SkillReq) (w : World) :
  Candidate.hard_skills candidate = Some candidate_skills ->
  candidate_skills <> [] ->
  Job.hard_skills job = Some (job_skill_info :: rest) ->
  Text.lower (get_default (category job_skill_info) "") <> "obligatoire" ->
  Text.lower (get_default (category job_skill_info) "") <> "recommandé" ->
  (exists w',
     run (calculate_match_score_hard_skills candidate job) w
     = (inr (0.0, []), w'))
  /\ (forall candidate' job' w0,
        exists result w',
          run (calculate_match_score_hard_skills candidate' job') w0
          = (inr result, w')).
Proof.
  intros Hc Hne Hj Ho Hr. split.
  - unfold calculate_match_score_hard_skills. rewrite Hc, Hj.
    cbn [get_default].
    destruct candidate_skills as [|c cs]; [contradiction|].
    pose proof (run_loop_raise (c :: cs) (mkLocals [] [] [] None)
                  job_skill_info rest w) as Hloop.
    rewrite (run_step_uncategorised _ _ _ _ Ho Hr) in Hloop.
    cbn [final_score] in Hloop. specialize (Hloop _ _ eq_refl).
    unfold run, try_except, compare_hard_skills, mbind, M_bind in *.
    rewrite Hloop. eexists. reflexivity.
  - intros candidate' job' w0. unfold calculate_match_score_hard_skills.
    unfold run, try_except.
    destruct (compare_hard_skills _ _ w0) as [[e|r] w1];
      do 2 eexists; reflexivity.
Qed.

Lemma hard_skills_task_swallows_error_witness :
  exists w',
    run (calculate_match_score_hard_skills
           (Candidate.mk (Some ["Python"]) None None)
           (Job.mk (Some [an_uncategorised_skill; a_skill]) None None None None
                   None None))
        (fresh_world model_down)
    = (inr (0.0, []), w').
Proof.
  apply (hard_skills_task_swallows_error
           (Candidate.mk (Some ["Python"]) None None)
           (Job.mk (Some [an_uncategorised_skill; a_skill]) None None None None
                   None None)
           ["Python"] an_uncategorised_skill [a_skill] (fresh_world model_down));
    first [ reflexivity | discriminate | vm_compute; discriminate ].
Defined.

End MatchTotal.
